(** * Framework Control Center: the hardware-facing core of [framework_cc/gui.py]

    A shallow embedding of the control paths of [FrameworkControlCenter]:
    profile resolution and application ([_set_power_profile_sync]),
    refresh-rate requests ([_set_refresh_rate]), start-up ([__init__],
    [_initialize_default_profiles]), the metrics display
    ([_create_metrics_display], [_update_metrics]) and the monitoring
    interval of [_save_settings].

    Python dictionaries are [gmap]s with string keys, exceptions and early
    returns are explicit outcomes, and the collaborators imported from other
    modules ([PowerManager], [DisplayManager], [HardwareMonitor],
    [ModelDetector]) are section variables of the embedding. *)

From Stdlib Require Import Ascii String ZArith.
From stdpp Require Import gmap strings list fin_maps.

Local Open Scope string_scope.
Set Warnings "-register-all".

(** ** Python string operations used by the control paths *)

Module PyStr.

(** Strings are the UTF-8 bytes of Python's text.  [lower], [upper],
    [strip] and [int] below are Python's on ASCII text; on text with
    other characters Python also folds the letters, strips the blanks
    and reads the digits of other scripts, so a statement that depends
    on their result there is made for ASCII text only. *)

(** [c.lower()] on one ASCII character; bytes outside [A-Z] are kept. *)
Definition lower_ascii (c : ascii) : ascii :=
  let n := Ascii.N_of_ascii c in
  if ((65 <=? n) && (n <=? 90))%N then Ascii.ascii_of_N (n + 32) else c.

(** [s.lower()], on ASCII strings. *)
Fixpoint lower (s : string) : string :=
  match s with
  | EmptyString => EmptyString
  | String c s' => String (lower_ascii c) (lower s')
  end.

(** The characters [str.strip()] removes: space, tab, newline, vertical
    tab, form feed, carriage return and the separators 28-31. *)
Definition is_space (c : ascii) : bool :=
  let n := Ascii.N_of_ascii c in
  ((n =? 32) || ((9 <=? n) && (n <=? 13)) || ((28 <=? n) && (n <=? 31)))%N.

Fixpoint lstrip (s : string) : string :=
  match s with
  | EmptyString => EmptyString
  | String c s' => if is_space c then lstrip s' else s
  end.

(** [rstrip] keeps a character when it is not a space or when something
    that is kept follows it. *)
Fixpoint rstrip (s : string) : string :=
  match s with
  | EmptyString => EmptyString
  | String c s' =>
      match rstrip s' with
      | EmptyString => if is_space c then EmptyString else String c EmptyString
      | r => String c r
      end
  end.

(** [s.strip()] *)
Definition strip (s : string) : string := rstrip (lstrip s).

(** [sub in s] for strings *)
Fixpoint contains (sub s : string) : bool :=
  String.prefix sub s ||
  match s with
  | EmptyString => false
  | String _ s' => contains sub s'
  end.

(** [s.replace("Hz", "")]: every occurrence of the two characters is
    dropped, scanning from the left. *)
Fixpoint remove_Hz (s : string) : string :=
  match s with
  | String "H" (String "z" s') => remove_Hz s'
  | String c s' => String c (remove_Hz s')
  | EmptyString => EmptyString
  end.

(** [c.upper()] and [s.upper()], on ASCII. *)
Definition upper_ascii (c : ascii) : ascii :=
  let n := Ascii.N_of_ascii c in
  if ((97 <=? n) && (n <=? 122))%N then Ascii.ascii_of_N (n - 32) else c.

Fixpoint upper (s : string) : string :=
  match s with
  | EmptyString => EmptyString
  | String c s' => String (upper_ascii c) (upper s')
  end.

(** [s.split('_')[0]] *)
Fixpoint before_underscore (s : string) : string :=
  match s with
  | EmptyString => EmptyString
  | String "_" _ => EmptyString
  | String c s' => String c (before_underscore s')
  end.

Definition digit (c : ascii) : option Z :=
  let n := Ascii.N_of_ascii c in
  if ((48 <=? n) && (n <=? 57))%N then Some (Z.of_N (n - 48)) else None.

(** The blanks [int()] accepts around the digits of ASCII text: space,
    tab, newline, vertical tab, form feed and carriage return, not the
    separators 28-31 that [strip()] removes. *)
Definition is_int_space (c : ascii) : bool :=
  let n := Ascii.N_of_ascii c in
  ((n =? 32) || ((9 <=? n) && (n <=? 13)))%N.

Fixpoint skip_int_space (s : string) : string :=
  match s with
  | EmptyString => EmptyString
  | String c s' => if is_int_space c then skip_int_space s' else s
  end.

Fixpoint all_int_space (s : string) : bool :=
  match s with
  | EmptyString => true
  | String c s' => is_int_space c && all_int_space s'
  end.

(** The digits of a literal, with single underscores allowed between
    them, up to the trailing blanks: the value and the number of digits.
    [after_underscore] tells that the character before was an
    underscore, which a digit must follow. *)
Fixpoint int_digits (after_underscore : bool) (acc : Z) (count : N) (s : string)
    : option (Z * N) :=
  match s with
  | EmptyString => if after_underscore then None else Some (acc, count)
  | String c s' =>
      match digit c with
      | Some d => int_digits false (10 * acc + d) (count + 1) s'
      | None =>
          if after_underscore then None
          else if Ascii.eqb c "_" then int_digits true acc count s'
          else if all_int_space s then Some (acc, count)
          else None
      end
  end.

(** [sys.get_int_max_str_digits()] as the interpreter starts: a literal
    with more digits is refused. *)
Definition int_max_str_digits : N := 4300.

(** [int(s)] on ASCII text: blanks, an optional sign, a digit, then
    digits with single underscores between them, blanks; [None] stands
    for [ValueError].  Text with other than ASCII characters (digits and
    blanks of other scripts, which [int()] reads too) is outside this
    definition: it gives [None] there. *)
Definition int (s : string) : option Z :=
  let s := skip_int_space s in
  let '(negative, s) :=
    match s with
    | String "-" r => (true, r)
    | String "+" r => (false, r)
    | _ => (false, s)
    end in
  match s with
  | EmptyString => None
  | String c _ =>
      match digit c with
      | None => None
      | Some _ =>
          match int_digits false 0 0 s with
          | Some (n, count) =>
              if (int_max_str_digits <? count)%N then None
              else Some (if negative then (- n)%Z else n)
          | None => None
          end
      end
  end.

End PyStr.

(** ** Values, exceptions and control flow *)

(** What [json.load] yields for a field of [configs/profiles.json].
    Numbers are the integers the file stores (mW, mA, degrees, W, s, mV). *)
Inductive json : Type :=
| JNull
| JBool (b : bool)
| JInt (n : Z)
| JStr (s : string)
| JList (l : list json)
| JObj (o : gmap string json).

(** The exceptions the modelled paths can raise. *)
Inductive exn : Type :=
| KeyError (key : string)
| TypeError
| ValueError
| RuntimeError (msg : string).

Inductive result (A : Type) : Type :=
| Ok (a : A)
| Raise (e : exn).
Arguments Ok {A} a.
Arguments Raise {A} e.

(** How a call of [_set_power_profile_sync] ends.  The method returns [None]
    on every path; the paths differ in the message they log and in the state
    they leave, and the outcome names the path. *)
Inductive outcome : Type :=
| ProfilesFileMissing                              (* "Profiles configuration file not found" *)
| UnsupportedModel (model_name : string)           (* "Unsupported model: ..." *)
| ProfileNotFound (profile_name profile_key : string) (* "Profile ... not found for ..." *)
| Caught (e : exn)                                 (* "Error setting power profile: ..." *)
| ApplyFailed (profile_name : string)              (* "Failed to apply power profile: ..." *)
| ProfileApplied (profile_name : string).          (* "Successfully applied power profile: ..." *)

(** A computation inside the [try] block: it goes on with a value, or the
    method is left through a [return] or through the [except] handler. *)
Inductive flow (A : Type) : Type :=
| Next (a : A)
| Stop (o : outcome).
Arguments Next {A} a.
Arguments Stop {A} o.

#[global] Instance flow_bind : MBind flow := fun A B k m =>
  match m with
  | Next a => k a
  | Stop o => Stop o
  end.

(** [d[key]] on a dictionary: a missing key raises [KeyError], which the
    enclosing handler catches. *)
Definition getitem {V : Type} (d : gmap string V) (key : string) : flow V :=
  match d !! key with
  | Some v => Next v
  | None => Stop (Caught (KeyError key))
  end.

(** [x // 1000] on a JSON value: floor division on integers ([bool] is an
    [int] in Python), [TypeError] on anything else. *)
Definition floordiv (x : json) (d : Z) : flow json :=
  match x with
  | JInt n => Next (JInt (n `div` d))
  | JBool b => Next (JInt ((if b then 1 else 0) `div` d))
  | _ => Stop (Caught TypeError)
  end.

(** ** Data model *)

(** The detected laptop model, as far as the control center reads it. *)
Record Model : Type := mkModel {
  model_name : string;
  has_dgpu : bool
}.

(** The three recognised platforms, under the names of [model_map]. *)
Inductive platform : Type := AMD16 | AMD13 | Intel13.

Definition platform_name (p : platform) : string :=
  match p with
  | AMD16 => "Framework 16 AMD"
  | AMD13 => "Framework 13 AMD"
  | Intel13 => "Framework 13 Intel"
  end.

(** The profile key of a platform and the section of the file it lives in. *)
Definition platform_key (p : platform) : string :=
  match p with
  | AMD16 => "16_AMD"
  | AMD13 => "13_AMD"
  | Intel13 => "13_INTEL"
  end.

Definition platform_family (p : platform) : string :=
  match p with
  | AMD16 | AMD13 => "amd_profiles"
  | Intel13 => "intel_profiles"
  end.

(** [PowerProfile(name=..., **profile_data)]: the class lives in
    [power_plan]; a profile is the record of its keyword arguments. *)
Record PowerProfile : Type := mkPowerProfile {
  name : string;
  fields : gmap string json
}.

(** [configs/profiles.json]: section, then profile key, then lower-case
    profile name, then the field table. *)
Abbreviation profile_table := (gmap string (gmap string json)).
Abbreviation profiles_config := (gmap string (gmap string (gmap string (gmap string json)))).

(** The settings the control paths read and write ([SystemConfig]). *)
Record SystemConfig : Type := mkSystemConfig {
  current_theme : string;
  language : string;
  minimize_to_tray : bool;
  start_minimized : bool;
  start_with_windows : bool;
  monitoring_interval : Z;
  current_profile : string;
  refresh_rate_mode : string
}.

(** ** Profile resolution (first half of [_set_power_profile_sync]) *)

Definition model_map : gmap string string :=
  list_to_map [("Framework 16 AMD", "16_AMD");
               ("Framework 13 AMD", "13_AMD");
               ("Framework 13 Intel", "13_INTEL")].

(** The branch on [profile_key]: membership test, then the lookup. *)
Definition select_profile_data (config : profiles_config)
    (section_name profile_key profile_name : string) : flow (gmap string json) :=
  sec ← getitem config section_name;
  tbl ← getitem sec profile_key;
  match tbl !! PyStr.lower profile_name with
  | None => Stop (ProfileNotFound profile_name profile_key)
  | Some _ =>
      sec' ← getitem config section_name;
      tbl' ← getitem sec' profile_key;
      getitem tbl' (PyStr.lower profile_name)
  end.

(** Lines 832-882: from the file to the stored field table, ['name'] removed. *)
Definition load_profile_data (profiles_json : option profiles_config)
    (model : string) (profile_name : string) : flow (gmap string json) :=
  match profiles_json with
  | None => Stop ProfilesFileMissing
  | Some config =>
      _amd ← getitem config "amd_profiles";
      let model_name := PyStr.strip model in
      match model_map !! model_name with
      | None => Stop (UnsupportedModel model_name)
      | Some profile_key =>
          profile_data ←
            (if decide (profile_key = "16_AMD") then
               select_profile_data config "amd_profiles" "16_AMD" profile_name
             else if decide (profile_key = "13_AMD") then
               select_profile_data config "amd_profiles" "13_AMD" profile_name
             else
               select_profile_data config "intel_profiles" "13_INTEL" profile_name);
          Next (delete "name" profile_data)
      end
  end.

Definition default_fan_curve : json :=
  JObj (list_to_map [("30", JInt 0); ("40", JInt 10); ("50", JInt 20);
                     ("60", JInt 40); ("70", JInt 60); ("80", JInt 80);
                     ("90", JInt 100)]).

(** Lines 885-900: the [default_params] dictionary. *)
Definition default_params (profile_data : gmap string json)
    (profile_name : string) : flow (gmap string json) :=
  tdp ← floordiv (default (JInt 45000) (profile_data !! "stapm_limit")) 1000;
  cpu_power ← floordiv (default (JInt 45000) (profile_data !! "fast_limit")) 1000;
  Next (list_to_map
          [("tdp", tdp);
           ("cpu_power", cpu_power);
           ("gpu_power", JInt 25);
           ("boost_enabled",
            JBool (negb (String.eqb (PyStr.lower profile_name) "silent")));
           ("fan_mode", JStr "auto");
           ("fan_curve", default_fan_curve)]).

(** [d.update(other)]: every key of [other] is written into [d]. *)
Definition dict_update {V : Type} (d other : gmap string V) : gmap string V :=
  other ∪ d.

(** Lines 832-908: the profile handed to [PowerManager.apply_profile]. *)
Definition resolve_profile (profiles_json : option profiles_config)
    (model : string) (profile_name : string) : flow PowerProfile :=
  profile_data ← load_profile_data profiles_json model profile_name;
  defaults ← default_params profile_data profile_name;
  Next (mkPowerProfile profile_name (dict_update profile_data defaults)).

(** ** The control center and its collaborators *)

(** The callbacks [__init__] registers with [self.after]. *)
Inductive callback : Type :=
| PositionWindow
| SetupTray
| StartMonitoring
| InitializeDefaultProfiles
| CheckLogFileSize.

(** How a call of [_set_refresh_rate] ends. *)
Inductive refresh_outcome : Type :=
| RefreshSet (mode : string)
| RefreshFailed (mode : string)          (* "Failed to set refresh rate to ..." *)
| RefreshCaught (e : exn).               (* "Error setting refresh rate: ..." *)

Section ControlCenter.

(** The classes imported from [hardware], [power_plan] and [display], with
    the methods the control center calls on them.  A method takes the
    object's state and returns the new state with what the call gave. *)
Context {HardwareMonitor PowerManager DisplayManager : Type}.
Variable HardwareMonitor_new : string -> HardwareMonitor.
Variable set_update_interval : Z -> HardwareMonitor -> HardwareMonitor.
Variable PowerManager_new : Model -> PowerManager.
Variable DisplayManager_new : Model -> DisplayManager.
Variable _valid_rates : DisplayManager -> list string.
Variable apply_profile :
  PowerProfile -> PowerManager -> PowerManager * result bool.
Variable set_refresh_rate :
  string -> string -> DisplayManager -> DisplayManager * result bool.

(** The attributes of [self] the control paths read and write. *)
Record App : Type := mkApp {
  model : Model;
  config : SystemConfig;
  hardware : HardwareMonitor;
  power : PowerManager;
  display : DisplayManager;
  profile_buttons : list string;
  refresh_buttons : list string;
  active_profile_button : option string;
  active_refresh_button : option string;
  scheduled : list (Z * callback)
}.

Definition set_config (c : SystemConfig) (self : App) : App :=
  mkApp (model self) c (hardware self) (power self) (display self)
        (profile_buttons self) (refresh_buttons self)
        (active_profile_button self) (active_refresh_button self)
        (scheduled self).

Definition set_hardware (h : HardwareMonitor) (self : App) : App :=
  mkApp (model self) (config self) h (power self) (display self)
        (profile_buttons self) (refresh_buttons self)
        (active_profile_button self) (active_refresh_button self)
        (scheduled self).

Definition set_power (p : PowerManager) (self : App) : App :=
  mkApp (model self) (config self) (hardware self) p (display self)
        (profile_buttons self) (refresh_buttons self)
        (active_profile_button self) (active_refresh_button self)
        (scheduled self).

Definition set_display (d : DisplayManager) (self : App) : App :=
  mkApp (model self) (config self) (hardware self) (power self) d
        (profile_buttons self) (refresh_buttons self)
        (active_profile_button self) (active_refresh_button self)
        (scheduled self).

Definition set_active_profile_button (b : option string) (self : App) : App :=
  mkApp (model self) (config self) (hardware self) (power self) (display self)
        (profile_buttons self) (refresh_buttons self)
        b (active_refresh_button self) (scheduled self).

Definition set_active_refresh_button (b : option string) (self : App) : App :=
  mkApp (model self) (config self) (hardware self) (power self) (display self)
        (profile_buttons self) (refresh_buttons self)
        (active_profile_button self) b (scheduled self).

Definition with_current_profile (p : string) (c : SystemConfig) : SystemConfig :=
  mkSystemConfig (current_theme c) (language c) (minimize_to_tray c)
                 (start_minimized c) (start_with_windows c)
                 (monitoring_interval c) p (refresh_rate_mode c).

Definition with_refresh_rate_mode (m : string) (c : SystemConfig) : SystemConfig :=
  mkSystemConfig (current_theme c) (language c) (minimize_to_tray c)
                 (start_minimized c) (start_with_windows c)
                 (monitoring_interval c) (current_profile c) m.

Definition with_monitoring_interval (i : Z) (c : SystemConfig) : SystemConfig :=
  mkSystemConfig (current_theme c) (language c) (minimize_to_tray c)
                 (start_minimized c) (start_with_windows c)
                 i (current_profile c) (refresh_rate_mode c).

(** The button whose key equals the configured value is the active one
    when the widgets are created. *)
Definition initial_button (keys : list string) (configured : string) : option string :=
  if decide (configured ∈ keys) then Some configured else None.

(** [__init__], from model detection on (lines 198-231).  [detected] is
    what [ModelDetector().detect_model()] returned. *)
Definition __init__ (cfg : SystemConfig) (detected : option Model) : result App :=
  match detected with
  | None => Raise (RuntimeError "No compatible Framework laptop detected")
  | Some m =>
      let hw := set_update_interval (monitoring_interval cfg)
                                    (HardwareMonitor_new (model_name m)) in
      let pw := PowerManager_new m in
      let dp := DisplayManager_new m in
      let pbs := ["Silent"; "Balanced"; "Boost"] in
      let rbs := "Auto" :: _valid_rates dp in
      Ok (mkApp m cfg hw pw dp pbs rbs
                (initial_button pbs (current_profile cfg))
                (initial_button rbs (refresh_rate_mode cfg))
                [(1000, PositionWindow); (1500, SetupTray);
                 (2000, StartMonitoring); (2500, InitializeDefaultProfiles);
                 (3000, CheckLogFileSize)]%Z)
  end.

(** [_set_power_profile_sync]: [profiles_json] is [configs/profiles.json]
    as read from disk, [None] when the file does not exist. *)
Definition _set_power_profile_sync (profiles_json : option profiles_config)
    (profile_name : string) (self : App) : App * outcome :=
  match resolve_profile profiles_json (model_name (model self)) profile_name with
  | Stop o => (self, o)
  | Next profile =>
      let '(pm, r) := apply_profile profile (power self) in
      let self := set_power pm self in
      match r with
      | Raise e => (self, Caught e)
      | Ok false => (self, ApplyFailed profile_name)
      | Ok true =>
          let self := set_config (with_current_profile profile_name (config self)) self in
          let self :=
            if decide (profile_name ∈ profile_buttons self)
            then set_active_profile_button (Some profile_name) self
            else self in
          (self, ProfileApplied profile_name)
      end
  end.

(** The platform's maximum rate, as [_set_refresh_rate] derives it. *)
Definition max_rate (m : Model) : string :=
  if PyStr.contains "16" (model_name m) then "165" else "60".

(** The mode string handed to the display manager. *)
Definition actual_mode (mode : string) : string :=
  if decide (mode = "Auto") then "auto" else PyStr.remove_Hz mode.

Definition _set_refresh_rate (mode : string) (self : App) : App * refresh_outcome :=
  let '(dm, r) := set_refresh_rate (actual_mode mode) (max_rate (model self))
                                   (display self) in
  let self := set_display dm self in
  match r with
  | Raise e => (self, RefreshCaught e)
  | Ok false => (self, RefreshFailed mode)
  | Ok true =>
      let self := set_config (with_refresh_rate_mode mode (config self)) self in
      let self :=
        if decide (mode ∈ refresh_buttons self)
        then set_active_refresh_button (Some mode) self
        else self in
      (self, RefreshSet mode)
  end.

(** The synchronous wrapper; the event loop exists once [__init__] ran. *)
Definition _set_refresh_rate_sync (mode : string) (self : App) : App * refresh_outcome :=
  _set_refresh_rate mode self.

(** [_initialize_default_profiles]: both setters handle their own errors,
    so the second always runs. *)
Definition _initialize_default_profiles (profiles_json : option profiles_config)
    (self : App) : App * (outcome * refresh_outcome) :=
  let '(self, o1) := _set_power_profile_sync profiles_json "Balanced" self in
  let '(self, o2) := _set_refresh_rate_sync "Auto" self in
  (self, (o1, o2)).

(** [_restart_metrics_update], as far as it touches the monitor: the
    new interval is pushed to [HardwareMonitor]. *)
Definition _restart_metrics_update (self : App) : App :=
  set_hardware
    (set_update_interval (monitoring_interval (config self)) (hardware self))
    self.

(** The bounds check of [_save_settings] (lines 1444-1447). *)
Definition clamp_interval (interval : Z) : Z :=
  if (interval <? 100)%Z then 100%Z
  else if (interval >? 10000)%Z then 10000%Z
  else interval.

(** [_save_settings]: [theme_file] is the theme the loop over
    [configs/*_theme.json] found; the interval arrives as the text of the
    entry field. *)
Definition _save_settings (theme_file : option string) (lang : string)
    (to_tray start_min start_win : bool) (interval_text : string)
    (self : App) : App :=
  match theme_file with
  | None => self                             (* "Theme file not found" *)
  | Some theme =>
      let c := config self in
      let c := mkSystemConfig theme lang to_tray start_min start_win
                              (monitoring_interval c) (current_profile c)
                              (refresh_rate_mode c) in
      let self := set_config c self in
      match PyStr.int interval_text with
      | Some interval =>
          let interval := clamp_interval interval in
          let old_interval := monitoring_interval (config self) in
          let self := set_config (with_monitoring_interval interval (config self)) self in
          if decide (old_interval = interval) then self
          else _restart_metrics_update self
      | None =>
          set_config (with_monitoring_interval 1000 (config self)) self
      end
  end.

End ControlCenter.

(** ** The metrics display *)

(** What a progress bar shows: the level it was created with, or the level
    computed from the last reading of a temperature
    ([min(100, max(0, value - 40) * 1.67) / 100]) or of a load
    ([value / 100]). *)
Inductive level (R : Type) : Type :=
| LevelZero
| TempLevel (value : R)
| LoadLevel (value : R).
Arguments LevelZero {R}.
Arguments TempLevel {R} value.
Arguments LoadLevel {R} value.

(** The text of a metric label: caption, the number shown ([None] for the
    literal 0 of the freshly created label) and unit. *)
Record LabelText (R : Type) : Type := mkLabelText {
  caption : string;
  shown : option R;
  unit_text : string
}.
Arguments mkLabelText {R} caption shown unit_text.
Arguments caption {R} l.
Arguments shown {R} l.
Arguments unit_text {R} l.

Section MetricsDisplay.

(** Sensor readings are Python floats; the display only stores and
    formats them, so their type stays a parameter. *)
Context {R : Type}.

(** A [HardwareMetrics] object: [getattr(metrics, key, None)] is the
    lookup, [None] for a reading that is not available. *)
Abbreviation HardwareMetrics := (gmap string R).

(** [self.metric_bars] and [self.metric_labels]; [metric_order] is the
    insertion order of [metric_bars], which [items()] follows. *)
Record MetricsDisplay : Type := mkMetricsDisplay {
  metric_order : list string;
  metric_bars : gmap string (level R);
  metric_labels : gmap string (LabelText R)
}.

(** The [metrics] list of [_create_metrics_display]: (label, key, unit). *)
Definition base_metrics : list (string * string * string) :=
  [("CPU", "cpu_load", "%");
   ("CPU TEMP", "cpu_temp", "°C");
   ("RAM", "ram_usage", "%");
   ("iGPU", "igpu_load", "%");
   ("iGPU TEMP", "igpu_temp", "°C")].

Definition dgpu_metrics : list (string * string * string) :=
  [("dGPU", "dgpu_load", "%");
   ("dGPU TEMP", "dgpu_temp", "°C")].

Definition metrics_list (m : Model) : list (string * string * string) :=
  if has_dgpu m then base_metrics ++ dgpu_metrics else base_metrics.

(** One turn of the widget loop. *)
Definition add_metric (d : MetricsDisplay) (entry : string * string * string)
    : MetricsDisplay :=
  let '(label, key, unit) := entry in
  mkMetricsDisplay
    (if decide (key ∈ metric_order d) then metric_order d
     else metric_order d ++ [key])
    (<[key := LevelZero]> (metric_bars d))
    (<[key := mkLabelText label None unit]> (metric_labels d)).

Definition _create_metrics_display (m : Model) : MetricsDisplay :=
  foldl add_metric (mkMetricsDisplay [] ∅ ∅) (metrics_list m).

(** The caption chosen in [_update_metrics] for a temperature key. *)
Definition temp_caption (key : string) : string :=
  if PyStr.contains "cpu" key then "CPU TEMP"
  else if PyStr.contains "igpu" key then "iGPU TEMP"
  else if PyStr.contains "dgpu" key then "dGPU TEMP"
  else PyStr.upper (PyStr.before_underscore key) ++ " TEMP".

(** ... and for a load key. *)
Definition load_caption (key : string) : string :=
  if PyStr.contains "cpu" key then "CPU"
  else if PyStr.contains "igpu" key then "iGPU"
  else if PyStr.contains "dgpu" key then "dGPU"
  else if PyStr.contains "ram" key then "RAM"
  else PyStr.upper (PyStr.before_underscore key).

(** What the loop of [_update_metrics] puts on the bar and on the label
    of a key for a reading. *)
Definition level_for (key : string) (value : R) : level R :=
  if PyStr.contains "temp" key then TempLevel value else LoadLevel value.

Definition label_for (key : string) (value : R) : LabelText R :=
  if PyStr.contains "temp" key
  then mkLabelText (temp_caption key) (Some value) "°C"
  else mkLabelText (load_caption key) (Some value) "%".

(** The body of the loop over [metric_bars.items()] for one key: a
    reading of [None] leaves bar and label alone. *)
Definition update_metric (metrics : HardwareMetrics) (d : MetricsDisplay)
    (key : string) : MetricsDisplay :=
  match metrics !! key with
  | None => d
  | Some value =>
      mkMetricsDisplay (metric_order d)
        (<[key := level_for key value]> (metric_bars d))
        (<[key := label_for key value]> (metric_labels d))
  end.

(** [_update_metrics]: the part of a tick that refreshes bars and labels
    from the metrics the monitor returned. *)
Definition _update_metrics (metrics : HardwareMetrics) (d : MetricsDisplay)
    : MetricsDisplay :=
  foldl (update_metric metrics) d (metric_order d).

(** The display after the ticks that delivered [ticks], oldest first. *)
Definition run_ticks (ticks : list HardwareMetrics) (d : MetricsDisplay)
    : MetricsDisplay :=
  foldl (fun d metrics => _update_metrics metrics d) d ticks.

End MetricsDisplay.

(** ** The telemetry sampler *)

Module TelemetrySamplerSpec.

(** Modelled from the spec: the fields of a [HardwareMetrics] snapshot,
    which [hardware] and [models] declare and this module only reads.
    Section 3 lists them; the dGPU pair is there if and only if the
    platform has a discrete GPU. *)
Definition snapshot_fields (has_dgpu : bool) : list string :=
  (["cpu_load"; "cpu_temp"; "igpu_load"; "igpu_temp"]
   ++ (if has_dgpu then ["dgpu_load"; "dgpu_temp"] else [])
   ++ ["ram_usage"; "battery_percentage"; "is_charging";
       "battery_time_remaining"])%list.

(** Modelled from the spec: [HardwareMonitor.get_metrics] of [hardware],
    which this module only awaits.  Section 4.5: a tick reads each
    sensor of the platform's field set on its own; [read] is what the
    sensors answer at this tick, [None] for a read that fails, and a
    failed read leaves its field in the snapshot, marked unavailable,
    without failing the sample. *)
Definition sample {R : Type} (has_dgpu : bool) (read : string -> option R)
    : gmap string (option R) :=
  list_to_map ((fun field => (field, read field)) <$> snapshot_fields has_dgpu).

(** Modelled from the spec: the snapshot as the control center reads it
    with [getattr(metrics, key, None)]: a field that is not there or is
    unavailable reads as [None]. *)
Definition as_metrics {R : Type} (snapshot : gmap string (option R))
    : gmap string R :=
  omap id snapshot.

End TelemetrySamplerSpec.

(** ** The power manager *)

Module PowerManagerSpec.

(** Modelled from the spec: [PowerManager] of [power_plan], which this
    module only calls.  Section 4.3 gives the state machine
    [Idle -> Applying -> {Applied, Failed}], the [Busy] rejection, the
    fixed write order with the thermal ceiling first, the rollback to the
    previous applied profile and the three [ApplyError]s. *)
Inductive State : Type := Idle | Applying | Applied | Failed.

(** Modelled from the spec: the [ApplyError] taxonomy of section 7, not
    declared in this module. *)
Inductive ApplyError : Type :=
| Busy
| Partial (failed_field : string)
| Inconsistent.

(** Modelled from the spec: [Result<(), ApplyError>], the result type of
    [apply] in section 4.3. *)
Inductive ApplyResult : Type :=
| ApplyOk
| ApplyErr (e : ApplyError).

(** Modelled from the spec: the hardware behind the manager.  [regs] holds
    the value last written to each knob; [faults] tells for each upcoming
    write whether it fails ([true]), writes past its end succeed;
    [write_log] records every attempted write and whether it went
    through. *)
Record Hardware : Type := mkHardware {
  regs : gmap string json;
  faults : list bool;
  write_log : list (string * json * bool)
}.

(** Modelled from the spec: one hardware write, which either goes
    through or fails; the driver behind it is not in this module. *)
Definition write (knob : string) (v : json) (h : Hardware) : Hardware * bool :=
  match faults h with
  | true :: rest =>
      (mkHardware (regs h) rest (write_log h ++ [(knob, v, false)]), false)
  | _ =>
      (mkHardware (<[knob := v]> (regs h)) (tail (faults h))
                  (write_log h ++ [(knob, v, true)]), true)
  end.

(** Modelled from the spec: the documented write order, thermal ceiling
    ([tctl_temp]) before the power limits, then the remaining knobs of
    section 3 in the order they are listed there. *)
Definition knob_order : list string :=
  ["tctl_temp"; "stapm_limit"; "fast_limit"; "slow_limit";
   "vrm_current"; "vrmmax_current"; "vrmsoc_current"; "vrmsocmax_current";
   "pl1"; "pl2"; "tau"; "cpu_core_offset"; "gpu_core_offset";
   "max_frequency"].

(** Modelled from the spec: the writes a profile asks for, which are its
    platform knobs in [knob_order]; the manager's write loop is not in
    this module. *)
Definition writes_of (p : PowerProfile) : list (string * json) :=
  omap (fun k => (fun v => (k, v)) <$> fields p !! k) knob_order.

(** Modelled from the spec: the manager's write loop, which writes one
    knob after the other and stops at the first that fails, returning its
    name. *)
Fixpoint write_all (ws : list (string * json)) (h : Hardware)
    : Hardware * option string :=
  match ws with
  | [] => (h, None)
  | (k, v) :: ws' =>
      let '(h', ok) := write k v h in
      if ok then write_all ws' h' else (h', Some k)
  end.

(** Modelled from the spec: the registers after a run of writes of the
    missing write loop that all went through. *)
Definition write_regs (ws : list (string * json)) (r : gmap string json)
    : gmap string json :=
  foldl (fun r kv => <[kv.1 := kv.2]> r) r ws.

(** Modelled from the spec: the log entry of a write of the missing
    write loop that went through. *)
Definition written (kv : string * json) : string * json * bool :=
  (kv.1, kv.2, true).

(** Modelled from the spec: the manager owns the current profile; an
    apply that has started and not yet resolved is [in_flight]. *)
Record Manager : Type := mkManager {
  state : State;
  current : option PowerProfile;
  in_flight : option PowerProfile;
  hw : Hardware
}.

(** Modelled from the spec: the test for the [Applying] state of the
    missing manager. *)
Definition is_applying (s : State) : bool :=
  match s with Applying => true | _ => false end.

(** Modelled from the spec: entering [Applying]; a call that finds the
    manager [Applying] is rejected with [Busy] and changes nothing. *)
Definition apply_begin (p : PowerProfile) (m : Manager) : Manager * ApplyResult :=
  if is_applying (state m) then (m, ApplyErr Busy)
  else (mkManager Applying (current m) (Some p) (hw m), ApplyOk).

(** Modelled from the spec: the rollback of the missing manager writes
    the previous applied profile, nothing when there is none. *)
Definition rollback_writes (m : Manager) : list (string * json) :=
  match current m with
  | Some prev => writes_of prev
  | None => []
  end.

(** Modelled from the spec: resolving the apply in flight.  On a failed
    write the remaining writes are dropped and the previous profile is
    written back; [Partial] when that worked, [Inconsistent] and state
    [Failed] when it did not.  The current profile changes only on
    success. *)
Definition apply_resolve (m : Manager) : Manager * ApplyResult :=
  match state m, in_flight m with
  | Applying, Some p =>
      let '(h1, failed) := write_all (writes_of p) (hw m) in
      match failed with
      | None => (mkManager Applied (Some p) None h1, ApplyOk)
      | Some f =>
          let '(h2, rfailed) := write_all (rollback_writes m) h1 in
          match rfailed with
          | None =>
              (mkManager (match current m with Some _ => Applied | None => Idle end)
                         (current m) None h2,
               ApplyErr (Partial f))
          | Some _ =>
              (mkManager Failed (current m) None h2, ApplyErr Inconsistent)
          end
      end
  | _, _ => (m, ApplyOk)
  end.

(** Modelled from the spec: [apply(profile)], begun and resolved in one
    go. *)
Definition apply (p : PowerProfile) (m : Manager) : Manager * ApplyResult :=
  let '(m1, r) := apply_begin p m in
  match r with
  | ApplyOk => apply_resolve m1
  | ApplyErr e => (m1, ApplyErr e)
  end.

(** Modelled from the spec: the missing constructor [PowerManager(model)],
    with the manager [Idle] and nothing applied yet. *)
Definition new (faults : list bool) (m : Model) : Manager :=
  mkManager Idle None None (mkHardware ∅ faults []).

(** Modelled from the spec: the missing method
    [PowerManager.apply_profile] as the control center awaits it, [apply]
    reduced to its success flag. *)
Definition apply_profile (p : PowerProfile) (m : Manager)
    : Manager * result bool :=
  let '(m', r) := apply p m in
  (m', Ok (match r with ApplyOk => true | ApplyErr _ => false end)).

End PowerManagerSpec.

(** ** The display controller *)

Module DisplayControllerSpec.

(** Modelled from the spec: [DisplayManager] of [display], which this
    module only calls.  Section 3 gives the request ([Auto] or an explicit
    rate), section 4.6 the negotiation against the platform maximum. *)
Inductive RefreshRateRequest : Type :=
| Auto
| Hz (rate : Z).

(** Modelled from the spec: [DisplayError] of sections 4.6 and 7, not
    declared in this module. *)
Inductive DisplayError : Type :=
| Unsupported (rate : Z).

(** Modelled from the spec: what the display subsystem behind the missing
    [DisplayManager] was last told, [Auto] being a mode of its own. *)
Inductive DisplayMode : Type :=
| NegotiatedByDisplay
| FixedRate (rate : Z).

(** Modelled from the spec: the state of the missing [DisplayManager]. *)
Record Display : Type := mkDisplay {
  mode : option DisplayMode
}.

(** Modelled from the spec: [set_refresh_rate(request, platform)], the
    platform given by its maximum rate.  [Auto] goes to the display as a
    mode of its own; a rate above the maximum is refused, not clamped. *)
Definition negotiate (request : RefreshRateRequest) (max : Z) (d : Display)
    : Display * (DisplayError + unit) :=
  match request with
  | Auto => (mkDisplay (Some NegotiatedByDisplay), inr tt)
  | Hz rate =>
      if (rate >? max)%Z then (d, inl (Unsupported rate))
      else (mkDisplay (Some (FixedRate rate)), inr tt)
  end.

(** Modelled from the spec: the [RefreshRateRequest] a mode string of the
    control center stands for in the missing [DisplayManager]. *)
Definition decode (actual_mode : string) : option RefreshRateRequest :=
  if decide (actual_mode = "auto") then Some Auto
  else Hz <$> PyStr.int actual_mode.

(** Modelled from the spec: the missing method
    [DisplayManager.set_refresh_rate(actual_mode, max_rate)] as the
    control center awaits it, [negotiate] reduced to its success flag;
    text that is no request or no rate raises. *)
Definition set_refresh_rate (actual_mode max_rate : string) (d : Display)
    : Display * result bool :=
  match decode actual_mode, PyStr.int max_rate with
  | Some request, Some max =>
      let '(d', r) := negotiate request max d in
      (d', Ok (match r with inr _ => true | inl _ => false end))
  | _, _ => (d, Raise ValueError)
  end.

End DisplayControllerSpec.


(** ** Side conditions and sample data *)

(** The divisions of [default_params] go through when a limit, if stored,
    is a number. *)
Definition int_or_absent (v : option json) : Prop :=
  match v with
  | None | Some (JInt _) | Some (JBool _) => True
  | Some _ => False
  end.

(** The maximum refresh rate of a platform, as a number. *)
Definition platform_max (p : platform) : Z :=
  match p with
  | AMD16 => 165
  | AMD13 | Intel13 => 60
  end.

Module Samples.

(** A stored table as [profiles.json] holds it for one profile of the
    16-inch AMD model, with fields that [default_params] also supplies. *)
Definition stored_balanced : gmap string json :=
  list_to_map
    [("name", JStr "balanced");
     ("stapm_limit", JInt 30000); ("fast_limit", JInt 35000);
     ("slow_limit", JInt 30000); ("tctl_temp", JInt 95);
     ("gpu_power", JInt 50); ("fan_mode", JStr "manual");
     ("boost_enabled", JBool false);
     ("fan_curve", JObj (list_to_map [("50", JInt 30); ("90", JInt 100)]))].

(** A stored table with the platform fields only. *)
Definition stored_silent : gmap string json :=
  list_to_map
    [("name", JStr "silent");
     ("stapm_limit", JInt 15000); ("fast_limit", JInt 20000);
     ("slow_limit", JInt 15000); ("tctl_temp", JInt 85)].

Definition stored_intel : gmap string json :=
  list_to_map [("pl1", JInt 28); ("pl2", JInt 40); ("tau", JInt 28)].

Definition amd16_table : gmap string (gmap string json) :=
  list_to_map [("balanced", stored_balanced); ("silent", stored_silent)].

Definition amd13_table : gmap string (gmap string json) :=
  list_to_map [("balanced", stored_silent); ("silent", stored_silent)].

Definition amd_section : gmap string (gmap string (gmap string json)) :=
  list_to_map [("16_AMD", amd16_table); ("13_AMD", amd13_table)].

Definition intel_section : gmap string (gmap string (gmap string json)) :=
  list_to_map [("13_INTEL", list_to_map [("balanced", stored_intel)])].

Definition profiles : profiles_config :=
  list_to_map [("amd_profiles", amd_section); ("intel_profiles", intel_section)].

(** The stored table the file gives for a model and a profile name, and
    the profile resolved from it ([None] when the call stops before). *)
Definition stored_for (model profile_name : string) : option (gmap string json) :=
  match load_profile_data (Some profiles) model profile_name with
  | Next data => Some data
  | Stop _ => None
  end.

Definition resolved_for (model profile_name : string) : option PowerProfile :=
  match resolve_profile (Some profiles) model profile_name with
  | Next p => Some p
  | Stop _ => None
  end.

Definition settings : SystemConfig :=
  mkSystemConfig "default_theme" "en" true false false 1000 "Boost" "60".

Definition framework16 : Model := mkModel "Framework 16 AMD" true.
Definition framework13 : Model := mkModel "Framework 13 AMD" false.

(** A control center over the modelled power manager and display
    controller; the monitor is its update interval. *)
Definition start (m : Model) (faults : list bool)
    : result (@App Z PowerManagerSpec.Manager DisplayControllerSpec.Display) :=
  __init__ (fun _ => 0%Z) (fun i _ => i) (PowerManagerSpec.new faults)
           (fun _ => DisplayControllerSpec.mkDisplay None)
           (fun _ => ["60"; "165"])
           settings (Some m).

(** The control center [start] gives; the fallback record is never
    taken, a model being passed. *)
Definition app_of (m : Model) (faults : list bool)
    : @App Z PowerManagerSpec.Manager DisplayControllerSpec.Display :=
  match start m faults with
  | Ok app => app
  | Raise _ =>
      mkApp m settings 0%Z (PowerManagerSpec.new faults m)
            (DisplayControllerSpec.mkDisplay None) [] [] None None []
  end.

Definition app16 := app_of framework16 [].
Definition app13 := app_of framework13 [].

(** The profile the start-up callback resolves on the 16-inch model. *)
Definition startup_profile : PowerProfile :=
  default (mkPowerProfile "" ∅) (resolved_for "Framework 16 AMD" "Balanced").

(** A metrics object that carries dGPU readings. *)
Definition reading : gmap string Z :=
  list_to_map [("cpu_load", 12%Z); ("cpu_temp", 55%Z); ("ram_usage", 40%Z);
               ("igpu_load", 3%Z); ("igpu_temp", 50%Z);
               ("dgpu_load", 9%Z); ("dgpu_temp", 61%Z)].

(** Three resolved profiles of an AMD platform. *)
Definition silent : PowerProfile :=
  mkPowerProfile "Silent"
    (list_to_map [("tctl_temp", JInt 85); ("stapm_limit", JInt 15000);
                  ("fast_limit", JInt 20000)]).

Definition balanced : PowerProfile :=
  mkPowerProfile "Balanced"
    (list_to_map [("tctl_temp", JInt 95); ("stapm_limit", JInt 30000);
                  ("fast_limit", JInt 35000)]).


(** A manager with [silent] applied, whose hardware lets [faults] decide
    the coming writes. *)
Definition manager_on_silent (faults : list bool) : PowerManagerSpec.Manager :=
  PowerManagerSpec.mkManager PowerManagerSpec.Applied (Some silent) None
    (PowerManagerSpec.mkHardware
       (list_to_map [("tctl_temp", JInt 85); ("stapm_limit", JInt 15000);
                     ("fast_limit", JInt 20000)])
       faults []).

End Samples.

(** The ways [_set_power_profile_sync] ends before it reaches the power
    manager. *)
Definition is_early_exit (o : outcome) : Prop :=
  match o with
  | ProfilesFileMissing | UnsupportedModel _ | ProfileNotFound _ _ | Caught _ => True
  | ApplyFailed _ | ProfileApplied _ => False
  end.

(** The most recent reading of [key] among the metrics of [ticks] (oldest
    first), [None] when it was never available. *)
Definition last_reading {R : Type} (key : string) (ticks : list (gmap string R))
    : option R :=
  last (omap (fun metrics => metrics !! key) ticks).

(** ** The registry of open windows *)

(** A window as the loops over [_open_windows] see it: whether it still
    exists ([winfo_exists()]) and the attributes a refresh rewrites (font
    and texts in [_on_language_change], colours in [_on_theme_change]). *)
Record Window (P : Type) : Type := mkWindow {
  winfo_exists : bool;
  attrs : P
}.
Arguments mkWindow {P} winfo_exists attrs.
Arguments winfo_exists {P} w.
Arguments attrs {P} w.

(** [l.remove(x)] on a list that holds [x]: the first occurrence goes. *)
Fixpoint list_remove (x : nat) (l : list nat) : list nat :=
  match l with
  | [] => []
  | y :: l' => if decide (x = y) then l' else y :: list_remove x l'
  end.

(** [window.attribute = ...]: the state of one object is replaced. *)
Definition set_window {P : Type} (w : nat) (x : Window P) (heap : nat -> Window P)
    : nat -> Window P :=
  fun n => if decide (n = w) then x else heap n.

Section OpenWindows.

(** Windows are objects: the list holds their identities and [heap] their
    state.  [refresh] is what the loop does to a window that exists; it
    returns the attributes it leaves and the exception it raised, if any. *)
Context {P : Type}.
Variable refresh : P -> P * option exn.

(** [for window in _open_windows: ...] with [_open_windows.remove(window)]
    in the body (lines 1197-1206 and 1597-1603).  The iterator of a Python
    list is an index into the list as it is at that moment; [fuel] bounds
    the number of turns.  The result is the list, the windows, and the
    exception that ended the loop early, if any. *)
Fixpoint update_open_windows (fuel i : nat) (_open_windows : list nat)
    (heap : nat -> Window P) : list nat * (nat -> Window P) * option exn :=
  match fuel with
  | O => (_open_windows, heap, None)
  | S fuel =>
      match _open_windows !! i with
      | None => (_open_windows, heap, None)
      | Some window =>
          if winfo_exists (heap window) then
            let '(a, raised) := refresh (attrs (heap window)) in
            let heap := set_window window (mkWindow true a) heap in
            match raised with
            | Some e => (_open_windows, heap, Some e)
            | None => update_open_windows fuel (S i) _open_windows heap
            end
          else
            update_open_windows fuel (S i) (list_remove window _open_windows) heap
      end
  end.

(** The loop from its start; the list cannot be walked in more turns than
    it has elements. *)
Definition update_all_windows (_open_windows : list nat) (heap : nat -> Window P)
    : list nat * (nat -> Window P) * option exn :=
  update_open_windows (length _open_windows) 0 _open_windows heap.

(** What the loop comes to on a list without repetitions: a window that
    exists is refreshed and kept, one that does not is dropped and the
    window after it is passed over, neither looked at nor refreshed. *)
Fixpoint walk_windows (ws : list nat) (heap : nat -> Window P) {struct ws}
    : list nat * (nat -> Window P) * option exn :=
  match ws with
  | [] => ([], heap, None)
  | w :: rest =>
      if winfo_exists (heap w) then
        let '(a, raised) := refresh (attrs (heap w)) in
        let heap := set_window w (mkWindow true a) heap in
        match raised with
        | Some e => (w :: rest, heap, Some e)
        | None =>
            let '(kept, heap', e) := walk_windows rest heap in
            (w :: kept, heap', e)
        end
      else
        match rest with
        | [] => ([], heap, None)
        | x :: rest' =>
            let '(kept, heap', e) := walk_windows rest' heap in
            (x :: kept, heap', e)
        end
  end.

End OpenWindows.

(** [UpdatesManager.__init__] and [UpdatesManager._on_close] on the
    registry: the window is appended; on closing its first occurrence is
    removed, and when it is not in the list the [ValueError] is caught and
    the list stays as it is. *)
Definition register_window (w : nat) (_open_windows : list nat) : list nat :=
  _open_windows ++ [w].

Definition _on_close_registry (w : nat) (_open_windows : list nat)
    : list nat * option exn :=
  if decide (w ∈ _open_windows) then (list_remove w _open_windows, None)
  else (_open_windows, Some ValueError).

(** ** Text operations of the Updates window *)

(** Python string operations on text whose characters are single bytes
    (ASCII output of [winget]): positions count characters. *)
Module PyText.

Definition len (s : string) : Z := Z.of_nat (String.length s).

(** [s.find(sub)]: the lowest position where [sub] starts, [-1] if none. *)
Fixpoint find_from (sub s : string) (i : Z) : Z :=
  if String.prefix sub s then i
  else match s with
       | EmptyString => (-1)%Z
       | String _ s' => find_from sub s' (i + 1)%Z
       end.

Definition find (sub s : string) : Z := find_from sub s 0%Z.

(** A slice bound brought into [0, len]: negative bounds count from the
    end. *)
Definition clip (n i : Z) : Z :=
  let i := if (i <? 0)%Z then (i + n)%Z else i in
  Z.max 0 (Z.min n i).

(** [s[a:b]] and [s[a:]] *)
Definition slice (s : string) (a b : Z) : string :=
  let a := clip (len s) a in
  let b := clip (len s) b in
  String.substring (Z.to_nat a) (Z.to_nat (b - a)) s.

Definition slice_from (s : string) (a : Z) : string := slice s a (len s).

(** [s.startswith(p)] *)
Definition startswith (p s : string) : bool := String.prefix p s.

(** The characters of [s] up to the first blank. *)
Fixpoint until_space (s : string) : string :=
  match s with
  | EmptyString => EmptyString
  | String c s' => if PyStr.is_space c then EmptyString else String c (until_space s')
  end.

(** [s.split()[0]]: the first run of non-blank characters; [None] stands
    for the [IndexError] on a string without one. *)
Definition first_word (s : string) : option string :=
  match until_space (PyStr.lstrip s) with
  | EmptyString => None
  | w => Some w
  end.

(** [s.split('\n')] *)
Fixpoint split_lines (s : string) : list string :=
  match s with
  | EmptyString => [EmptyString]
  | String c s' =>
      if Ascii.eqb c "010"%char then EmptyString :: split_lines s'
      else match split_lines s' with
           | [] => [String c EmptyString]
           | l :: ls => String c l :: ls
           end
  end.

(** [bool(s)] *)
Definition nonempty (s : string) : bool :=
  match s with EmptyString => false | _ => true end.

(** [s.isascii()]: on such text a byte is a character, and the positions,
    lengths and blanks of this module are those of Python. *)
Fixpoint isascii (s : string) : bool :=
  match s with
  | EmptyString => true
  | String c s' => (Ascii.N_of_ascii c <? 128)%N && isascii s'
  end.

End PyText.

(** A Python [dict] with its insertion order: [d[k] = v] replaces the value
    of a key that is there, in place, and appends a new key. *)
Definition dict_setitem {V : Type} (k : string) (v : V) (d : list (string * V))
    : list (string * V) :=
  if decide (k ∈ d.*1)
  then (fun kv => if decide (kv.1 = k) then (k, v) else kv) <$> d
  else d ++ [(k, v)].

(** ** Reading the tables [winget] prints *)

(** [any(all(col in line for col in combo) for combo in combos)] *)
Definition is_header (combos : list (list string)) (line : string) : bool :=
  existsb (forallb (fun col => PyStr.contains col line)) combos.

(** The search for the header line: the index of the first line that has
    all columns of one combination, [None] for [header_index == -1]. *)
Fixpoint find_header_from (combos : list (list string)) (lines : list string)
    (i : nat) : option nat :=
  match lines with
  | [] => None
  | line :: rest =>
      if is_header combos line then Some i
      else find_header_from combos rest (S i)
  end.

Definition find_header (combos : list (list string)) (lines : list string)
    : option nat :=
  find_header_from combos lines 0.

(** The column names looked for in the output of [winget list] (line
    2051), of the second listing tried when they are not found (line
    2070), and of [winget upgrade] (line 2125). *)
Definition list_header_combos : list (list string) :=
  [["Name"; "Id"; "Version"]; ["Nom"; "ID"; "Version"]; ["名称"; "ID"; "版"]].

Definition list_header_combos_retry : list (list string) :=
  [["Name"; "Id"; "Version"]; ["Nom"; "ID"; "Version"]; ["名称"; "ID"; "版本"]].

Definition upgrade_header_combos : list (list string) :=
  [["Name"; "Version"; "Available"]; ["Nom"; "Version"; "Disponible"];
   ["名称"; "版本"; "可用"]].

(** The body of the loop over the lines below the header of
    [winget upgrade] (lines 2141-2152): a row that is not blank, is no
    separator and is longer than the last column's position gives an entry
    when its three fields are not empty. *)
Definition parse_update_line (name_pos version_pos available_pos : Z)
    (updates : list (string * (string * string))) (line : string)
    : list (string * (string * string)) :=
  if PyText.nonempty (PyStr.strip line) && negb (PyText.startswith "-" line) then
    if (PyText.len line >? available_pos)%Z then
      let name := PyStr.strip (PyText.slice line name_pos version_pos) in
      let current := PyStr.strip (PyText.slice line version_pos available_pos) in
      let new := PyStr.strip (PyText.slice_from line available_pos) in
      if PyText.nonempty name && PyText.nonempty current && PyText.nonempty new
      then dict_setitem name (current, new) updates
      else updates
    else updates
  else updates.

(** Lines 2118-2152: the updates [winget upgrade] lists, from its output. *)
Definition parse_updates (stdout : string) : list (string * (string * string)) :=
  let lines := PyText.split_lines stdout in
  match find_header upgrade_header_combos lines with
  | None => []
  | Some header_index =>
      let header := default EmptyString (lines !! header_index) in
      let name_pos := Z.max (Z.max (PyText.find "Name" header)
                                   (PyText.find "Nom" header))
                            (PyText.find "名称" header) in
      let version_pos := PyText.find "Version" header in
      let available_pos := Z.max (Z.max (PyText.find "Available" header)
                                        (PyText.find "Disponible" header))
                                 (PyText.find "可用" header) in
      foldl (parse_update_line name_pos version_pos available_pos) []
            (drop (header_index + 2) lines)
  end.

(** The body of the loop over the lines below the header of [winget list]
    (lines 2091-2101); a version column without a word raises
    [IndexError], which skips the line. *)
Definition parse_installed_line (name_pos id_pos version_pos : Z)
    (installed : list (string * string)) (line : string)
    : list (string * string) :=
  if PyText.nonempty (PyStr.strip line) && negb (PyText.startswith "-" line) then
    if (PyText.len line >? version_pos)%Z then
      let name := PyStr.strip (PyText.slice line name_pos id_pos) in
      match PyText.first_word (PyStr.strip (PyText.slice_from line version_pos)) with
      | None => installed
      | Some version =>
          if PyText.nonempty name && PyText.nonempty version
          then dict_setitem name version installed
          else installed
      end
    else installed
  else installed.

(** Lines 2083-2101: the installed packages, from the lines of
    [winget list] and the index of their header. *)
Definition parse_installed (lines : list string) (header_index : nat)
    : list (string * string) :=
  let header := default EmptyString (lines !! header_index) in
  let name_pos := Z.max (Z.max (PyText.find "Name" header)
                               (PyText.find "Nom" header))
                        (PyText.find "名称" header) in
  let id_pos := Z.max (Z.max (PyText.find "Id" header) (PyText.find "ID" header))
                      (PyText.find "标识符" header) in
  let version_pos := Z.max (PyText.find "Version" header)
                           (PyText.find "版本" header) in
  foldl (parse_installed_line name_pos id_pos version_pos) []
        (drop (header_index + 2) lines).

(** ** The package list of the Updates window *)

(** A row of [packages_list]: the package, its versions, the checkbox
    variable and whether the checkbox is in state "normal". *)
Record PackageRow : Type := mkPackageRow {
  package_name : string;
  current_version : string;
  new_version : option string;
  checkbox : bool;
  checkbox_normal : bool
}.

(** [_add_package_to_list]: the checkbox starts unticked and is enabled
    only when a new version is given. *)
Definition _add_package_to_list (name current : string) (new : option string)
    (packages_list : list PackageRow) : list PackageRow :=
  packages_list
  ++ [mkPackageRow name current new false
        (match new with Some v => PyText.nonempty v | None => false end)].

(** Lines 2154-2162: the rows for the packages with an update, then those
    for the other installed packages. *)
Definition show_packages (updates : list (string * (string * string)))
    (installed : list (string * string)) (packages_list : list PackageRow)
    : list PackageRow :=
  let packages_list :=
    foldl (fun rows entry =>
             _add_package_to_list entry.1 entry.2.1 (Some entry.2.2) rows)
          packages_list updates in
  foldl (fun rows entry =>
           if decide (entry.1 ∈ updates.*1) then rows
           else _add_package_to_list entry.1 entry.2 None rows)
        packages_list installed.

(** [_toggle_all_packages]: only checkboxes in state "normal" follow the
    "select all" box. *)
Definition _toggle_all_packages (selected : bool) (packages_list : list PackageRow)
    : list PackageRow :=
  (fun row =>
     if checkbox_normal row
     then mkPackageRow (package_name row) (current_version row) (new_version row)
                       selected (checkbox_normal row)
     else row) <$> packages_list.

(** The packages [_update_selected_thread] collects, and the [winget]
    commands it runs for them, none when nothing is ticked. *)
Definition selected_packages (packages_list : list PackageRow) : list string :=
  package_name <$> filter (fun row => checkbox row = true) packages_list.

Definition upgrade_commands (packages_list : list PackageRow) : list (list string) :=
  (fun package => ["winget"; "upgrade"; package]) <$> selected_packages packages_list.

(** The rows [show_packages] makes for an update and for an installed
    package without one. *)
Definition update_row (entry : string * (string * string)) : PackageRow :=
  mkPackageRow entry.1 entry.2.1 (Some entry.2.2) false (PyText.nonempty entry.2.2).

Definition installed_row (entry : string * string) : PackageRow :=
  mkPackageRow entry.1 entry.2 None false false.

(** An entry of the updates table as the parser leaves it: no field is
    empty or has blanks around it. *)
Definition trimmed (s : string) : Prop :=
  s <> EmptyString /\ PyStr.strip s = s.

Definition update_entry_ok (entry : string * (string * string)) : Prop :=
  trimmed entry.1 /\ trimmed entry.2.1 /\ trimmed entry.2.2.

Definition installed_entry_ok (entry : string * string) : Prop :=
  trimmed entry.1 /\ entry.2 <> EmptyString /\ PyText.until_space entry.2 = entry.2.

(** The rows with the tick of every enabled checkbox set to [c]. *)
Definition with_ticks (c : bool) (rows : list PackageRow) : list PackageRow :=
  (fun row =>
     mkPackageRow (package_name row) (current_version row) (new_version row)
                  (checkbox_normal row && c) (checkbox_normal row)) <$> rows.

(** ** The control center under the events of its window *)

Section Events.

Context {HardwareMonitor PowerManager DisplayManager : Type}.
Variable set_update_interval : Z -> HardwareMonitor -> HardwareMonitor.
Variable apply_profile :
  PowerProfile -> PowerManager -> PowerManager * result bool.
Variable set_refresh_rate :
  string -> string -> DisplayManager -> DisplayManager * result bool.

(** What calls the setters once the window is up: a profile button or a
    refresh button, each with its own key (the [command] of lines 419 and
    464), the start-up callback (line 224) and the Save button of the
    settings window (line 1404).  An event carries what its handler reads
    from outside: [configs/profiles.json] as it is then, the theme file
    that was found, the values of the settings form. *)
Inductive event : Type :=
| ProfileButton (profile : string) (profiles_json : option profiles_config)
| RefreshButton (mode : string)
| InitializeDefaultProfilesDue (profiles_json : option profiles_config)
| SaveButton (theme_file : option string) (lang : string)
             (to_tray start_min start_win : bool) (interval_text : string).

(** A button that does not exist cannot be pressed. *)
Definition handle (e : event)
    (self : @App HardwareMonitor PowerManager DisplayManager)
    : @App HardwareMonitor PowerManager DisplayManager :=
  match e with
  | ProfileButton profile profiles_json =>
      if decide (profile ∈ profile_buttons self)
      then (_set_power_profile_sync apply_profile profiles_json profile self).1
      else self
  | RefreshButton mode =>
      if decide (mode ∈ refresh_buttons self)
      then (_set_refresh_rate_sync set_refresh_rate mode self).1
      else self
  | InitializeDefaultProfilesDue profiles_json =>
      (_initialize_default_profiles apply_profile set_refresh_rate
                                    profiles_json self).1
  | SaveButton theme_file lang to_tray start_min start_win interval_text =>
      _save_settings set_update_interval theme_file lang to_tray start_min
                     start_win interval_text self
  end.

Definition run_events (events : list event)
    (self : @App HardwareMonitor PowerManager DisplayManager)
    : @App HardwareMonitor PowerManager DisplayManager :=
  foldl (fun self e => handle e self) self events.

(** The highlighted buttons are those of the configured profile and
    refresh mode, none where the configured value has no button. *)
Definition buttons_follow_config
    (self : @App HardwareMonitor PowerManager DisplayManager) : Prop :=
  active_profile_button self
  = initial_button (profile_buttons self) (current_profile (config self)) /\
  active_refresh_button self
  = initial_button (refresh_buttons self) (refresh_rate_mode (config self)).

(** The button tables are [pbs] and [rbs], and the highlights agree with
    the configuration. *)
Definition buttons_invariant (pbs rbs : list string)
    (self : @App HardwareMonitor PowerManager DisplayManager) : Prop :=
  profile_buttons self = pbs /\ refresh_buttons self = rbs /\
  buttons_follow_config self.

End Events.

(** ** More sample data *)

Module MoreSamples.

(** A profiles file whose only profile stores a limit as text. *)
Definition stored_text_limit : gmap string json :=
  list_to_map [("stapm_limit", JStr "30W"); ("tctl_temp", JInt 95)].

Definition profiles_text_limit : profiles_config :=
  list_to_map
    [("amd_profiles",
      list_to_map [("16_AMD", list_to_map [("balanced", stored_text_limit)])])].

(** The stored table of the 16-inch model's balanced profile as
    [load_profile_data] hands it on. *)
Definition loaded_balanced : gmap string json :=
  default ∅ (Samples.stored_for "Framework 16 AMD" "Balanced").

(** The silent profile resolved on the 16-inch model, and the power
    manager after the start-up profile was applied. *)
Definition silent_profile : PowerProfile :=
  default (mkPowerProfile "" ∅) (Samples.resolved_for "Framework 16 AMD" "Silent").

Definition manager_after_startup : PowerManagerSpec.Manager :=
  (PowerManagerSpec.apply_profile Samples.startup_profile
                                  (power Samples.app16)).1.

Definition manager_after_silent : PowerManagerSpec.Manager :=
  (PowerManagerSpec.apply_profile silent_profile manager_after_startup).1.

(** Three windows, the second of them destroyed; a refresh counts up. *)
Definition windows (n : nat) : Window nat :=
  mkWindow (negb (Nat.eqb n 2)) 0.

Definition count_refresh (n : nat) : nat * option exn := (S n, None).

(** What [winget upgrade] and [winget list] print. *)
Definition upgrade_output : string :=
  "Name            Version Available
------------------------------
Foo Tool        1.0     2.0
Bar             3.1.4   3.2
2 upgrades available.
".

Definition list_output : list string :=
  ["Name            Id          Version";
   "-------------------------------------";
   "Foo Tool        Foo.Tool    1.0  winget";
   "Baz             Baz.Baz     0.9"].

Definition updates : list (string * (string * string)) :=
  [("Foo Tool", ("1.0", "2.0")); ("Bar", ("3.1.4", "3.2"))].

Definition installed : list (string * string) :=
  [("Foo Tool", "1.0"); ("Baz", "0.9")].


(** Collaborators that record what they are asked: the intervals the
    hardware monitor is given, the names of the profiles the power manager
    is asked to apply, the modes the display manager is asked for.  Every
    request is reported as done. *)
Definition record_interval (interval : Z) (given : list Z) : list Z :=
  (given ++ [interval])%list.

Definition record_apply (profile : PowerProfile) (asked : list string)
    : list string * result bool :=
  ((asked ++ [name profile])%list, Ok true).

Definition record_rate (actual_mode max_rate : string) (asked : list string)
    : list string * result bool :=
  ((asked ++ [actual_mode])%list, Ok true).

(** Start-up on the 16-inch model over these collaborators. *)
Definition recorded_start (cfg : SystemConfig)
    : result (@App (list Z) (list string) (list string)) :=
  __init__ (fun _ => []) record_interval (fun _ => []) (fun _ => [])
           (fun _ => ["60"; "165"]) cfg (Some Samples.framework16).

(** Settings whose stored interval is 5 ms. *)
Definition settings_5ms : SystemConfig :=
  mkSystemConfig "default_theme" "en" true false false 5 "Balanced" "Auto".

(** The control center started on [Samples.settings]; the fallback record
    is never taken. *)
Definition recorded_app : @App (list Z) (list string) (list string) :=
  match recorded_start Samples.settings with
  | Ok a => a
  | Raise _ =>
      mkApp Samples.framework16 Samples.settings [] [] [] [] [] None None []
  end.

(** The user chooses Silent and 60 Hz before the start-up callback is due. *)
Definition early_choice : list event :=
  [ProfileButton "Silent" (Some Samples.profiles); RefreshButton "60"].

End MoreSamples.



(** * Profile resolution *)

Section ResolutionFacts.

Lemma model_map_platform (p : platform) :
  model_map !! PyStr.strip (platform_name p) = Some (platform_key p).
Proof. destruct p; vm_compute; reflexivity. Qed.

Lemma select_profile_data_absent (config : profiles_config)
    (section_name profile_key profile_name : string)
    (sec : gmap string (gmap string (gmap string json)))
    (tbl : gmap string (gmap string json)) :
  config !! section_name = Some sec ->
  sec !! profile_key = Some tbl ->
  tbl !! PyStr.lower profile_name = None ->
  select_profile_data config section_name profile_key profile_name
  = Stop (ProfileNotFound profile_name profile_key).
Proof.
  intros Hsec Htbl Habs. unfold select_profile_data, getitem.
  rewrite Hsec. cbn. rewrite Htbl. cbn. rewrite Habs. reflexivity.
Qed.

Lemma select_profile_data_present (config : profiles_config)
    (section_name profile_key profile_name : string)
    (sec : gmap string (gmap string (gmap string json)))
    (tbl : gmap string (gmap string json)) (data : gmap string json) :
  config !! section_name = Some sec ->
  sec !! profile_key = Some tbl ->
  tbl !! PyStr.lower profile_name = Some data ->
  select_profile_data config section_name profile_key profile_name = Next data.
Proof.
  intros Hsec Htbl Hdata. unfold select_profile_data, getitem.
  rewrite Hsec. cbn. rewrite Htbl. cbn. rewrite Hdata. reflexivity.
Qed.

(** The branch taken for a recognised platform. *)
Lemma load_profile_data_platform (p : platform) (config : profiles_config)
    (amd : gmap string (gmap string (gmap string json))) (profile_name : string) :
  config !! "amd_profiles" = Some amd ->
  load_profile_data (Some config) (platform_name p) profile_name
  = (data ← select_profile_data config (platform_family p) (platform_key p) profile_name;
     Next (delete "name" data)).
Proof.
  intros Hamd. unfold load_profile_data, getitem.
  rewrite Hamd. cbn.
  rewrite model_map_platform.
  destruct p; reflexivity.
Qed.

(** What [default_params] holds once the two divisions went through. *)
Lemma default_params_Next (data : gmap string json) (profile_name : string)
    (d : gmap string json) :
  default_params data profile_name = Next d ->
  d !! "gpu_power" = Some (JInt 25) /\
  d !! "boost_enabled"
    = Some (JBool (negb (String.eqb (PyStr.lower profile_name) "silent"))) /\
  d !! "fan_mode" = Some (JStr "auto") /\
  d !! "fan_curve" = Some default_fan_curve /\
  dom d = list_to_set ["tdp"; "cpu_power"; "gpu_power"; "boost_enabled";
                       "fan_mode"; "fan_curve"].
Proof.
  unfold default_params.
  destruct (floordiv (default _ (data !! "stapm_limit")) _) as [tdp|];
    cbn; [|discriminate].
  destruct (floordiv (default _ (data !! "fast_limit")) _) as [cpu|];
    cbn; [|discriminate].
  intros [= <-].
  repeat split; reflexivity.
Qed.

Lemma default_params_total (data : gmap string json) (profile_name : string) :
  int_or_absent (data !! "stapm_limit") ->
  int_or_absent (data !! "fast_limit") ->
  exists d, default_params data profile_name = Next d.
Proof.
  unfold default_params, int_or_absent.
  destruct (data !! "stapm_limit") as [[]|]; cbn; try tauto;
    destruct (data !! "fast_limit") as [[]|]; cbn; try tauto; eauto.
Qed.

(** [update] lets the argument win on every key it has and keeps the
    rest. *)
Lemma dict_update_lookup {V : Type} (d other : gmap string V) (k : string) :
  dict_update d other !! k
  = match other !! k with Some v => Some v | None => d !! k end.
Proof.
  unfold dict_update. rewrite lookup_union.
  destruct (other !! k), (d !! k); reflexivity.
Qed.

Lemma resolve_profile_Next (profiles_json : option profiles_config)
    (model profile_name : string) (p : PowerProfile) :
  resolve_profile profiles_json model profile_name = Next p ->
  exists data d,
    load_profile_data profiles_json model profile_name = Next data /\
    default_params data profile_name = Next d /\
    p = mkPowerProfile profile_name (dict_update data d).
Proof.
  unfold resolve_profile.
  destruct (load_profile_data _ _ _) as [data|]; cbn; [|discriminate].
  destruct (default_params _ _) as [d|] eqn:Hd; cbn; [|discriminate].
  intros [= <-]. exists data, d. auto.
Qed.

(** A field that [default_params] does not supply keeps its stored
    value. *)
Lemma resolve_profile_keeps_stored (profiles_json : option profiles_config)
    (model profile_name : string) (p : PowerProfile)
    (data : gmap string json) (k : string) :
  resolve_profile profiles_json model profile_name = Next p ->
  load_profile_data profiles_json model profile_name = Next data ->
  k ∉ ["tdp"; "cpu_power"; "gpu_power"; "boost_enabled"; "fan_mode"; "fan_curve"] ->
  fields p !! k = data !! k.
Proof.
  intros Hres Hload Hk.
  destruct (resolve_profile_Next _ _ _ _ Hres) as (data' & d & Hload' & Hd & ->).
  rewrite Hload in Hload'. injection Hload' as <-.
  cbn. rewrite dict_update_lookup.
  destruct (default_params_Next _ _ _ Hd) as (_ & _ & _ & _ & Hdom).
  destruct (d !! k) as [v|] eqn:Hdk; [|reflexivity].
  exfalso. apply Hk.
  assert (k ∈ dom d) as Hin by (apply elem_of_dom; eauto).
  rewrite Hdom in Hin. set_solver.
Qed.

(** A field that [default_params] supplies takes the default, whatever
    the stored table gives for it. *)
Lemma resolve_profile_default_wins (profiles_json : option profiles_config)
    (model profile_name : string) (p : PowerProfile)
    (data d : gmap string json) (k : string) (v : json) :
  resolve_profile profiles_json model profile_name = Next p ->
  load_profile_data profiles_json model profile_name = Next data ->
  default_params data profile_name = Next d ->
  d !! k = Some v ->
  fields p !! k = Some v.
Proof.
  intros Hres Hload Hd Hk.
  destruct (resolve_profile_Next _ _ _ _ Hres) as (data' & d' & Hload' & Hd' & ->).
  rewrite Hload in Hload'. injection Hload' as <-.
  rewrite Hd in Hd'. injection Hd' as <-.
  cbn [fields]. rewrite dict_update_lookup, Hk. reflexivity.
Qed.

(** The spec's example: a stored [stapm_limit] of 30000 is what the
    resolved profile carries. *)
Example resolve_keeps_stapm_limit :
  (fields <$> Samples.resolved_for "Framework 16 AMD" "Balanced")
    ≫= (.!! "stapm_limit") = Some (JInt 30000) /\
  name <$> Samples.resolved_for "Framework 16 AMD" "Balanced" = Some "Balanced".
Proof. split; vm_compute; reflexivity. Qed.

(** C1 (as the code behaves): on the 16-inch AMD platform with a stored
    "balanced" table that gives gpu_power = 50, fan_mode = "manual",
    boost_enabled = false and its own fan curve, the profile handed to the
    power manager carries gpu_power = 25, fan_mode = "auto",
    boost_enabled = true and the default fan curve: [update] lets the
    defaults overwrite the stored values. *)
Theorem C1_stored_fields_overwritten_by_defaults :
  let stored := Samples.stored_for "Framework 16 AMD" "Balanced" in
  let resolved := fields <$> Samples.resolved_for "Framework 16 AMD" "Balanced" in
  (stored ≫= (.!! "gpu_power") = Some (JInt 50) /\
   resolved ≫= (.!! "gpu_power") = Some (JInt 25)) /\
  (stored ≫= (.!! "fan_mode") = Some (JStr "manual") /\
   resolved ≫= (.!! "fan_mode") = Some (JStr "auto")) /\
  (stored ≫= (.!! "boost_enabled") = Some (JBool false) /\
   resolved ≫= (.!! "boost_enabled") = Some (JBool true)) /\
  (stored ≫= (.!! "fan_curve")
   = Some (JObj (list_to_map [("50", JInt 30); ("90", JInt 100)])) /\
   resolved ≫= (.!! "fan_curve") = Some default_fan_curve).
Proof.
  cbv zeta.
  split; [split; vm_compute; reflexivity|].
  split; [split; vm_compute; reflexivity|].
  split; [split; vm_compute; reflexivity|].
  split; vm_compute; reflexivity.
Qed.

(** C3: for every profile the resolution yields, a field the stored table
    does not give takes its structural default: boost_enabled is
    (lower-cased name <> "silent"), fan_mode is "auto", fan_curve is the
    default curve. *)
Theorem C3_structural_defaults (profiles_json : option profiles_config)
    (model profile_name : string) (data : gmap string json) (p : PowerProfile) :
  load_profile_data profiles_json model profile_name = Next data ->
  resolve_profile profiles_json model profile_name = Next p ->
  (data !! "boost_enabled" = None ->
   fields p !! "boost_enabled"
   = Some (JBool (negb (String.eqb (PyStr.lower profile_name) "silent")))) /\
  (data !! "fan_mode" = None -> fields p !! "fan_mode" = Some (JStr "auto")) /\
  (data !! "fan_curve" = None -> fields p !! "fan_curve" = Some default_fan_curve).
Proof.
  intros Hload Hres.
  destruct (resolve_profile_Next _ _ _ _ Hres) as (data' & d & Hload' & Hd & ->).
  destruct (default_params_Next _ _ _ Hd) as (_ & Hb & Hm & Hc & _).
  cbn. rewrite !dict_update_lookup, Hb, Hm, Hc. auto.
Qed.

Lemma C3_structural_defaults_witness :
  fields (default (mkPowerProfile "" ∅)
                  (Samples.resolved_for "Framework 16 AMD" "Silent"))
    !! "boost_enabled" = Some (JBool false).
Proof.
  refine (proj1 (C3_structural_defaults (Some Samples.profiles)
                   "Framework 16 AMD" "Silent"
                   (default ∅ (Samples.stored_for "Framework 16 AMD" "Silent"))
                   (default (mkPowerProfile "" ∅)
                            (Samples.resolved_for "Framework 16 AMD" "Silent"))
                   _ _) _);
    vm_compute; reflexivity.
Defined.

End ResolutionFacts.


(** * The control center *)

Section ControlCenterFacts.

Context {HardwareMonitor PowerManager DisplayManager : Type}.
Variable HardwareMonitor_new : string -> HardwareMonitor.
Variable set_update_interval : Z -> HardwareMonitor -> HardwareMonitor.
Variable PowerManager_new : Model -> PowerManager.
Variable DisplayManager_new : Model -> DisplayManager.
Variable _valid_rates : DisplayManager -> list string.
Variable apply_profile :
  PowerProfile -> PowerManager -> PowerManager * result bool.
Variable set_refresh_rate :
  string -> string -> DisplayManager -> DisplayManager * result bool.

Local Abbreviation app := (@App HardwareMonitor PowerManager DisplayManager).
Local Abbreviation init :=
  (__init__ HardwareMonitor_new set_update_interval PowerManager_new
            DisplayManager_new _valid_rates).

Lemma set_display_same (self : app) : set_display (display self) self = self.
Proof. destruct self; reflexivity. Qed.

(** A resolution that stops leaves the control center as it was. *)
Lemma _set_power_profile_sync_Stop (profiles_json : option profiles_config)
    (profile_name : string) (self : app) (o : outcome) :
  resolve_profile profiles_json (model_name (model self)) profile_name = Stop o ->
  _set_power_profile_sync apply_profile profiles_json profile_name self = (self, o).
Proof. intros H. unfold _set_power_profile_sync. rewrite H. reflexivity. Qed.

(** The control center after an apply that reported success ... *)
Lemma _set_power_profile_sync_applied (profiles_json : option profiles_config)
    (profile_name : string) (self : app) (profile : PowerProfile)
    (pm : PowerManager) :
  resolve_profile profiles_json (model_name (model self)) profile_name
  = Next profile ->
  apply_profile profile (power self) = (pm, Ok true) ->
  _set_power_profile_sync apply_profile profiles_json profile_name self
  = (mkApp (model self) (with_current_profile profile_name (config self))
           (hardware self) pm (display self)
           (profile_buttons self) (refresh_buttons self)
           (if decide (profile_name ∈ profile_buttons self)
            then Some profile_name else active_profile_button self)
           (active_refresh_button self) (scheduled self),
     ProfileApplied profile_name).
Proof.
  intros Hres Happly. unfold _set_power_profile_sync.
  rewrite Hres, Happly. destruct self. cbn.
  destruct (decide _); reflexivity.
Qed.

(** ... and after one that reported failure: only the power manager
    moved. *)
Lemma _set_power_profile_sync_failed (profiles_json : option profiles_config)
    (profile_name : string) (self : app) (profile : PowerProfile)
    (pm : PowerManager) :
  resolve_profile profiles_json (model_name (model self)) profile_name
  = Next profile ->
  apply_profile profile (power self) = (pm, Ok false) ->
  _set_power_profile_sync apply_profile profiles_json profile_name self
  = (set_power pm self, ApplyFailed profile_name).
Proof.
  intros Hres Happly. unfold _set_power_profile_sync.
  rewrite Hres, Happly. reflexivity.
Qed.

Lemma _set_refresh_rate_set (mode : string) (self : app) (dm : DisplayManager) :
  set_refresh_rate (actual_mode mode) (max_rate (model self)) (display self)
  = (dm, Ok true) ->
  _set_refresh_rate set_refresh_rate mode self
  = (mkApp (model self) (with_refresh_rate_mode mode (config self))
           (hardware self) (power self) dm
           (profile_buttons self) (refresh_buttons self)
           (active_profile_button self)
           (if decide (mode ∈ refresh_buttons self)
            then Some mode else active_refresh_button self)
           (scheduled self),
     RefreshSet mode).
Proof.
  intros Hset. unfold _set_refresh_rate.
  rewrite Hset. destruct self. cbn.
  destruct (decide _); reflexivity.
Qed.

(** C2: on every platform, an ASCII profile name whose lower-case form
    is not in the table stored for that platform ends the call on the
    "profile not found" path: no profile is built and the control center
    (active profile, power manager, buttons) is left as it was. *)
Theorem C2_unknown_profile_rejected (p : platform) (config : profiles_config)
    (amd sec : gmap string (gmap string (gmap string json)))
    (tbl : gmap string (gmap string json)) (profile_name : string) (self : app) :
  model_name (model self) = platform_name p ->
  config !! "amd_profiles" = Some amd ->
  config !! platform_family p = Some sec ->
  sec !! platform_key p = Some tbl ->
  PyText.isascii profile_name = true ->
  tbl !! PyStr.lower profile_name = None ->
  resolve_profile (Some config) (platform_name p) profile_name
  = Stop (ProfileNotFound profile_name (platform_key p)) /\
  _set_power_profile_sync apply_profile (Some config) profile_name self
  = (self, ProfileNotFound profile_name (platform_key p)).
Proof.
  intros Hname Hamd Hsec Htbl _ Habs.
  assert (resolve_profile (Some config) (platform_name p) profile_name
          = Stop (ProfileNotFound profile_name (platform_key p))) as Hres.
  { unfold resolve_profile.
    rewrite (load_profile_data_platform p config amd profile_name Hamd).
    rewrite (select_profile_data_absent _ _ _ _ _ _ Hsec Htbl Habs).
    reflexivity. }
  split; [exact Hres|].
  apply _set_power_profile_sync_Stop. rewrite Hname. exact Hres.
Qed.

(** C5: without a detected model [__init__] raises, and whenever it
    returns a control center, every component of it was built from the
    model the detector reported. *)
Theorem C5_unrecognised_platform_aborts_startup (cfg : SystemConfig) :
  init cfg None = Raise (RuntimeError "No compatible Framework laptop detected") /\
  forall (detected : option Model) (a : app),
    init cfg detected = Ok a ->
    detected = Some (model a) /\
    hardware a = set_update_interval (monitoring_interval cfg)
                   (HardwareMonitor_new (model_name (model a))) /\
    power a = PowerManager_new (model a) /\
    display a = DisplayManager_new (model a).
Proof.
  split; [reflexivity|].
  intros [m|] a; cbn; [|discriminate].
  intros [= <-]. cbn. auto.
Qed.

Lemma clamp_interval_bounds (n : Z) :
  (100 <= clamp_interval n <= 10000)%Z.
Proof.
  unfold clamp_interval.
  destruct (Z.ltb_spec n 100); [lia|].
  destruct (Z.gtb_spec n 10000); lia.
Qed.

Lemma clamp_interval_cases (n : Z) :
  ((n < 100 -> clamp_interval n = 100) /\
   (10000 < n -> clamp_interval n = 10000) /\
   (100 <= n <= 10000 -> clamp_interval n = n))%Z.
Proof.
  unfold clamp_interval.
  destruct (Z.ltb_spec n 100); [lia|].
  destruct (Z.gtb_spec n 10000); lia.
Qed.

(** C7 (amended): when the settings are saved, a theme file being
    found, with an interval that reads as the integer [n], the configured
    interval is 100 for [n] below 100, 10000 for [n] above 10000 and [n]
    itself in between; a changed interval is pushed to the hardware
    monitor.  (Text that [PyStr.int] reads is ASCII, so the reading is
    that of [int()].) *)
Theorem C7_monitoring_interval_clamped (theme lang : string)
    (to_tray start_min start_win : bool) (text : string) (n : Z) (self : app) :
  PyStr.int text = Some n ->
  let self' := _save_settings set_update_interval (Some theme) lang to_tray
                              start_min start_win text self in
  let i := monitoring_interval (config self') in
  ((n < 100 -> i = 100) /\
   (10000 < n -> i = 10000) /\
   (100 <= n <= 10000 -> i = n) /\
   (i <> monitoring_interval (config self) ->
    hardware self' = set_update_interval i (hardware self)))%Z.
Proof.
  intros Hn. unfold _save_settings. rewrite Hn. cbn.
  destruct (decide (monitoring_interval (config self) = clamp_interval n)) as [Heq|Hne];
    cbn; pose proof (clamp_interval_cases n) as (H1 & H2 & H3).
  - repeat split; auto. intros Hc. congruence.
  - repeat split; auto.
Qed.

End ControlCenterFacts.


(** * Refresh-rate requests *)

Section RefreshRateFacts.

Context {HardwareMonitor PowerManager : Type}.

Local Abbreviation app :=
  (@App HardwareMonitor PowerManager DisplayControllerSpec.Display).

Import DisplayControllerSpec.

Lemma max_rate_platform (p : platform) (m : Model) :
  model_name m = platform_name p ->
  PyStr.int (max_rate m) = Some (platform_max p).
Proof.
  intros H. unfold max_rate. rewrite H. destruct p; vm_compute; reflexivity.
Qed.

Lemma set_refresh_rate_auto (max_text : string) (max : Z) (d : Display) :
  PyStr.int max_text = Some max ->
  set_refresh_rate "auto" max_text d
  = (mkDisplay (Some NegotiatedByDisplay), Ok true).
Proof.
  intros H. unfold set_refresh_rate. rewrite H. reflexivity.
Qed.

Lemma set_refresh_rate_above_max (text max_text : string) (rate max : Z)
    (d : Display) :
  decode text = Some (Hz rate) ->
  PyStr.int max_text = Some max ->
  (rate > max)%Z ->
  set_refresh_rate text max_text d = (d, Ok false).
Proof.
  intros Hd Hm Hgt. unfold set_refresh_rate. rewrite Hd, Hm. cbn.
  destruct (Z.gtb_spec rate max); [reflexivity|lia].
Qed.

(** The spec's example: 165 Hz asked of a 60 Hz platform. *)
Example negotiate_165_on_60 (d : Display) :
  negotiate (Hz 165) 60 d = (d, inl (Unsupported 165)).
Proof. reflexivity. Qed.

(** C4: the control center derives 165 Hz as the maximum of the 16-inch
    platform and 60 Hz of the others; "Auto" reaches the display as the
    mode "auto", a request of its own that is not a number, and is
    accepted; an explicit rate above the platform maximum is refused with
    [Unsupported rate], the display and the configured mode staying as
    they were. *)
Theorem C4_refresh_rate_negotiation (p : platform) (self : app) :
  model_name (model self) = platform_name p ->
  PyStr.int (max_rate (model self)) = Some (platform_max p) /\
  (actual_mode "Auto" = "auto" /\
   PyStr.int (actual_mode "Auto") = None /\
   decode (actual_mode "Auto") = Some Auto /\
   exists self',
     _set_refresh_rate set_refresh_rate "Auto" self = (self', RefreshSet "Auto") /\
     mode (display self') = Some NegotiatedByDisplay /\
     refresh_rate_mode (config self') = "Auto") /\
  (forall (requested : string) (rate : Z),
     decode (actual_mode requested) = Some (Hz rate) ->
     (rate > platform_max p)%Z ->
     negotiate (Hz rate) (platform_max p) (display self)
     = (display self, inl (Unsupported rate)) /\
     _set_refresh_rate set_refresh_rate requested self
     = (self, RefreshFailed requested)).
Proof.
  intros Hname.
  pose proof (max_rate_platform p (model self) Hname) as Hmax.
  split; [exact Hmax|]. split.
  - repeat split; try reflexivity.
    unfold _set_refresh_rate.
    change (actual_mode "Auto") with "auto".
    rewrite (set_refresh_rate_auto _ _ _ Hmax). cbn.
    eexists. split; [reflexivity|].
    split; [|destruct (decide _); reflexivity].
    destruct (decide _); reflexivity.
  - intros requested rate Hdec Hgt. split.
    + cbn. destruct (Z.gtb_spec rate (platform_max p)); [reflexivity|lia].
    + unfold _set_refresh_rate.
      rewrite (set_refresh_rate_above_max _ _ _ _ _ Hdec Hmax Hgt).
      cbn. rewrite set_display_same. reflexivity.
Qed.

End RefreshRateFacts.


(** * The power manager *)

Section PowerManagerFacts.

Import PowerManagerSpec.

Lemma write_all_ok (ws : list (string * json)) :
  forall h : Hardware,
    (forall j, j < length ws -> faults h !! j <> Some true) ->
    write_all ws h
    = (mkHardware (write_regs ws (regs h)) (drop (length ws) (faults h))
                  (write_log h ++ (written <$> ws)), None).
Proof.
  induction ws as [|[k v] ws IH]; intros h Hok.
  - destruct h; cbn. rewrite app_nil_r. reflexivity.
  - cbn [write_all]. unfold write.
    destruct (faults h) as [|[] rest] eqn:Hf.
    + rewrite IH; cbn; [|intros j _; rewrite lookup_nil; discriminate].
      rewrite <- app_assoc. rewrite drop_nil. reflexivity.
    + exfalso. apply (Hok 0); [cbn; lia|reflexivity].
    + rewrite IH; cbn.
      * rewrite <- app_assoc. reflexivity.
      * intros j Hj. apply (Hok (S j)). cbn. lia.
Qed.

Lemma write_all_fail (i : nat) :
  forall (ws : list (string * json)) (h : Hardware) (f : string) (v : json)
         (rest : list bool),
    ws !! i = Some (f, v) ->
    faults h = (replicate i false ++ true :: rest)%list ->
    write_all ws h
    = (mkHardware (write_regs (take i ws) (regs h)) rest
                  (write_log h ++ (written <$> take i ws) ++ [(f, v, false)]),
       Some f).
Proof.
  induction i as [|i IH]; intros [|[k w] ws] h f v rest Hi Hf; try discriminate.
  - cbn in Hi. injection Hi as -> ->. cbn in Hf.
    cbn [write_all]. unfold write. rewrite Hf. reflexivity.
  - cbn in Hi. cbn in Hf.
    cbn [write_all]. unfold write. rewrite Hf.
    rewrite (IH ws _ f v rest Hi); [|reflexivity].
    cbn. rewrite <- app_assoc. reflexivity.
Qed.

Lemma write_all_fault (ws : list (string * json)) :
  forall h : Hardware,
    (exists j, j < length ws /\ faults h !! j = Some true) ->
    exists h' f, write_all ws h = (h', Some f).
Proof.
  induction ws as [|[k v] ws IH]; intros h (j & Hj & Hf).
  - cbn in Hj. lia.
  - cbn [write_all]. unfold write.
    destruct (faults h) as [|[] rest] eqn:Hfs.
    + rewrite lookup_nil in Hf. discriminate.
    + eauto.
    + destruct j as [|j]; [discriminate|].
      apply IH. exists j. cbn in *. split; [lia|exact Hf].
Qed.

Lemma write_regs_cons (k : string) (v : json) (ws : list (string * json))
    (r : gmap string json) :
  write_regs ((k, v) :: ws) r = write_regs ws (<[k := v]> r).
Proof. reflexivity. Qed.

Lemma write_regs_fresh (ws : list (string * json)) :
  forall (r : gmap string json) (k : string),
    k ∉ ws.*1 -> write_regs ws r !! k = r !! k.
Proof.
  induction ws as [|[k' v'] ws IH]; intros r k Hk; [reflexivity|].
  rewrite fmap_cons in Hk. apply not_elem_of_cons in Hk as [Hne Hk].
  rewrite write_regs_cons, IH by exact Hk.
  apply lookup_insert_ne. cbn in Hne. congruence.
Qed.

Lemma write_regs_lookup (ws : list (string * json)) :
  forall (r : gmap string json) (k : string) (v : json),
    NoDup ws.*1 -> (k, v) ∈ ws -> write_regs ws r !! k = Some v.
Proof.
  induction ws as [|[k' v'] ws IH]; intros r k v Hnd Hin.
  - inversion Hin.
  - rewrite fmap_cons in Hnd. apply NoDup_cons in Hnd as [Hfresh Hnd].
    rewrite write_regs_cons.
    apply elem_of_cons in Hin as [[= -> ->]|Hin].
    + rewrite write_regs_fresh by exact Hfresh.
      apply lookup_insert_eq.
    + apply IH; assumption.
Qed.

Lemma NoDup_knob_order : NoDup knob_order.
Proof. apply (bool_decide_unpack _). vm_compute. reflexivity. Qed.

Lemma omap_keys_sublist (g : string -> option json) (l : list string) :
  sublist (omap (fun k => (fun v => (k, v)) <$> g k) l).*1 l.
Proof.
  induction l as [|k l IH]; cbn; [constructor|].
  destruct (g k); cbn; [apply sublist_skip|apply sublist_cons]; exact IH.
Qed.

(** A profile writes every knob at most once. *)
Lemma NoDup_writes_of (p : PowerProfile) : NoDup (writes_of p).*1.
Proof.
  eapply sublist_NoDup; [apply NoDup_knob_order|apply omap_keys_sublist].
Qed.

Lemma NoDup_rollback_writes (m : Manager) : NoDup (rollback_writes m).*1.
Proof.
  unfold rollback_writes. destruct (current m); [apply NoDup_writes_of|constructor].
Qed.

(** What [apply] does from a manager that is not applying, in terms of
    the two write passes. *)
Lemma apply_unfold (p : PowerProfile) (m : Manager) :
  is_applying (state m) = false ->
  apply p m
  = let '(h1, failed) := write_all (writes_of p) (hw m) in
    match failed with
    | None => (mkManager Applied (Some p) None h1, ApplyOk)
    | Some f =>
        let '(h2, rfailed) := write_all (rollback_writes m) h1 in
        match rfailed with
        | None =>
            (mkManager (match current m with Some _ => Applied | None => Idle end)
                       (current m) None h2,
             ApplyErr (Partial f))
        | Some _ => (mkManager Failed (current m) None h2, ApplyErr Inconsistent)
        end
    end.
Proof.
  intros Hs. unfold apply, apply_begin. rewrite Hs. reflexivity.
Qed.

(** The writes of a profile are its fields at the knobs. *)
Lemma elem_of_writes_of (p : PowerProfile) (k : string) (w : json) :
  (k, w) ∈ writes_of p <-> k ∈ knob_order /\ fields p !! k = Some w.
Proof.
  unfold writes_of. rewrite list_elem_of_omap. split.
  - intros (k' & Hin & Hk). destruct (fields p !! k') as [w'|] eqn:Hw;
      [|discriminate].
    cbn in Hk. injection Hk as <- <-. auto.
  - intros [Hin Hw]. exists k. split; [exact Hin|]. rewrite Hw. reflexivity.
Qed.

Lemma writes_of_keys (p : PowerProfile) (k : string) :
  k ∈ (writes_of p).*1 <-> k ∈ knob_order /\ is_Some (fields p !! k).
Proof.
  rewrite list_elem_of_fmap. split.
  - intros ([k' w] & -> & Hin). apply elem_of_writes_of in Hin as [Hk Hw].
    split; [exact Hk|]. exists w. exact Hw.
  - intros [Hk [w Hw]]. exists (k, w). split; [reflexivity|].
    apply elem_of_writes_of. auto.
Qed.

(** The registers after the writes of an apply up to the failed one and
    the writes of the rollback that went through. *)
Lemma rollback_regs (p prev : PowerProfile) (i : nat) (r : gmap string json)
    (k : string) :
  write_regs (writes_of prev) (write_regs (take i (writes_of p)) r) !! k
  = if decide (k ∈ knob_order) then
      match fields prev !! k with
      | Some w => Some w
      | None => write_regs (take i (writes_of p)) r !! k
      end
    else r !! k.
Proof.
  destruct (decide (k ∈ knob_order)) as [Hk|Hk].
  - destruct (fields prev !! k) as [w|] eqn:Hw.
    + apply write_regs_lookup; [apply NoDup_writes_of|].
      apply elem_of_writes_of. auto.
    + apply write_regs_fresh. rewrite writes_of_keys, Hw.
      intros [_ [w Hw']]. discriminate.
  - rewrite !write_regs_fresh; [reflexivity| |].
    + intros Hin. apply Hk.
      assert (k ∈ (writes_of p).*1) as Hin'.
      { eapply elem_of_sublist; [exact Hin|].
        apply fmap_sublist, sublist_take. }
      apply writes_of_keys in Hin' as [? _]. assumption.
    + rewrite writes_of_keys. tauto.
Qed.

(** C8: with [prev] applied, when the [i]-th write of an apply is the
    first to fail, no later write of the new profile is attempted and
    the previous profile is written back, knob by knob.  If those writes
    go through, the apply reports [Partial] with the failed field, the
    current profile is [prev] as before, every knob holds the value
    [prev] gives it, and where the hardware held [prev] before and the
    new profile touches no knob that [prev] lacks, the registers are
    back to what they were.  If a write of the rollback fails, the apply
    reports [Inconsistent], the state is [Failed] and the current
    profile is still [prev]. *)
Theorem C8_apply_failure_atomicity (m : Manager) (p prev : PowerProfile)
    (i : nat) (f : string) (v : json) (rest : list bool) :
  is_applying (state m) = false ->
  current m = Some prev ->
  writes_of p !! i = Some (f, v) ->
  faults (hw m) = (replicate i false ++ true :: rest)%list ->
  ((forall j, j < length (writes_of prev) -> rest !! j <> Some true) ->
   exists m',
     apply p m = (m', ApplyErr (Partial f)) /\
     current m' = Some prev /\
     state m' = Applied /\
     write_log (hw m')
     = (write_log (hw m) ++ (written <$> take i (writes_of p))
        ++ [(f, v, false)] ++ (written <$> writes_of prev))%list /\
     (forall k w, k ∈ knob_order -> fields prev !! k = Some w ->
                  regs (hw m') !! k = Some w) /\
     (forall k, k ∉ knob_order -> regs (hw m') !! k = regs (hw m) !! k) /\
     ((forall k w, k ∈ knob_order -> fields prev !! k = Some w ->
                   regs (hw m) !! k = Some w) ->
      (forall k, k ∈ knob_order -> is_Some (fields p !! k) ->
                 is_Some (fields prev !! k)) ->
      regs (hw m') = regs (hw m))) /\
  ((exists j, j < length (writes_of prev) /\ rest !! j = Some true) ->
   exists m',
     apply p m = (m', ApplyErr Inconsistent) /\
     state m' = Failed /\
     current m' = Some prev).
Proof.
  intros Hs Hcur Hi Hf.
  rewrite (apply_unfold p m Hs).
  rewrite (write_all_fail i (writes_of p) (hw m) f v rest Hi Hf).
  unfold rollback_writes. rewrite Hcur.
  set (h1 := mkHardware (write_regs (take i (writes_of p)) (regs (hw m))) rest
               (write_log (hw m) ++ (written <$> take i (writes_of p))
                  ++ [(f, v, false)])).
  split.
  - intros Hok.
    rewrite (write_all_ok (writes_of prev) h1 Hok).
    eexists. split; [reflexivity|].
    cbn [current state hw write_log regs].
    split; [reflexivity|].
    split; [reflexivity|].
    split; [unfold h1; cbn [write_log]; rewrite <- !app_assoc; reflexivity|].
    unfold h1. cbn [regs].
    split; [|split].
    + intros k w Hk Hw. rewrite rollback_regs, decide_True, Hw by exact Hk.
      reflexivity.
    + intros k Hk. rewrite rollback_regs, decide_False by exact Hk.
      reflexivity.
    + intros Hheld Hschema. apply map_eq. intros k.
      rewrite rollback_regs.
      destruct (decide (k ∈ knob_order)) as [Hk|Hk]; [|reflexivity].
      destruct (fields prev !! k) as [w|] eqn:Hw.
      * symmetry. apply Hheld; assumption.
      * apply write_regs_fresh. intros Hin.
        assert (k ∈ (writes_of p).*1) as Hin'.
        { eapply elem_of_sublist; [exact Hin|].
          apply fmap_sublist, sublist_take. }
        apply writes_of_keys in Hin' as [_ Hp].
        destruct (Hschema k Hk Hp) as [w Hw']. rewrite Hw in Hw'. discriminate.
  - intros Hbad.
    destruct (write_all_fault (writes_of prev) h1 Hbad) as (h2 & g & ->).
    eexists. split; [reflexivity|].
    split; reflexivity.
Qed.




End PowerManagerFacts.


(** * The metrics display *)

Section MetricsFacts.

Context {R : Type}.

Local Abbreviation display := (@MetricsDisplay R).

Lemma metric_order_create (m : Model) :
  metric_order (@_create_metrics_display R m)
  = (["cpu_load"; "cpu_temp"; "ram_usage"; "igpu_load"; "igpu_temp"]
     ++ (if has_dgpu m then ["dgpu_load"; "dgpu_temp"] else []))%list.
Proof.
  unfold _create_metrics_display, metrics_list.
  destruct (has_dgpu m); vm_compute; reflexivity.
Qed.

Lemma update_metric_order (metrics : gmap string R) (d : display) (key : string) :
  metric_order (update_metric metrics d key) = metric_order d.
Proof. unfold update_metric. destruct (metrics !! key); reflexivity. Qed.

Lemma foldl_update_metric_order (metrics : gmap string R) (keys : list string) :
  forall d : display,
    metric_order (foldl (update_metric metrics) d keys) = metric_order d.
Proof.
  induction keys as [|k keys IH]; intros d; [reflexivity|].
  cbn. rewrite IH. apply update_metric_order.
Qed.

Lemma _update_metrics_order (metrics : gmap string R) (d : display) :
  metric_order (_update_metrics metrics d) = metric_order d.
Proof. apply foldl_update_metric_order. Qed.

(** No tick changes the set of displayed keys. *)
Lemma run_ticks_order (ticks : list (gmap string R)) :
  forall d : display, metric_order (run_ticks ticks d) = metric_order d.
Proof.
  induction ticks as [|t ticks IH]; intros d; [reflexivity|].
  cbn. unfold run_ticks in IH. rewrite IH. apply _update_metrics_order.
Qed.

(** The label of a key after the loop ran over [keys]. *)
Lemma foldl_update_metric_label (metrics : gmap string R) (keys : list string)
    (key : string) :
  forall d : display,
    metric_labels (foldl (update_metric metrics) d keys) !! key
    = if decide (key ∈ keys) then
        match metrics !! key with
        | Some value => Some (label_for key value)
        | None => metric_labels d !! key
        end
      else metric_labels d !! key.
Proof.
  induction keys as [|k keys IH]; intros d; [reflexivity|].
  cbn [foldl]. rewrite IH.
  unfold update_metric.
  destruct (decide (key = k)) as [->|Hne].
  - rewrite (decide_True (P := k ∈ k :: keys)) by apply list_elem_of_here.
    destruct (metrics !! k) as [v|] eqn:Hv; cbn.
    + rewrite lookup_insert_eq. destruct (decide (k ∈ keys)); reflexivity.
    + destruct (decide (k ∈ keys)); reflexivity.
  - destruct (decide (key ∈ keys)) as [Hin|Hnin].
    + rewrite (decide_True (P := key ∈ k :: keys))
        by (apply list_elem_of_further; exact Hin).
      destruct (metrics !! key); [reflexivity|].
      destruct (metrics !! k); cbn; [|reflexivity].
      apply lookup_insert_ne. congruence.
    + rewrite (decide_False (P := key ∈ k :: keys))
        by (apply not_elem_of_cons; split; assumption).
      destruct (metrics !! k); cbn; [|reflexivity].
      apply lookup_insert_ne. congruence.
Qed.

Lemma _update_metrics_label (metrics : gmap string R) (d : display) (key : string) :
  metric_labels (_update_metrics metrics d) !! key
  = if decide (key ∈ metric_order d) then
      match metrics !! key with
      | Some value => Some (label_for key value)
      | None => metric_labels d !! key
      end
    else metric_labels d !! key.
Proof. apply foldl_update_metric_label. Qed.

(** A key that is not displayed never gets a label. *)
Lemma run_ticks_label_absent (ticks : list (gmap string R)) (key : string) :
  forall d : display,
    key ∉ metric_order d ->
    metric_labels d !! key = None ->
    metric_labels (run_ticks ticks d) !! key = None.
Proof.
  induction ticks as [|t ticks IH]; intros d Hout Hnone; [exact Hnone|].
  cbn. apply IH.
  - rewrite _update_metrics_order. exact Hout.
  - rewrite _update_metrics_label, decide_False by exact Hout. exact Hnone.
Qed.

Lemma add_metric_label (d : display) (entry : string * string * string)
    (key : string) :
  key <> entry.1.2 ->
  metric_labels (add_metric d entry) !! key = metric_labels d !! key.
Proof.
  destruct entry as [[label k] unit]. cbn [fst snd]. intros Hne.
  unfold add_metric. cbn [metric_labels].
  apply lookup_insert_ne. congruence.
Qed.

Lemma foldl_add_metric_label (entries : list (string * string * string))
    (key : string) :
  forall d : display,
    key ∉ (fun entry => entry.1.2) <$> entries ->
    metric_labels (foldl add_metric d entries) !! key = metric_labels d !! key.
Proof.
  induction entries as [|e entries IH]; intros d Hout; [reflexivity|].
  rewrite fmap_cons in Hout. apply not_elem_of_cons in Hout as [Hne Hout].
  cbn [foldl]. rewrite IH by exact Hout.
  apply add_metric_label. exact Hne.
Qed.

Lemma metrics_list_keys (m : Model) :
  (fun entry => entry.1.2) <$> metrics_list m
  = metric_order (@_create_metrics_display R m).
Proof.
  rewrite metric_order_create. unfold metrics_list.
  destruct (has_dgpu m); reflexivity.
Qed.

Lemma create_label_absent (m : Model) (key : string) :
  key ∉ metric_order (@_create_metrics_display R m) ->
  metric_labels (@_create_metrics_display R m) !! key = None.
Proof.
  intros Hout. unfold _create_metrics_display.
  rewrite foldl_add_metric_label; [apply lookup_empty|].
  rewrite metrics_list_keys. exact Hout.
Qed.

Import TelemetrySamplerSpec.

(** The snapshot has exactly the fields of the platform, each with what
    its sensor answered. *)
Lemma sample_lookup (has_dgpu : bool) (read : string -> option R)
    (field : string) :
  sample has_dgpu read !! field
  = if decide (field ∈ snapshot_fields has_dgpu) then Some (read field)
    else None.
Proof.
  unfold sample.
  induction (snapshot_fields has_dgpu) as [|f fs IH].
  - rewrite decide_False by apply not_elem_of_nil. apply lookup_empty.
  - rewrite fmap_cons, list_to_map_cons.
    destruct (decide (field = f)) as [->|Hne].
    + rewrite decide_True by apply list_elem_of_here.
      apply lookup_insert_eq.
    + rewrite lookup_insert_ne by congruence. rewrite IH.
      destruct (decide (field ∈ fs)) as [Hin|Hout].
      * rewrite decide_True by (apply list_elem_of_further; exact Hin).
        reflexivity.
      * rewrite decide_False
          by (apply not_elem_of_cons; split; assumption).
        reflexivity.
Qed.

Lemma as_metrics_sample (has_dgpu : bool) (read : string -> option R)
    (field : string) :
  as_metrics (sample has_dgpu read) !! field
  = if decide (field ∈ snapshot_fields has_dgpu) then read field else None.
Proof.
  unfold as_metrics. rewrite lookup_omap, sample_lookup.
  destruct (decide _); reflexivity.
Qed.

(** The control center displays no key that the platform's snapshot
    lacks. *)
Lemma displayed_keys_sampled (m : Model) (key : string) :
  key ∈ metric_order (@_create_metrics_display R m) ->
  key ∈ snapshot_fields (has_dgpu m).
Proof.
  rewrite metric_order_create. unfold snapshot_fields.
  destruct (has_dgpu m); intros Hin; apply (bool_decide_unpack _);
    repeat (apply elem_of_cons in Hin as [->|Hin]; [vm_compute; exact I|]);
    inversion Hin.
Qed.

(** C6: the fields of a snapshot are those of the platform, whatever the
    sensors answer: without a discrete GPU no snapshot has a dGPU field,
    with one every tick reads dGPU load and temperature.  When the read
    of one field fails and the others answer, the snapshot has that field
    unavailable and every other field populated with what was read.  On
    the control center's side the display has dGPU labels only on a
    platform with a discrete GPU, and a tick puts every available reading
    of the snapshot on its label and leaves the label of an unavailable
    one as it was. *)
Theorem C6_dgpu_fields_follow_platform (m : Model) (read : string -> option R) :
  let snapshot := sample (has_dgpu m) read in
  (forall field,
     is_Some (snapshot !! field) <-> field ∈ snapshot_fields (has_dgpu m)) /\
  (forall field, field = "dgpu_load" \/ field = "dgpu_temp" ->
     field ∈ snapshot_fields (has_dgpu m) <-> has_dgpu m = true) /\
  (has_dgpu m = false ->
   snapshot !! "dgpu_load" = None /\ snapshot !! "dgpu_temp" = None) /\
  (has_dgpu m = true ->
   snapshot !! "dgpu_load" = Some (read "dgpu_load") /\
   snapshot !! "dgpu_temp" = Some (read "dgpu_temp")) /\
  (forall failed,
     failed ∈ snapshot_fields (has_dgpu m) ->
     read failed = None ->
     (forall field, field ∈ snapshot_fields (has_dgpu m) -> field <> failed ->
        is_Some (read field)) ->
     snapshot !! failed = Some None /\
     forall field, field ∈ snapshot_fields (has_dgpu m) -> field <> failed ->
       exists value, read field = Some value /\
                     snapshot !! field = Some (Some value)) /\
  (forall ticks : list (string -> option R),
     let d := run_ticks ((fun read => as_metrics (sample (has_dgpu m) read))
                           <$> ticks)
                        (@_create_metrics_display R m) in
     (has_dgpu m = false ->
      metric_labels d !! "dgpu_load" = None /\
      metric_labels d !! "dgpu_temp" = None) /\
     forall key, key ∈ metric_order d ->
       metric_labels (_update_metrics (as_metrics snapshot) d) !! key
       = match read key with
         | Some value => Some (label_for key value)
         | None => metric_labels d !! key
         end).
Proof.
  intros snapshot. unfold snapshot.
  split; [|split; [|split; [|split; [|split]]]].
  - intros field. rewrite sample_lookup.
    destruct (decide _) as [Hin|Hout]; split; intros H;
      [exact Hin|eexists; reflexivity|destruct H; discriminate|tauto].
  - intros field Hf. unfold snapshot_fields.
    destruct (has_dgpu m); split; intros H; try reflexivity; try discriminate.
    + destruct Hf as [-> | ->]; apply (bool_decide_unpack _);
        vm_compute; exact I.
    + exfalso. revert H. destruct Hf as [-> | ->];
        apply (bool_decide_unpack _); vm_compute; exact I.
  - intros Hno. rewrite !sample_lookup, Hno.
    split; apply decide_False; apply (bool_decide_unpack _); vm_compute; exact I.
  - intros Hyes. rewrite !sample_lookup, Hyes.
    split; apply decide_True; apply (bool_decide_unpack _); vm_compute; exact I.
  - intros failed Hin Hnone Hothers.
    rewrite sample_lookup, decide_True, Hnone by exact Hin.
    split; [reflexivity|].
    intros field Hfin Hne.
    destruct (Hothers field Hfin Hne) as [value Hv].
    exists value. split; [exact Hv|].
    rewrite sample_lookup, decide_True, Hv by exact Hfin. reflexivity.
  - intros ticks.
    match goal with
    | |- context [run_ticks ?ts ?d0] => set (d := run_ticks ts d0)
    end.
    assert (metric_order d = metric_order (@_create_metrics_display R m)) as Hord
      by apply run_ticks_order.
    split.
    + intros Hno.
      assert (forall key, key = "dgpu_load" \/ key = "dgpu_temp" ->
                key ∉ metric_order (@_create_metrics_display R m)) as Hout.
      { intros key Hkey. rewrite metric_order_create, Hno.
        destruct Hkey as [-> | ->]; apply (bool_decide_unpack _);
          vm_compute; exact I. }
      split; apply run_ticks_label_absent;
        auto using create_label_absent.
    + intros key Hkey.
      rewrite _update_metrics_label, decide_True by exact Hkey.
      rewrite as_metrics_sample, decide_True
        by (apply displayed_keys_sampled; rewrite <- Hord; exact Hkey).
      reflexivity.
Qed.

End MetricsFacts.


(** * The theorems at concrete inputs *)

Section Instances.

Import PowerManagerSpec.

(** Looks a literal key up in a dictionary written as a list. *)
Ltac lookup_in_literal :=
  repeat rewrite list_to_map_cons;
  repeat (rewrite lookup_insert_ne by discriminate);
  first [apply lookup_insert_eq | rewrite list_to_map_nil; apply lookup_empty].

Lemma C2_unknown_profile_rejected_witness :
  _set_power_profile_sync PowerManagerSpec.apply_profile
                          (Some Samples.profiles) "Turbo" Samples.app16
  = (Samples.app16, ProfileNotFound "Turbo" (platform_key AMD16)).
Proof.
  refine (proj2 (C2_unknown_profile_rejected PowerManagerSpec.apply_profile
                   AMD16 Samples.profiles Samples.amd_section
                   Samples.amd_section Samples.amd16_table "Turbo"
                   Samples.app16 _ _ _ _ _ _)).
  - reflexivity.
  - unfold Samples.profiles; lookup_in_literal.
  - unfold Samples.profiles, platform_family; lookup_in_literal.
  - unfold Samples.amd_section, platform_key; lookup_in_literal.
  - reflexivity.
  - change (PyStr.lower "Turbo") with "turbo".
    unfold Samples.amd16_table; lookup_in_literal.
Defined.

Lemma C4_refresh_rate_negotiation_witness :
  _set_refresh_rate DisplayControllerSpec.set_refresh_rate "165Hz" Samples.app13
  = (Samples.app13, RefreshFailed "165Hz").
Proof.
  refine (proj2 (proj2 (proj2 (C4_refresh_rate_negotiation AMD13 Samples.app13 _))
                   "165Hz" 165%Z _ _));
    vm_compute; reflexivity.
Defined.

Lemma C5_unrecognised_platform_aborts_startup_witness :
  power Samples.app16 = PowerManagerSpec.new [] (model Samples.app16).
Proof.
  refine (proj1 (proj2 (proj2
            (proj2 (C5_unrecognised_platform_aborts_startup
                      (fun _ => 0%Z) (fun i _ => i) (PowerManagerSpec.new [])
                      (fun _ => DisplayControllerSpec.mkDisplay None)
                      (fun _ => ["60"; "165"]) Samples.settings)
                   (Some Samples.framework16) Samples.app16 _)))).
  vm_compute; reflexivity.
Defined.

Lemma C7_monitoring_interval_clamped_witness :
  let saved text :=
    monitoring_interval
      (config (_save_settings (fun i _ => i) (Some "dark_theme") "en" true
                              false false text Samples.app16)) in
  saved "50" = 100%Z /\ saved " 20_000 " = 10000%Z /\ saved "+2500" = 2500%Z /\
  saved "-7" = 100%Z.
Proof.
  cbv zeta. split; [|split; [|split]].
  - refine (proj1 (C7_monitoring_interval_clamped (fun i _ => i) "dark_theme"
                     "en" true false false "50" 50%Z Samples.app16 _) _);
      vm_compute; reflexivity.
  - refine (proj1 (proj2 (C7_monitoring_interval_clamped (fun i _ => i)
                            "dark_theme" "en" true false false " 20_000 "
                            20000%Z Samples.app16 _)) _);
      vm_compute; reflexivity.
  - refine (proj1 (proj2 (proj2 (C7_monitoring_interval_clamped (fun i _ => i)
                                   "dark_theme" "en" true false false "+2500"
                                   2500%Z Samples.app16 _))) _);
      [vm_compute; reflexivity|lia].
  - refine (proj1 (C7_monitoring_interval_clamped (fun i _ => i) "dark_theme"
                     "en" true false false "-7" (-7)%Z Samples.app16 _) _);
      vm_compute; reflexivity.
Defined.

Lemma C8_apply_failure_atomicity_witness :
  exists m',
    apply Samples.balanced (Samples.manager_on_silent [false; true])
    = (m', ApplyErr (Partial "stapm_limit")) /\
    current m' = Some Samples.silent /\
    regs (hw m') = regs (hw (Samples.manager_on_silent [false; true])).
Proof.
  destruct (proj1 (C8_apply_failure_atomicity
                     (Samples.manager_on_silent [false; true]) Samples.balanced
                     Samples.silent 1 "stapm_limit" (JInt 30000) []
                     eq_refl eq_refl ltac:(vm_compute; reflexivity) eq_refl))
    as (m' & Happly & Hcur & _ & _ & _ & _ & Hregs).
  - intros j _. rewrite lookup_nil. discriminate.
  - exists m'. split; [exact Happly|]. split; [exact Hcur|].
    apply Hregs.
    + intros k w _ Hw. exact Hw.
    + intros k Hk Hp.
      repeat (apply elem_of_cons in Hk as [->|Hk];
              [first [vm_compute; eexists; reflexivity
                     |vm_compute in Hp; destruct Hp; discriminate]|]).
      inversion Hk.
Defined.


End Instances.

(** * More on profile resolution and application *)

(** The table of model names has every platform's name. *)
Lemma model_map_platform_name (pl : platform) :
  model_map !! platform_name pl = Some (platform_key pl).
Proof. destruct pl; vm_compute; reflexivity. Qed.


Section ResolutionNames.

Lemma select_profile_data_lower (config : profiles_config)
    (section_name profile_key n1 n2 : string) (data : gmap string json) :
  PyStr.lower n1 = PyStr.lower n2 ->
  select_profile_data config section_name profile_key n1 = Next data ->
  select_profile_data config section_name profile_key n2 = Next data.
Proof.
  intros Hl. unfold select_profile_data, getitem. rewrite Hl.
  destruct (config !! section_name) as [sec|]; cbn; [|intros ?; discriminate].
  destruct (sec !! profile_key) as [tbl|]; cbn; [|intros ?; discriminate].
  destruct (tbl !! PyStr.lower n2); [auto|intros ?; discriminate].
Qed.

Lemma load_profile_data_lower (profiles_json : option profiles_config)
    (model n1 n2 : string) (data : gmap string json) :
  PyStr.lower n1 = PyStr.lower n2 ->
  load_profile_data profiles_json model n1 = Next data ->
  load_profile_data profiles_json model n2 = Next data.
Proof.
  intros Hl. unfold load_profile_data.
  destruct profiles_json as [config|]; [|intros ?; discriminate].
  destruct (getitem config "amd_profiles"); cbn [mbind flow_bind]; [|intros ?; discriminate].
  destruct (model_map !! PyStr.strip model) as [key|]; [|intros ?; discriminate].
  repeat destruct (decide _);
    match goal with
    | |- context [select_profile_data ?c ?s ?k n1] =>
        destruct (select_profile_data c s k n1) as [d1|] eqn:H1;
        cbn; [|intros ?; discriminate];
        rewrite (select_profile_data_lower c s k n1 n2 d1 Hl H1); cbn; auto
    end.
Qed.

Lemma default_params_lower (data : gmap string json) (n1 n2 : string) :
  PyStr.lower n1 = PyStr.lower n2 ->
  default_params data n1 = default_params data n2.
Proof. intros Hl. unfold default_params. rewrite Hl. reflexivity. Qed.

(** The profile name is matched without regard to case: a name that
    resolves does so under every spelling with the same lower-case form,
    to the same fields; the profile keeps the spelling it was asked by. *)
Theorem resolve_profile_case_insensitive (profiles_json : option profiles_config)
    (model n1 n2 : string) (p1 : PowerProfile) :
  PyStr.lower n1 = PyStr.lower n2 ->
  resolve_profile profiles_json model n1 = Next p1 ->
  resolve_profile profiles_json model n2 = Next (mkPowerProfile n2 (fields p1)).
Proof.
  intros Hl Hres.
  destruct (resolve_profile_Next _ _ _ _ Hres) as (data & d & Hload & Hd & ->).
  unfold resolve_profile.
  rewrite (load_profile_data_lower _ _ n1 n2 data Hl Hload). cbn.
  rewrite <- (default_params_lower data n1 n2 Hl), Hd. reflexivity.
Qed.

(** What [load_profile_data] returns never has the key ['name']. *)
Lemma load_profile_data_no_name (profiles_json : option profiles_config)
    (model profile_name : string) (data : gmap string json) :
  load_profile_data profiles_json model profile_name = Next data ->
  data !! "name" = None.
Proof.
  unfold load_profile_data.
  destruct profiles_json as [config|]; [|intros ?; discriminate].
  destruct (getitem config "amd_profiles"); cbn [mbind flow_bind]; [|intros ?; discriminate].
  destruct (model_map !! PyStr.strip model) as [key|]; [|intros ?; discriminate].
  match goal with
  | |- context [mbind _ ?x] => destruct x as [raw|]
  end; cbn [mbind flow_bind]; [|intros ?; discriminate].
  intros [= <-]. apply lookup_delete_eq.
Qed.

(** Whatever the file stores, a resolved profile carries gpu_power 25,
    fan_mode "auto", the default fan curve and boost_enabled decided by the
    name alone; it never carries a field called "name". *)
Theorem resolved_profile_fixed_fields (profiles_json : option profiles_config)
    (model profile_name : string) (p : PowerProfile) :
  resolve_profile profiles_json model profile_name = Next p ->
  name p = profile_name /\
  fields p !! "name" = None /\
  fields p !! "gpu_power" = Some (JInt 25) /\
  fields p !! "fan_mode" = Some (JStr "auto") /\
  fields p !! "fan_curve" = Some default_fan_curve /\
  fields p !! "boost_enabled"
  = Some (JBool (negb (String.eqb (PyStr.lower profile_name) "silent"))).
Proof.
  intros Hres.
  destruct (resolve_profile_Next _ _ _ _ Hres) as (data & d & Hload & Hd & ->).
  destruct (default_params_Next _ _ _ Hd) as (Hg & Hb & Hm & Hc & Hdom).
  cbn [name fields]. rewrite !dict_update_lookup, Hg, Hb, Hm, Hc.
  split; [reflexivity|]. split; [|auto].
  destruct (d !! "name") as [v|] eqn:Hn.
  - exfalso. assert ("name" ∈ dom d) as Hin by (apply elem_of_dom; eauto).
    rewrite Hdom in Hin. revert Hin.
    apply (bool_decide_unpack _). vm_compute. reflexivity.
  - apply (load_profile_data_no_name _ _ _ _ Hload).
Qed.

End ResolutionNames.

Section ResolutionInversion.

Lemma model_map_Some (s k : string) :
  model_map !! s = Some k <->
  exists pl : platform, s = platform_name pl /\ k = platform_key pl.
Proof.
  unfold model_map. rewrite !list_to_map_cons, list_to_map_nil.
  rewrite !lookup_insert_Some, lookup_empty.
  split.
  - intros [[<- <-]|[_ [[<- <-]|[_ [[<- <-]|[_ ?]]]]]]; try discriminate.
    + exists AMD16. auto.
    + exists AMD13. auto.
    + exists Intel13. auto.
  - intros ([] & -> & ->); cbn.
    + left. auto.
    + right. split; [discriminate|]. left. auto.
    + right. split; [discriminate|]. right. split; [discriminate|]. left. auto.
Qed.

Lemma load_profile_data_Next (config : profiles_config) (model profile_name : string)
    (data : gmap string json) :
  load_profile_data (Some config) model profile_name = Next data <->
  exists (pl : platform) sec tbl raw,
    is_Some (config !! "amd_profiles") /\
    PyStr.strip model = platform_name pl /\
    config !! platform_family pl = Some sec /\
    sec !! platform_key pl = Some tbl /\
    tbl !! PyStr.lower profile_name = Some raw /\
    data = delete "name" raw.
Proof.
  split.
  - unfold load_profile_data, getitem.
    destruct (config !! "amd_profiles") as [amd|] eqn:Hamd;
      cbn [mbind flow_bind]; [|intros ?; discriminate].
    destruct (model_map !! PyStr.strip model) as [key|] eqn:Hkey;
      [|intros ?; discriminate].
    apply model_map_Some in Hkey as (pl & Hname & ->).
    intros H. exists pl.
    assert (select_profile_data config (platform_family pl) (platform_key pl)
              profile_name
            ≫= (fun profile_data => Next (delete "name" profile_data))
            = Next data) as Hsel.
    { destruct pl; exact H. }
    clear H. unfold select_profile_data, getitem in Hsel.
    destruct (config !! platform_family pl) as [sec|] eqn:Hsec;
      cbn [mbind flow_bind] in Hsel; [|discriminate].
    destruct (sec !! platform_key pl) as [tbl|] eqn:Htbl;
      cbn [mbind flow_bind] in Hsel; [|discriminate].
    destruct (tbl !! PyStr.lower profile_name) as [raw|] eqn:Hraw;
      cbn [mbind flow_bind] in Hsel; [|discriminate].
    injection Hsel as <-.
    exists sec, tbl, raw. eauto 10.
  - intros (pl & sec & tbl & raw & [amd Hamd] & Hname & Hsec & Htbl & Hraw & ->).
    unfold load_profile_data, getitem. rewrite Hamd. cbn [mbind flow_bind].
    rewrite Hname, model_map_platform_name.
    pose proof (select_profile_data_present _ _ _ _ _ _ _ Hsec Htbl Hraw) as Hsel.
    destruct pl; cbn [platform_family platform_key] in Hsel;
      rewrite Hsel; reflexivity.
Qed.

End ResolutionInversion.

Section ResolutionLimits.

Lemma int_or_absent_floordiv (v : option json) :
  int_or_absent v ->
  exists w : Z, floordiv (default (JInt 45000) v) 1000 = Next (JInt w).
Proof. destruct v as [[]|]; cbn; try tauto; eauto. Qed.

Lemma not_int_or_absent_floordiv (v : option json) :
  ~ int_or_absent v ->
  floordiv (default (JInt 45000) v) 1000 = Stop (Caught TypeError).
Proof. destruct v as [[]|]; cbn; tauto. Qed.

Lemma int_or_absent_dec (v : option json) : {int_or_absent v} + {~ int_or_absent v}.
Proof. destruct v as [[]|]; cbn; auto. Qed.

Lemma default_params_cases (data : gmap string json) (profile_name : string) :
  (int_or_absent (data !! "stapm_limit") /\ int_or_absent (data !! "fast_limit") /\
   exists d, default_params data profile_name = Next d) \/
  (~ (int_or_absent (data !! "stapm_limit") /\ int_or_absent (data !! "fast_limit")) /\
   default_params data profile_name = Stop (Caught TypeError)).
Proof.
  unfold default_params.
  destruct (int_or_absent_dec (data !! "stapm_limit")) as [Hs|Hs].
  - destruct (int_or_absent_floordiv _ Hs) as [w ->]. cbn [mbind flow_bind].
    destruct (int_or_absent_dec (data !! "fast_limit")) as [Hf|Hf].
    + destruct (int_or_absent_floordiv _ Hf) as [w' ->]. cbn [mbind flow_bind].
      left. eauto.
    + rewrite (not_int_or_absent_floordiv _ Hf). right. tauto.
  - rewrite (not_int_or_absent_floordiv _ Hs). right. tauto.
Qed.

(** For an ASCII model name and profile name, resolution gets as far as
    building the [PowerProfile] exactly when the file has its
    [amd_profiles] section, the model name without surrounding blanks is
    one of the three known ones, the file has a table for that platform
    with the lower-cased profile name in it, and the two limits the
    defaults are derived from are numbers where stored. *)
Theorem resolve_profile_succeeds_iff (config : profiles_config)
    (model profile_name : string) :
  PyText.isascii model = true ->
  PyText.isascii profile_name = true ->
  (exists p, resolve_profile (Some config) model profile_name = Next p) <->
  (exists (pl : platform) sec tbl raw,
     is_Some (config !! "amd_profiles") /\
     PyStr.strip model = platform_name pl /\
     config !! platform_family pl = Some sec /\
     sec !! platform_key pl = Some tbl /\
     tbl !! PyStr.lower profile_name = Some raw /\
     int_or_absent (raw !! "stapm_limit") /\
     int_or_absent (raw !! "fast_limit")).
Proof.
  intros _ _. split.
  - intros [p Hres].
    destruct (resolve_profile_Next _ _ _ _ Hres) as (data & d & Hload & Hd & _).
    apply load_profile_data_Next in Hload
      as (pl & sec & tbl & raw & Hamd & Hname & Hsec & Htbl & Hraw & ->).
    exists pl, sec, tbl, raw.
    destruct (default_params_cases (delete "name" raw) profile_name)
      as [(Hs & Hf & _)|[_ Hstop]]; [|congruence].
    rewrite !lookup_delete_ne in Hs, Hf by discriminate. auto 10.
  - intros (pl & sec & tbl & raw & Hamd & Hname & Hsec & Htbl & Hraw & Hs & Hf).
    assert (load_profile_data (Some config) model profile_name
            = Next (delete "name" raw)) as Hload.
    { apply load_profile_data_Next. exists pl, sec, tbl, raw. auto 10. }
    unfold resolve_profile. rewrite Hload. cbn [mbind flow_bind].
    destruct (default_params_cases (delete "name" raw) profile_name)
      as [(_ & _ & d & ->)|[Hno _]].
    + cbn [mbind flow_bind]. eauto.
    + exfalso. apply Hno. rewrite !lookup_delete_ne by discriminate. auto.
Qed.

(** A stored limit that is not a number ends the call in the exception
    handler with [TypeError], before any profile is built. *)
Theorem non_numeric_limit_raises (profiles_json : option profiles_config)
    (model profile_name : string) (data : gmap string json) :
  load_profile_data profiles_json model profile_name = Next data ->
  ~ (int_or_absent (data !! "stapm_limit") /\ int_or_absent (data !! "fast_limit")) ->
  resolve_profile profiles_json model profile_name = Stop (Caught TypeError).
Proof.
  intros Hload Hno. unfold resolve_profile. rewrite Hload. cbn [mbind flow_bind].
  destruct (default_params_cases data profile_name) as [(Hs & Hf & _)|[_ ->]];
    [tauto|reflexivity].
Qed.

(** The watt figures handed on are the stored milliwatt limits divided by
    1000 and rounded down, 45 W where the file stores no limit; the stored
    limits themselves are handed on unchanged. *)
Theorem resolved_power_in_watts (profiles_json : option profiles_config)
    (model profile_name : string) (data : gmap string json) (p : PowerProfile)
    (limit watts : string) :
  (limit = "stapm_limit" /\ watts = "tdp") \/
  (limit = "fast_limit" /\ watts = "cpu_power") ->
  load_profile_data profiles_json model profile_name = Next data ->
  resolve_profile profiles_json model profile_name = Next p ->
  fields p !! limit = data !! limit /\
  (data !! limit = None -> fields p !! watts = Some (JInt 45)) /\
  (forall mw : Z,
     data !! limit = Some (JInt mw) ->
     exists w : Z,
       fields p !! watts = Some (JInt w) /\ (1000 * w <= mw < 1000 * w + 1000)%Z).
Proof.
  intros Hkeys Hload Hres.
  destruct (resolve_profile_Next _ _ _ _ Hres) as (data' & d & Hload' & Hd & ->).
  rewrite Hload in Hload'. injection Hload' as <-.
  cbn [fields]. rewrite !dict_update_lookup.
  assert (forall mw : Z, (1000 * (mw `div` 1000) <= mw
                          < 1000 * (mw `div` 1000) + 1000)%Z) as Hdiv.
  { intros mw. pose proof (Z.div_mod mw 1000 ltac:(lia)).
    pose proof (Z.mod_pos_bound mw 1000 ltac:(lia)). lia. }
  unfold default_params in Hd.
  destruct (floordiv (default _ (data !! "stapm_limit")) _) as [tdp|] eqn:Ht;
    cbn [mbind flow_bind] in Hd; [|discriminate].
  destruct (floordiv (default _ (data !! "fast_limit")) _) as [cpu|] eqn:Hc;
    cbn [mbind flow_bind] in Hd; [|discriminate].
  injection Hd as <-.
  destruct Hkeys as [[-> ->]|[-> ->]].
  - split; [reflexivity|]. split.
    + intros Hnone. rewrite Hnone in Ht. cbn in Ht. injection Ht as <-. reflexivity.
    + intros mw Hmw. rewrite Hmw in Ht. cbn in Ht. injection Ht as <-.
      exists (mw `div` 1000)%Z. split; [reflexivity|apply Hdiv].
  - split; [reflexivity|]. split.
    + intros Hnone. rewrite Hnone in Hc. cbn in Hc. injection Hc as <-. reflexivity.
    + intros mw Hmw. rewrite Hmw in Hc. cbn in Hc. injection Hc as <-.
      exists (mw `div` 1000)%Z. split; [reflexivity|apply Hdiv].
Qed.

End ResolutionLimits.

Section ResolutionStops.

Lemma getitem_Stop {V : Type} (d : gmap string V) (key : string) (o : outcome) :
  getitem d key = Stop o -> is_early_exit o.
Proof. unfold getitem. destruct (d !! key); [discriminate|]. intros [= <-]. exact I. Qed.

Lemma select_profile_data_Stop (config : profiles_config)
    (section_name profile_key profile_name : string) (o : outcome) :
  select_profile_data config section_name profile_key profile_name = Stop o ->
  is_early_exit o.
Proof.
  unfold select_profile_data.
  destruct (getitem config section_name) as [sec|o1] eqn:H1;
    cbn [mbind flow_bind]; [|intros [= <-]; exact (getitem_Stop _ _ _ H1)].
  destruct (getitem sec profile_key) as [tbl|o2] eqn:H2;
    cbn [mbind flow_bind]; [|intros [= <-]; exact (getitem_Stop _ _ _ H2)].
  destruct (tbl !! PyStr.lower profile_name) eqn:H3;
    [|intros [= <-]; exact I].
  apply getitem_Stop.
Qed.

Lemma load_profile_data_Stop (profiles_json : option profiles_config)
    (model profile_name : string) (o : outcome) :
  load_profile_data profiles_json model profile_name = Stop o -> is_early_exit o.
Proof.
  unfold load_profile_data.
  destruct profiles_json as [config|]; [|intros [= <-]; exact I].
  destruct (getitem config "amd_profiles") as [amd|o1] eqn:H1;
    cbn [mbind flow_bind]; [|intros [= <-]; exact (getitem_Stop _ _ _ H1)].
  destruct (model_map !! PyStr.strip model) as [key|]; [|intros [= <-]; exact I].
  repeat destruct (decide _);
    match goal with
    | |- context [select_profile_data ?c ?s ?k ?n] =>
        destruct (select_profile_data c s k n) as [d1|o2] eqn:H2;
        cbn [mbind flow_bind];
        [discriminate|intros [= <-]; exact (select_profile_data_Stop _ _ _ _ _ H2)]
    end.
Qed.

(** Resolution stops only on the early exits. *)
Lemma resolve_profile_Stop (profiles_json : option profiles_config)
    (model profile_name : string) (o : outcome) :
  resolve_profile profiles_json model profile_name = Stop o -> is_early_exit o.
Proof.
  unfold resolve_profile.
  destruct (load_profile_data _ _ _) as [data|o1] eqn:H1;
    cbn [mbind flow_bind]; [|intros [= <-]; exact (load_profile_data_Stop _ _ _ _ H1)].
  destruct (default_params_cases data profile_name) as [(_ & _ & d & ->)|[_ ->]];
    cbn [mbind flow_bind]; [discriminate|intros [= <-]; exact I].
Qed.

End ResolutionStops.


(** * More on the control center *)

Section ControlCenterFrames.

Context {HardwareMonitor PowerManager DisplayManager : Type}.
Variable set_update_interval : Z -> HardwareMonitor -> HardwareMonitor.
Variable apply_profile :
  PowerProfile -> PowerManager -> PowerManager * result bool.
Variable set_refresh_rate :
  string -> string -> DisplayManager -> DisplayManager * result bool.

Local Abbreviation app := (@App HardwareMonitor PowerManager DisplayManager).

Lemma _set_power_profile_sync_keeps (profiles_json : option profiles_config)
    (profile_name : string) (self : app) :
  let r := _set_power_profile_sync apply_profile profiles_json profile_name self in
  model r.1 = model self /\ hardware r.1 = hardware self /\
  display r.1 = display self.
Proof.
  unfold _set_power_profile_sync.
  destruct (resolve_profile _ _ _) as [profile|o]; [|cbn; auto].
  destruct (apply_profile profile (power self)) as [pm [[]|e]];
    destruct self as [m c h pw d pb rb ab arb sch]; cbn;
    try destruct (decide _); cbn; auto.
Qed.

Lemma _set_refresh_rate_keeps (mode : string) (self : app) :
  let r := _set_refresh_rate set_refresh_rate mode self in
  model r.1 = model self /\ hardware r.1 = hardware self /\
  power r.1 = power self /\
  display r.1
  = (set_refresh_rate (actual_mode mode) (max_rate (model self)) (display self)).1.
Proof.
  unfold _set_refresh_rate.
  destruct (set_refresh_rate _ _ _) as [dm [[]|e]];
    destruct self as [m c h pw d pb rb ab arb sch]; cbn;
    try destruct (decide _); cbn; auto.
Qed.

(** [_set_power_profile_sync] touches nothing but the power manager, the
    current profile and the active profile button; the last two only on
    the path that reports success, where the current profile becomes the
    name as given; the power manager only once a profile was resolved. *)
Theorem _set_power_profile_sync_frame (profiles_json : option profiles_config)
    (profile_name : string) (self : app) :
  let r := _set_power_profile_sync apply_profile profiles_json profile_name self in
  model r.1 = model self /\
  hardware r.1 = hardware self /\
  display r.1 = display self /\
  scheduled r.1 = scheduled self /\
  active_refresh_button r.1 = active_refresh_button self /\
  with_current_profile (current_profile (config self)) (config r.1) = config self /\
  match r.2 with
  | ProfileApplied n => n = profile_name /\ current_profile (config r.1) = profile_name
  | ApplyFailed _ =>
      config r.1 = config self /\
      active_profile_button r.1 = active_profile_button self
  | Caught _ =>
      config r.1 = config self /\
      active_profile_button r.1 = active_profile_button self
  | ProfilesFileMissing | UnsupportedModel _ | ProfileNotFound _ _ => r.1 = self
  end.
Proof.
  unfold _set_power_profile_sync.
  destruct (resolve_profile _ _ _) as [profile|o] eqn:Hres.
  - destruct (apply_profile profile (power self)) as [pm [[]|e]];
      destruct self as [m c h pw d pb rb ab arb sch]; destruct c; cbn;
      try destruct (decide _); cbn; auto 10.
  - pose proof (resolve_profile_Stop _ _ _ _ Hres) as Hexit.
    destruct self as [m c h pw d pb rb ab arb sch]; destruct c; cbn.
    destruct o; cbn in Hexit; try contradiction; auto 10.
Qed.

(** Two profile switches in a row: the second apply starts from the power
    manager the first one left, and the current profile afterwards is the
    second name if its apply succeeded and stays the first if it failed. *)
Theorem profile_switch_after_switch (profiles_json : option profiles_config)
    (n1 n2 : string) (self : app) (p1 p2 : PowerProfile)
    (pm1 pm2 : PowerManager) (ok : bool) :
  resolve_profile profiles_json (model_name (model self)) n1 = Next p1 ->
  resolve_profile profiles_json (model_name (model self)) n2 = Next p2 ->
  apply_profile p1 (power self) = (pm1, Ok true) ->
  apply_profile p2 pm1 = (pm2, Ok ok) ->
  let s1 := (_set_power_profile_sync apply_profile profiles_json n1 self).1 in
  let s2 := (_set_power_profile_sync apply_profile profiles_json n2 s1).1 in
  power s2 = pm2 /\
  current_profile (config s2) = (if ok then n2 else n1).
Proof.
  intros H1 H2 Ha1 Ha2.
  rewrite (_set_power_profile_sync_applied apply_profile _ _ _ _ _ H1 Ha1).
  cbn [fst].
  destruct ok.
  - erewrite _set_power_profile_sync_applied; [|exact H2|exact Ha2].
    split; reflexivity.
  - erewrite _set_power_profile_sync_failed; [|exact H2|exact Ha2].
    split; reflexivity.
Qed.

(** [_set_refresh_rate] touches nothing but the display manager, the
    configured refresh mode and the active refresh button; the last two
    only when the display manager reports success, where the mode becomes
    the one asked for. *)
Theorem _set_refresh_rate_frame (mode : string) (self : app) :
  let r := _set_refresh_rate set_refresh_rate mode self in
  model r.1 = model self /\
  hardware r.1 = hardware self /\
  power r.1 = power self /\
  scheduled r.1 = scheduled self /\
  active_profile_button r.1 = active_profile_button self /\
  display r.1
  = (set_refresh_rate (actual_mode mode) (max_rate (model self)) (display self)).1 /\
  with_refresh_rate_mode (refresh_rate_mode (config self)) (config r.1)
  = config self /\
  match r.2 with
  | RefreshSet m => m = mode /\ refresh_rate_mode (config r.1) = mode
  | RefreshFailed _ | RefreshCaught _ =>
      config r.1 = config self /\
      active_refresh_button r.1 = active_refresh_button self
  end.
Proof.
  unfold _set_refresh_rate.
  destruct (set_refresh_rate _ _ _) as [dm [[]|e]];
    destruct self as [m c h pw d pb rb ab arb sch]; destruct c; cbn;
    try destruct (decide _); cbn; auto 10.
Qed.

(** At start-up the refresh request is made whatever became of the profile
    request: with the file missing, the profile unknown or the apply
    failing, the display manager is still asked for the mode "auto" with
    the platform maximum, and the hardware monitor is left alone. *)
Theorem _initialize_default_profiles_independent
    (profiles_json : option profiles_config) (self : app) :
  let r := _initialize_default_profiles apply_profile set_refresh_rate
                                        profiles_json self in
  display r.1
  = (set_refresh_rate "auto" (max_rate (model self)) (display self)).1 /\
  r.2.1 = (_set_power_profile_sync apply_profile profiles_json "Balanced" self).2 /\
  power r.1
  = power (_set_power_profile_sync apply_profile profiles_json "Balanced" self).1 /\
  hardware r.1 = hardware self /\
  model r.1 = model self.
Proof.
  unfold _initialize_default_profiles, _set_refresh_rate_sync.
  pose proof (_set_power_profile_sync_keeps profiles_json "Balanced" self)
    as (Hm & Hh & Hd).
  destruct (_set_power_profile_sync _ _ _ self) as [s1 o1]. cbn [fst snd] in *.
  pose proof (_set_refresh_rate_keeps "Auto" s1) as (Hm2 & Hh2 & Hp2 & Hd2).
  destruct (_set_refresh_rate _ _ s1) as [s2 o2]. cbn [fst snd] in *.
  change (actual_mode "Auto") with "auto" in Hd2.
  rewrite Hd2, Hm, Hd, Hp2, Hh2, Hh, Hm2. auto.
Qed.

End ControlCenterFrames.

Section SettingsFacts.

Context {HardwareMonitor PowerManager DisplayManager : Type}.
Variable set_update_interval : Z -> HardwareMonitor -> HardwareMonitor.

Local Abbreviation app := (@App HardwareMonitor PowerManager DisplayManager).

(** The control center after a save whose interval text reads as [n]. *)
Lemma _save_settings_parsed (theme lang : string)
    (to_tray start_min start_win : bool) (text : string) (n : Z) (self : app) :
  PyStr.int text = Some n ->
  _save_settings set_update_interval (Some theme) lang to_tray start_min
                 start_win text self
  = mkApp (model self)
          (mkSystemConfig theme lang to_tray start_min start_win
                          (clamp_interval n) (current_profile (config self))
                          (refresh_rate_mode (config self)))
          (if decide (monitoring_interval (config self) = clamp_interval n)
           then hardware self
           else set_update_interval (clamp_interval n) (hardware self))
          (power self) (display self) (profile_buttons self)
          (refresh_buttons self) (active_profile_button self)
          (active_refresh_button self) (scheduled self).
Proof.
  intros Hn. unfold _save_settings. rewrite Hn.
  destruct self as [m c h pw d pb rb ab arb sch]. destruct c.
  cbn. destruct (decide _); reflexivity.
Qed.

(** Whatever is typed into the interval field, a save leaves the
    configured interval between 100 ms and 10 s; ASCII text that [int()]
    refuses gives 1000 ms, and then the hardware monitor is not told. *)
Theorem _save_settings_interval_in_range (theme lang : string)
    (to_tray start_min start_win : bool) (text : string) (self : app) :
  let self' := _save_settings set_update_interval (Some theme) lang to_tray
                              start_min start_win text self in
  (100 <= monitoring_interval (config self') <= 10000)%Z /\
  (PyText.isascii text = true ->
   PyStr.int text = None ->
   monitoring_interval (config self') = 1000%Z /\ hardware self' = hardware self).
Proof.
  unfold _save_settings.
  destruct (PyStr.int text) as [n|]; cbn.
  - split; [|intros _; discriminate].
    destruct (decide _); cbn; apply clamp_interval_bounds.
  - split; [lia|auto].
Qed.

(** Saving the same settings a second time changes nothing: the interval
    is already the clamped one and the monitor is not restarted again. *)
Theorem _save_settings_idempotent (theme_file : option string) (lang : string)
    (to_tray start_min start_win : bool) (text : string) (self : app) :
  let save := _save_settings set_update_interval theme_file lang to_tray
                             start_min start_win text in
  save (save self) = save self.
Proof.
  cbv zeta.
  destruct theme_file as [theme|]; [|reflexivity].
  destruct (PyStr.int text) as [n|] eqn:Hn.
  - rewrite !(_save_settings_parsed theme lang to_tray start_min start_win
                text n _ Hn).
    cbn [config hardware monitoring_interval model power display
         profile_buttons refresh_buttons active_profile_button
         active_refresh_button scheduled current_profile refresh_rate_mode].
    rewrite (decide_True (P := clamp_interval n = clamp_interval n))
      by reflexivity.
    reflexivity.
  - unfold _save_settings. rewrite Hn.
    destruct self as [m c h pw d pb rb ab arb sch]. destruct c. reflexivity.
Qed.

(** A save never touches the active profile, the refresh mode, the power
    manager or the display manager; without a theme file it changes
    nothing at all. *)
Theorem _save_settings_frame (theme_file : option string) (lang : string)
    (to_tray start_min start_win : bool) (text : string) (self : app) :
  let self' := _save_settings set_update_interval theme_file lang to_tray
                              start_min start_win text self in
  current_profile (config self') = current_profile (config self) /\
  refresh_rate_mode (config self') = refresh_rate_mode (config self) /\
  power self' = power self /\
  display self' = display self /\
  model self' = model self /\
  (theme_file = None -> self' = self).
Proof.
  unfold _save_settings.
  destruct theme_file as [theme|]; [|cbn; auto 10].
  destruct self as [m c h pw d pb rb ab arb sch]. destruct c.
  destruct (PyStr.int text) as [n|]; cbn;
    try destruct (decide _); cbn; repeat split; try reflexivity; discriminate.
Qed.

End SettingsFacts.

(** * The control center under the events of its window *)

Section EventFacts.

Context {HardwareMonitor PowerManager DisplayManager : Type}.
Variable HardwareMonitor_new : string -> HardwareMonitor.
Variable set_update_interval : Z -> HardwareMonitor -> HardwareMonitor.
Variable PowerManager_new : Model -> PowerManager.
Variable DisplayManager_new : Model -> DisplayManager.
Variable _valid_rates : DisplayManager -> list string.
Variable apply_profile :
  PowerProfile -> PowerManager -> PowerManager * result bool.
Variable set_refresh_rate :
  string -> string -> DisplayManager -> DisplayManager * result bool.

Local Abbreviation app := (@App HardwareMonitor PowerManager DisplayManager).

Lemma initial_button_here (keys : list string) (key : string) :
  key ∈ keys -> initial_button keys key = Some key.
Proof. intros H. unfold initial_button. rewrite decide_True by exact H. reflexivity. Qed.

Lemma _set_power_profile_sync_buttons (profiles_json : option profiles_config)
    (profile : string) (pbs rbs : list string) (self : app) :
  profile ∈ pbs ->
  buttons_invariant pbs rbs self ->
  buttons_invariant pbs rbs
    (_set_power_profile_sync apply_profile profiles_json profile self).1.
Proof.
  intros Hin (Hp & Hr & Hap & Har). unfold _set_power_profile_sync.
  destruct (resolve_profile _ _ _) as [p|o]; [|repeat split; assumption].
  destruct self as [m c h pw d pb rb ab arb sch]. cbn in Hp, Hr, Hap, Har.
  subst pb rb.
  destruct (apply_profile p _) as [pm [[]|e]]; cbn;
    try (repeat split; assumption).
  rewrite decide_True by exact Hin.
  repeat split; cbn; [|destruct c; exact Har].
  destruct c; cbn. symmetry. apply initial_button_here, Hin.
Qed.

Lemma _set_refresh_rate_buttons (mode : string) (pbs rbs : list string)
    (self : app) :
  mode ∈ rbs ->
  buttons_invariant pbs rbs self ->
  buttons_invariant pbs rbs (_set_refresh_rate set_refresh_rate mode self).1.
Proof.
  intros Hin (Hp & Hr & Hap & Har). unfold _set_refresh_rate.
  destruct self as [m c h pw d pb rb ab arb sch]. cbn in Hp, Hr, Hap, Har.
  subst pb rb. cbn.
  destruct (set_refresh_rate _ _ _) as [dm [[]|e]]; cbn;
    try (repeat split; assumption).
  rewrite decide_True by exact Hin.
  repeat split; cbn; [destruct c; exact Hap|].
  destruct c; cbn. symmetry. apply initial_button_here, Hin.
Qed.

Lemma _save_settings_buttons (theme_file : option string) (lang : string)
    (to_tray start_min start_win : bool) (text : string)
    (pbs rbs : list string) (self : app) :
  buttons_invariant pbs rbs self ->
  buttons_invariant pbs rbs
    (_save_settings set_update_interval theme_file lang to_tray start_min
                    start_win text self).
Proof.
  intros (Hp & Hr & Hap & Har). unfold _save_settings.
  destruct theme_file as [theme|]; [|repeat split; assumption].
  destruct self as [m c h pw d pb rb ab arb sch]. destruct c.
  cbn in Hp, Hr, Hap, Har. cbn.
  destruct (PyStr.int text) as [n|]; cbn;
    [destruct (decide _); cbn|]; repeat split; assumption.
Qed.

Lemma handle_buttons (e : event) (pbs rbs : list string) (self : app) :
  "Balanced" ∈ pbs -> "Auto" ∈ rbs ->
  buttons_invariant pbs rbs self ->
  buttons_invariant pbs rbs
    (handle set_update_interval apply_profile set_refresh_rate e self).
Proof.
  intros Hb Ha Hinv. pose proof Hinv as (Hp & Hr & _).
  destruct e as [profile pj|mode|pj|tf lang b1 b2 b3 text]; cbn [handle].
  - destruct (decide _) as [Hin|]; [|exact Hinv].
    rewrite Hp in Hin. apply _set_power_profile_sync_buttons; assumption.
  - destruct (decide _) as [Hin|]; [|exact Hinv].
    rewrite Hr in Hin. apply _set_refresh_rate_buttons; assumption.
  - unfold _initialize_default_profiles, _set_refresh_rate_sync.
    pose proof (_set_power_profile_sync_buttons pj "Balanced" pbs rbs self
                  Hb Hinv) as H1.
    destruct (_set_power_profile_sync apply_profile pj "Balanced" self)
      as [s1 o1]. cbn [fst] in H1.
    pose proof (_set_refresh_rate_buttons "Auto" pbs rbs s1 Ha H1) as H2.
    destruct (_set_refresh_rate set_refresh_rate "Auto" s1) as [s2 o2].
    exact H2.
  - apply _save_settings_buttons, Hinv.
Qed.


(** The events of the window leave the model alone. *)
Lemma handle_model (e : event) (self : app) :
  model (handle set_update_interval apply_profile set_refresh_rate e self)
  = model self.
Proof.
  destruct e as [profile pj|mode|pj|tf lang b1 b2 b3 text]; cbn [handle].
  - destruct (decide _); [|reflexivity].
    apply (_set_power_profile_sync_keeps apply_profile).
  - destruct (decide _); [|reflexivity].
    apply (_set_refresh_rate_keeps set_refresh_rate).
  - unfold _initialize_default_profiles, _set_refresh_rate_sync.
    pose proof (_set_power_profile_sync_keeps apply_profile pj "Balanced" self)
      as (H1 & _).
    destruct (_set_power_profile_sync apply_profile pj "Balanced" self)
      as [s1 o1]. cbn [fst] in H1.
    pose proof (_set_refresh_rate_keeps set_refresh_rate "Auto" s1) as (H2 & _).
    destruct (_set_refresh_rate set_refresh_rate "Auto" s1) as [s2 o2].
    cbn [fst] in *. congruence.
  - unfold _save_settings. destruct tf as [theme|]; [|reflexivity].
    destruct self as [m c h pw d pb rb ab arb sch]. destruct c. cbn.
    destruct (PyStr.int text); cbn; [destruct (decide _)|]; reflexivity.
Qed.

Lemma run_events_model (events : list event) :
  forall self : app,
    model (run_events set_update_interval apply_profile set_refresh_rate
                      events self)
    = model self.
Proof.
  induction events as [|e events IH]; intros self; [reflexivity|].
  cbn [run_events foldl]. unfold run_events in IH. rewrite IH.
  apply handle_model.
Qed.

Lemma run_events_buttons (events : list event) (pbs rbs : list string) :
  "Balanced" ∈ pbs -> "Auto" ∈ rbs ->
  forall self : app,
    buttons_invariant pbs rbs self ->
    buttons_invariant pbs rbs
      (run_events set_update_interval apply_profile set_refresh_rate
                  events self).
Proof.
  intros Hb Ha. induction events as [|e events IH]; intros self Hinv;
    [exact Hinv|].
  cbn [run_events foldl]. apply IH, handle_buttons; assumption.
Qed.

(** The profile resolved for "Balanced" from a stored table whose limits
    are integers where stored. *)
Lemma resolve_profile_Balanced (p : platform) (config_json : profiles_config)
    (amd sec : gmap string (gmap string (gmap string json)))
    (tbl : gmap string (gmap string json)) (raw : gmap string json)
    (stapm fast : option Z) :
  config_json !! "amd_profiles" = Some amd ->
  config_json !! platform_family p = Some sec ->
  sec !! platform_key p = Some tbl ->
  tbl !! "balanced" = Some raw ->
  raw !! "stapm_limit" = JInt <$> stapm ->
  raw !! "fast_limit" = JInt <$> fast ->
  resolve_profile (Some config_json) (platform_name p) "Balanced"
  = Next (mkPowerProfile "Balanced"
            (list_to_map
               [("tdp", JInt (default 45000 stapm `div` 1000)%Z);
                ("cpu_power", JInt (default 45000 fast `div` 1000)%Z);
                ("gpu_power", JInt 25);
                ("boost_enabled", JBool true);
                ("fan_mode", JStr "auto");
                ("fan_curve", default_fan_curve)]
             ∪ delete "name" raw)).
Proof.
  intros Hamd Hsec Htbl Hraw Hs Hf. unfold resolve_profile.
  rewrite (load_profile_data_platform p config_json amd "Balanced" Hamd).
  rewrite (select_profile_data_present config_json (platform_family p)
             (platform_key p) "Balanced" sec tbl raw Hsec Htbl Hraw).
  cbn [mbind flow_bind]. unfold default_params.
  rewrite !lookup_delete_ne by discriminate. rewrite Hs, Hf.
  destruct stapm, fast; reflexivity.
Qed.

(** C10 (amended): [__init__] schedules the start-up callback for 2.5 s
    after it returns.  Whatever the window's buttons and the settings
    window did until it runs, the callback asks the power manager for the
    profile named "Balanced", built from the platform's stored table and
    the defaults, and the display manager for the mode "auto" with the
    platform maximum.  Each request that reports success makes "Balanced",
    respectively "Auto", the active profile or mode and highlights its
    button; one that does not leaves the active profile or mode as it
    was. *)
Theorem C10_startup_defaults (p : platform) (dgpu : bool) (cfg : SystemConfig)
    (config_json : profiles_config)
    (amd sec : gmap string (gmap string (gmap string json)))
    (tbl : gmap string (gmap string json)) (raw : gmap string json)
    (stapm fast : option Z) (started : app) (events : list event) :
  __init__ HardwareMonitor_new set_update_interval PowerManager_new
           DisplayManager_new _valid_rates cfg
           (Some (mkModel (platform_name p) dgpu)) = Ok started ->
  config_json !! "amd_profiles" = Some amd ->
  config_json !! platform_family p = Some sec ->
  sec !! platform_key p = Some tbl ->
  tbl !! "balanced" = Some raw ->
  raw !! "stapm_limit" = JInt <$> stapm ->
  raw !! "fast_limit" = JInt <$> fast ->
  let self := run_events set_update_interval apply_profile set_refresh_rate
                         events started in
  let profile :=
    mkPowerProfile "Balanced"
      (list_to_map
         [("tdp", JInt (default 45000 stapm `div` 1000)%Z);
          ("cpu_power", JInt (default 45000 fast `div` 1000)%Z);
          ("gpu_power", JInt 25);
          ("boost_enabled", JBool true);
          ("fan_mode", JStr "auto");
          ("fan_curve", default_fan_curve)]
       ∪ delete "name" raw) in
  let applied := apply_profile profile (power self) in
  let rate := set_refresh_rate "auto"
                               (match p with AMD16 => "165" | _ => "60" end)
                               (display self) in
  let r := _initialize_default_profiles apply_profile set_refresh_rate
                                        (Some config_json) self in
  (2500%Z, InitializeDefaultProfiles) ∈ scheduled started /\
  power r.1 = applied.1 /\
  display r.1 = rate.1 /\
  hardware r.1 = hardware self /\
  (applied.2 = Ok true ->
   r.2.1 = ProfileApplied "Balanced" /\
   current_profile (config r.1) = "Balanced" /\
   active_profile_button r.1 = Some "Balanced") /\
  (applied.2 <> Ok true ->
   current_profile (config r.1) = current_profile (config self) /\
   active_profile_button r.1 = active_profile_button self) /\
  (rate.2 = Ok true ->
   r.2.2 = RefreshSet "Auto" /\
   refresh_rate_mode (config r.1) = "Auto" /\
   active_refresh_button r.1 = Some "Auto") /\
  (rate.2 <> Ok true ->
   refresh_rate_mode (config r.1) = refresh_rate_mode (config self) /\
   active_refresh_button r.1 = active_refresh_button self).
Proof.
  intros Hinit Hamd Hsec Htbl Hraw Hs Hf self profile applied rate r.
  assert ((2500%Z, InitializeDefaultProfiles) ∈ scheduled started /\
          model started = mkModel (platform_name p) dgpu /\
          buttons_invariant ["Silent"; "Balanced"; "Boost"]
                            (refresh_buttons started) started /\
          "Auto" ∈ refresh_buttons started) as (Hsched & Hmodel0 & Hinv0 & Hauto).
  { unfold __init__ in Hinit. injection Hinit as <-. cbn.
    split; [|split; [reflexivity|split; [repeat split|apply list_elem_of_here]]].
    do 3 apply list_elem_of_further. apply list_elem_of_here. }
  assert ("Balanced" ∈ ["Silent"; "Balanced"; "Boost"]) as Hbal
    by (apply list_elem_of_further, list_elem_of_here).
  pose proof (run_events_buttons events _ _ Hbal Hauto started Hinv0)
    as (Hpb & Hrb & _). fold self in Hpb, Hrb.
  assert (model self = mkModel (platform_name p) dgpu) as Hmodel
    by (unfold self; rewrite run_events_model; exact Hmodel0).
  assert (max_rate (model self) = match p with AMD16 => "165" | _ => "60" end)
    as Hmax by (rewrite Hmodel; destruct p; reflexivity).
  pose proof (resolve_profile_Balanced p config_json amd sec tbl raw stapm fast
                Hamd Hsec Htbl Hraw Hs Hf) as Hres.
  fold profile in Hres.
  split; [exact Hsched|].
  unfold r, _initialize_default_profiles, _set_refresh_rate_sync.
  unfold _set_power_profile_sync. rewrite Hmodel. cbn [model_name].
  rewrite Hres. fold applied.
  destruct applied as [pm ra] eqn:Ha. cbn [fst snd].
  unfold _set_refresh_rate.
  destruct self as [m c h pw d pb rb ab arb sch].
  cbn [profile_buttons refresh_buttons model display] in *. subst pb rb m.
  destruct c as [th lg tt sm sw mi cp rm].
  assert (actual_mode "Auto" = "auto") as -> by reflexivity.
  destruct ra as [[]|e]; cbn;
    rewrite ?(decide_True (P := "Balanced" ∈ ["Silent"; "Balanced"; "Boost"]))
      by exact Hbal;
    cbn; rewrite Hmax; fold rate; destruct rate as [dm rr] eqn:Hr;
    destruct rr as [[]|e']; cbn;
    rewrite ?(decide_True (P := "Auto" ∈ refresh_buttons started)) by exact Hauto;
    cbn; repeat split; intros; try reflexivity; try discriminate; congruence.
Qed.

End EventFacts.


(** * More on the metrics display *)

Section ReadingsFacts.

Context {R : Type}.

Local Abbreviation display := (@MetricsDisplay R).

Lemma create_widgets (m : Model) (label key unit : string) :
  (label, key, unit) ∈ metrics_list m ->
  metric_labels (@_create_metrics_display R m) !! key
  = Some (mkLabelText label None unit) /\
  metric_bars (@_create_metrics_display R m) !! key = Some LevelZero.
Proof.
  unfold _create_metrics_display, metrics_list, base_metrics, dgpu_metrics.
  destruct (has_dgpu m); cbn [app]; intros Hin;
    repeat (apply elem_of_cons in Hin as [[= -> -> ->]|Hin];
            [split; vm_compute; reflexivity|]);
    inversion Hin.
Qed.

Lemma label_for_entry (m : Model) (label key unit : string) (value : R) :
  (label, key, unit) ∈ metrics_list m ->
  label_for key value = mkLabelText label (Some value) unit.
Proof.
  unfold metrics_list, base_metrics, dgpu_metrics.
  destruct (has_dgpu m); cbn [app]; intros Hin;
    repeat (apply elem_of_cons in Hin as [[= -> -> ->]|Hin];
            [vm_compute; reflexivity|]);
    inversion Hin.
Qed.

Lemma entry_displayed (m : Model) (label key unit : string) :
  (label, key, unit) ∈ metrics_list m ->
  key ∈ metric_order (@_create_metrics_display R m).
Proof.
  intros Hin. rewrite <- metrics_list_keys.
  apply (list_elem_of_fmap_2 (fun entry => entry.1.2) _ _ Hin).
Qed.

(** The bar of a key after the loop ran over [keys]. *)
Lemma foldl_update_metric_bar (metrics : gmap string R) (keys : list string)
    (key : string) :
  forall d : display,
    metric_bars (foldl (update_metric metrics) d keys) !! key
    = if decide (key ∈ keys) then
        match metrics !! key with
        | Some value => Some (level_for key value)
        | None => metric_bars d !! key
        end
      else metric_bars d !! key.
Proof.
  induction keys as [|k keys IH]; intros d; [reflexivity|].
  cbn [foldl]. rewrite IH.
  unfold update_metric.
  destruct (decide (key = k)) as [->|Hne].
  - rewrite (decide_True (P := k ∈ k :: keys)) by apply list_elem_of_here.
    destruct (metrics !! k) as [v|] eqn:Hv; cbn.
    + rewrite lookup_insert_eq. destruct (decide (k ∈ keys)); reflexivity.
    + destruct (decide (k ∈ keys)); reflexivity.
  - destruct (decide (key ∈ keys)) as [Hin|Hnin].
    + rewrite (decide_True (P := key ∈ k :: keys))
        by (apply list_elem_of_further; exact Hin).
      destruct (metrics !! key); [reflexivity|].
      destruct (metrics !! k); cbn; [|reflexivity].
      apply lookup_insert_ne. congruence.
    + rewrite (decide_False (P := key ∈ k :: keys))
        by (apply not_elem_of_cons; split; assumption).
      destruct (metrics !! k); cbn; [|reflexivity].
      apply lookup_insert_ne. congruence.
Qed.

Lemma run_ticks_snoc (ticks : list (gmap string R)) (metrics : gmap string R)
    (d : display) :
  run_ticks (ticks ++ [metrics]) d = _update_metrics metrics (run_ticks ticks d).
Proof. unfold run_ticks. rewrite foldl_app. reflexivity. Qed.

Lemma last_reading_snoc (key : string) (ticks : list (gmap string R))
    (metrics : gmap string R) :
  last_reading key (ticks ++ [metrics])
  = match metrics !! key with
    | Some value => Some value
    | None => last_reading key ticks
    end.
Proof.
  unfold last_reading. rewrite omap_app.
  destruct (metrics !! key) as [v|] eqn:Hk; cbn; rewrite Hk.
  - apply last_snoc.
  - rewrite app_nil_r. reflexivity.
Qed.

(** After any run of ticks every displayed key keeps the caption and unit
    it was created with and shows the most recent reading that was
    available for it, the initial 0 when none ever was; its bar shows the
    level of that same reading. *)
Theorem labels_show_last_reading (m : Model) (ticks : list (gmap string R))
    (label key unit : string) :
  (label, key, unit) ∈ metrics_list m ->
  let d := run_ticks ticks (@_create_metrics_display R m) in
  metric_labels d !! key
  = Some (mkLabelText label (last_reading key ticks) unit) /\
  metric_bars d !! key
  = Some (match last_reading key ticks with
          | Some value => level_for key value
          | None => LevelZero
          end).
Proof.
  intros Hin. cbv zeta.
  induction ticks as [|metrics ticks IH] using rev_ind.
  - exact (create_widgets m label key unit Hin).
  - destruct IH as [IHl IHb].
    rewrite run_ticks_snoc, last_reading_snoc.
    unfold _update_metrics.
    rewrite foldl_update_metric_label, foldl_update_metric_bar.
    rewrite !decide_True
      by (rewrite run_ticks_order; exact (entry_displayed m label key unit Hin)).
    destruct (metrics !! key) as [v|].
    + rewrite (label_for_entry m label key unit v Hin). auto.
    + auto.
Qed.

End ReadingsFacts.


(** * The registry of open windows *)

Section OpenWindowsFacts.

Context {P : Type}.
Local Open Scope list_scope.
Variable refresh : P -> P * option exn.

Local Abbreviation heap_t := (nat -> Window P).

Lemma list_ind_pairs (Q : list nat -> Prop) :
  Q [] ->
  (forall w, Q [w]) ->
  (forall w x rest, Q rest -> Q (x :: rest) -> Q (w :: x :: rest)) ->
  forall l, Q l.
Proof.
  intros H0 H1 H2 l.
  assert (Q l /\ forall w, Q (w :: l)) as [H _]; [|exact H].
  induction l as [|x l [IH1 IH2]]; [auto|].
  split; [apply IH2|]. intros w. apply H2; auto.
Qed.

Lemma list_remove_middle (w : nat) (done rest : list nat) :
  w ∉ done -> list_remove w (done ++ w :: rest) = done ++ rest.
Proof.
  induction done as [|y done IH]; intros Hout; cbn.
  - rewrite decide_True by reflexivity. reflexivity.
  - apply not_elem_of_cons in Hout as [Hne Hout].
    rewrite decide_False by exact Hne. rewrite IH by exact Hout. reflexivity.
Qed.

Lemma lookup_middle_here (done : list nat) (w : nat) (rest : list nat) :
  (done ++ w :: rest) !! length done = Some w.
Proof. apply list_lookup_middle. reflexivity. Qed.

(** The loop at index [length done] of [done ++ todo] does to [todo] what
    [walk_windows] says and leaves [done] in place. *)
Lemma update_open_windows_walk (fuel : nat) :
  forall (todo done : list nat) (heap : heap_t),
    NoDup (done ++ todo) ->
    length todo <= fuel ->
    update_open_windows refresh fuel (length done) (done ++ todo) heap
    = let '(kept, heap', e) := walk_windows refresh todo heap in
      (done ++ kept, heap', e).
Proof.
  induction fuel as [|fuel IH]; intros todo done heap Hnd Hlen.
  - destruct todo; [reflexivity|cbn in Hlen; lia].
  - destruct todo as [|w rest].
    + cbn [update_open_windows walk_windows].
      rewrite lookup_ge_None_2 by (rewrite app_nil_r; lia). reflexivity.
    + cbn [update_open_windows walk_windows].
      rewrite lookup_middle_here.
      destruct (winfo_exists (heap w)).
      * destruct (refresh (attrs (heap w))) as [a [e|]]; [reflexivity|].
        specialize (IH rest (done ++ [w]) (set_window w (mkWindow true a) heap)).
        rewrite length_app, <- app_assoc in IH. cbn [length app] in IH.
        rewrite Nat.add_1_r in IH.
        rewrite IH; [|exact Hnd|cbn in Hlen; lia].
        destruct (walk_windows refresh rest _) as [[kept h'] e].
        rewrite <- app_assoc. reflexivity.
      * rewrite list_remove_middle
          by (apply NoDup_app in Hnd as (_ & Hdis & _);
              intros Hin; apply (Hdis w Hin); apply list_elem_of_here).
        destruct rest as [|x rest'].
        -- destruct fuel; cbn [update_open_windows];
             [reflexivity|].
           rewrite lookup_ge_None_2 by (rewrite app_nil_r; lia). reflexivity.
        -- specialize (IH rest' (done ++ [x]) heap).
           rewrite length_app, <- app_assoc in IH. cbn [length app] in IH.
           rewrite Nat.add_1_r in IH.
           rewrite IH.
           ++ destruct (walk_windows refresh rest' heap) as [[kept h'] e].
              rewrite <- app_assoc. reflexivity.
           ++ apply NoDup_app in Hnd as (Hd & Hdis & Hr).
              apply NoDup_cons in Hr as [_ Hr].
              apply NoDup_app. split; [exact Hd|]. split; [|exact Hr].
              intros y Hy Hin. apply (Hdis y Hy).
              apply list_elem_of_further. exact Hin.
           ++ cbn in Hlen. lia.
Qed.

Lemma update_all_windows_as_walk (ws : list nat) (heap : heap_t) :
  NoDup ws ->
  update_all_windows refresh ws heap = walk_windows refresh ws heap.
Proof.
  intros Hnd. unfold update_all_windows.
  pose proof (update_open_windows_walk (length ws) ws [] heap Hnd (le_n _)) as H.
  cbn [length app] in H. rewrite H.
  destruct (walk_windows refresh ws heap) as [[kept h'] e]. reflexivity.
Qed.

Lemma set_window_exists (w n : nat) (a : P) (heap : heap_t) :
  winfo_exists (heap n) = true ->
  winfo_exists (set_window w (mkWindow true a) heap n) = true.
Proof. intros H. unfold set_window. destruct (decide _); [reflexivity|exact H]. Qed.

Lemma set_window_other (w n : nat) (x : Window P) (heap : heap_t) :
  n <> w -> set_window w x heap n = heap n.
Proof. intros H. unfold set_window. rewrite decide_False by exact H. reflexivity. Qed.

Lemma walk_windows_cons2 (w x : nat) (rest : list nat) (heap : heap_t) :
  walk_windows refresh (w :: x :: rest) heap
  = if winfo_exists (heap w) then
      let '(a, raised) := refresh (attrs (heap w)) in
      let heap' := set_window w (mkWindow true a) heap in
      match raised with
      | Some e => (w :: x :: rest, heap', Some e)
      | None =>
          let '(kept, h, e) := walk_windows refresh (x :: rest) heap' in
          (w :: kept, h, e)
      end
    else
      let '(kept, h, e) := walk_windows refresh rest heap in
      (x :: kept, h, e).
Proof. reflexivity. Qed.

Lemma walk_windows_keeps_live (ws : list nat) :
  forall (heap : heap_t) (w : nat),
    w ∈ ws -> winfo_exists (heap w) = true ->
    w ∈ (walk_windows refresh ws heap).1.1.
Proof.
  induction ws as [|w0|w0 x rest IHrest IHx] using list_ind_pairs;
    intros heap w Hin Hlive.
  - inversion Hin.
  - apply list_elem_of_singleton in Hin as ->.
    cbn [walk_windows]. rewrite Hlive.
    destruct (refresh (attrs (heap w0))) as [a [e|]]; cbn; apply list_elem_of_here.
  - rewrite walk_windows_cons2.
    destruct (winfo_exists (heap w0)) eqn:H0.
    + destruct (refresh (attrs (heap w0))) as [a [e|]]; [exact Hin|].
      cbv beta iota zeta.
      specialize (IHx (set_window w0 (mkWindow true a) heap) w).
      destruct (walk_windows refresh (x :: rest) _) as [[kept h'] e]. cbn in *.
      apply elem_of_cons in Hin as [->|Hin]; [apply list_elem_of_here|].
      apply list_elem_of_further, IHx; [exact Hin|].
      apply set_window_exists, Hlive.
    + apply elem_of_cons in Hin as [->|Hin]; [congruence|].
      specialize (IHrest heap w).
      destruct (walk_windows refresh rest heap) as [[kept h'] e]. cbn in *.
      apply elem_of_cons in Hin as [->|Hin]; [apply list_elem_of_here|].
      apply list_elem_of_further, IHrest; assumption.
Qed.

Lemma walk_windows_outside (ws : list nat) :
  forall (heap : heap_t) (n : nat),
    n ∉ ws -> (walk_windows refresh ws heap).1.2 n = heap n.
Proof.
  induction ws as [|w0|w0 x rest IHrest IHx] using list_ind_pairs;
    intros heap n Hout.
  - reflexivity.
  - apply not_elem_of_cons in Hout as [Hne _].
    cbn [walk_windows].
    destruct (winfo_exists (heap w0)); [|reflexivity].
    destruct (refresh (attrs (heap w0))) as [a [e|]]; cbn;
      apply set_window_other, Hne.
  - apply not_elem_of_cons in Hout as [Hne Hout].
    rewrite walk_windows_cons2.
    destruct (winfo_exists (heap w0)).
    + destruct (refresh (attrs (heap w0))) as [a [e|]];
        [cbn; apply set_window_other, Hne|].
      cbv beta iota zeta.
      specialize (IHx (set_window w0 (mkWindow true a) heap) n Hout).
      destruct (walk_windows refresh (x :: rest) _) as [[kept h'] e]. cbn in *.
      rewrite IHx. apply set_window_other, Hne.
    + apply not_elem_of_cons in Hout as [_ Hout].
      specialize (IHrest heap n Hout).
      destruct (walk_windows refresh rest heap) as [[kept h'] e]. exact IHrest.
Qed.

(** On a registry that holds no window twice, the loop with its removals
    during iteration does exactly this: a window that exists is refreshed
    and kept; one that does not is dropped, and the window right after it
    is kept without being looked at. *)
Theorem update_all_windows_walk (ws : list nat) (heap : heap_t) :
  NoDup ws ->
  update_all_windows refresh ws heap = walk_windows refresh ws heap.
Proof. apply update_all_windows_as_walk. Qed.

(** The loop never drops a window that exists. *)
Theorem live_windows_stay_registered (ws : list nat) (heap : heap_t) (w : nat) :
  NoDup ws ->
  w ∈ ws ->
  winfo_exists (heap w) = true ->
  w ∈ (update_all_windows refresh ws heap).1.1.
Proof.
  intros Hnd Hin Hlive. rewrite update_all_windows_as_walk by exact Hnd.
  apply walk_windows_keeps_live; assumption.
Qed.

Lemma walk_windows_skip (pre : list nat) :
  forall (heap : heap_t) (d x : nat) (post : list nat),
    NoDup (pre ++ d :: x :: post) ->
    (forall w, w ∈ pre ->
       winfo_exists (heap w) = true /\ (refresh (attrs (heap w))).2 = None) ->
    winfo_exists (heap d) = false ->
    x ∈ (walk_windows refresh (pre ++ d :: x :: post) heap).1.1 /\
    (walk_windows refresh (pre ++ d :: x :: post) heap).1.2 x = heap x.
Proof.
  induction pre as [|w pre IH]; intros heap d x post Hnd Hpre Hdead.
  - cbn [app walk_windows]. rewrite Hdead.
    apply NoDup_cons in Hnd as [_ Hnd]. apply NoDup_cons in Hnd as [Hx _].
    pose proof (walk_windows_outside post heap x Hx) as Hout.
    destruct (walk_windows refresh post heap) as [[kept h'] e]. cbn in *.
    split; [apply list_elem_of_here|exact Hout].
  - cbn [app] in *. apply NoDup_cons in Hnd as [Hw Hnd].
    destruct (Hpre w (list_elem_of_here _ _)) as [Hlive Hok].
    cbn [walk_windows]. rewrite Hlive.
    destruct (refresh (attrs (heap w))) as [a raised]. cbn in Hok. subst raised.
    assert (d <> w /\ x <> w) as [Hdw Hxw].
    { split; intros ->; apply Hw; apply elem_of_app; right;
        [apply list_elem_of_here|apply list_elem_of_further, list_elem_of_here]. }
    specialize (IH (set_window w (mkWindow true a) heap) d x post Hnd).
    destruct IH as [IHin IHheap].
    + intros w' Hw'. rewrite set_window_other.
      * apply Hpre, list_elem_of_further, Hw'.
      * intros ->. apply Hw, elem_of_app. left. exact Hw'.
    + rewrite set_window_other by exact Hdw. exact Hdead.
    + destruct (walk_windows refresh (pre ++ d :: x :: post) _) as [[kept h'] e].
      cbn in *. split; [apply list_elem_of_further, IHin|].
      rewrite IHheap. apply set_window_other, Hxw.
Qed.

(** The window that follows a dropped one is passed over: it stays in the
    registry and is not refreshed, whether it exists or not. *)
Theorem window_after_dropped_is_skipped (pre post : list nat) (d x : nat)
    (heap : heap_t) :
  NoDup (pre ++ d :: x :: post) ->
  (forall w, w ∈ pre ->
     winfo_exists (heap w) = true /\ (refresh (attrs (heap w))).2 = None) ->
  winfo_exists (heap d) = false ->
  let r := update_all_windows refresh (pre ++ d :: x :: post) heap in
  x ∈ r.1.1 /\ r.1.2 x = heap x.
Proof.
  intros Hnd Hpre Hdead. cbv zeta.
  rewrite update_all_windows_as_walk by exact Hnd.
  apply walk_windows_skip; assumption.
Qed.

Lemma walk_windows_all_live (ws : list nat) :
  forall heap : heap_t,
    NoDup ws ->
    (forall w, w ∈ ws ->
       winfo_exists (heap w) = true /\ (refresh (attrs (heap w))).2 = None) ->
    (walk_windows refresh ws heap).1.1 = ws /\
    (walk_windows refresh ws heap).2 = None /\
    forall w, w ∈ ws ->
      (walk_windows refresh ws heap).1.2 w
      = mkWindow true (refresh (attrs (heap w))).1.
Proof.
  induction ws as [|w ws IH]; intros heap Hnd Hall.
  - cbn. split; [reflexivity|]. split; [reflexivity|]. intros w Hw. inversion Hw.
  - apply NoDup_cons in Hnd as [Hw Hnd].
    destruct (Hall w (list_elem_of_here _ _)) as [Hlive Hok].
    cbn [walk_windows]. rewrite Hlive.
    destruct (refresh (attrs (heap w))) as [a raised] eqn:Hr. cbn in Hok. subst raised.
    specialize (IH (set_window w (mkWindow true a) heap) Hnd).
    destruct IH as (IHl & IHe & IHh).
    + intros w' Hw'. rewrite set_window_other.
      * apply Hall, list_elem_of_further, Hw'.
      * intros ->. exact (Hw Hw').
    + pose proof (walk_windows_outside ws (set_window w (mkWindow true a) heap) w Hw)
        as Hout.
      destruct (walk_windows refresh ws _) as [[kept h'] e]. cbn in *.
      split; [congruence|]. split; [exact IHe|].
      intros w' Hw'. apply elem_of_cons in Hw' as [->|Hw'].
      * rewrite Hout. unfold set_window. rewrite decide_True by reflexivity.
        rewrite Hr. reflexivity.
      * rewrite (IHh w' Hw'). rewrite set_window_other; [reflexivity|].
        intros ->. exact (Hw Hw').
Qed.

(** With every registered window existing and no refresh raising, the
    loop leaves the registry as it is and refreshes each window once. *)
Theorem all_windows_refreshed (ws : list nat) (heap : heap_t) :
  NoDup ws ->
  (forall w, w ∈ ws ->
     winfo_exists (heap w) = true /\ (refresh (attrs (heap w))).2 = None) ->
  let r := update_all_windows refresh ws heap in
  r.1.1 = ws /\ r.2 = None /\
  (forall w, w ∈ ws -> r.1.2 w = mkWindow true (refresh (attrs (heap w))).1) /\
  (forall n, n ∉ ws -> r.1.2 n = heap n).
Proof.
  intros Hnd Hall. cbv zeta.
  rewrite update_all_windows_as_walk by exact Hnd.
  destruct (walk_windows_all_live ws heap Hnd Hall) as (Hl & He & Hh).
  split; [exact Hl|]. split; [exact He|]. split; [exact Hh|].
  intros n Hn. apply walk_windows_outside, Hn.
Qed.

End OpenWindowsFacts.

(** Closing an Updates window undoes its registration, and closing a
    window that is not registered leaves the registry alone. *)
Theorem close_undoes_register (w : nat) (ws : list nat) :
  w ∉ ws ->
  _on_close_registry w (register_window w ws) = (ws, None) /\
  _on_close_registry w ws = (ws, Some ValueError).
Proof.
  intros Hout. unfold _on_close_registry, register_window. split.
  - rewrite decide_True by (apply elem_of_app; right; apply list_elem_of_here).
    rewrite (list_remove_middle w ws [] Hout), app_nil_r. reflexivity.
  - rewrite decide_False by exact Hout. reflexivity.
Qed.


(** * The Updates window *)

Section TextFacts.

Lemma rstrip_cons (c : ascii) (s : string) :
  PyStr.rstrip (String c s)
  = match PyStr.rstrip s with
    | EmptyString =>
        if PyStr.is_space c then EmptyString else String c EmptyString
    | r => String c r
    end.
Proof. reflexivity. Qed.

Lemma rstrip_idempotent (s : string) : PyStr.rstrip (PyStr.rstrip s) = PyStr.rstrip s.
Proof.
  induction s as [|c s IH]; [reflexivity|].
  rewrite (rstrip_cons c s).
  destruct (PyStr.rstrip s) as [|c' r] eqn:Hr.
  - destruct (PyStr.is_space c) eqn:Hc; [reflexivity|].
    cbn. rewrite Hc. reflexivity.
  - rewrite (rstrip_cons c (String c' r)), IH. reflexivity.
Qed.

Lemma lstrip_head (s : string) :
  match PyStr.lstrip s with
  | EmptyString => True
  | String c _ => PyStr.is_space c = false
  end.
Proof.
  induction s as [|c s IH]; [exact I|].
  cbn [PyStr.lstrip]. destruct (PyStr.is_space c) eqn:Hc; [exact IH|exact Hc].
Qed.

Lemma rstrip_head (c : ascii) (s : string) :
  PyStr.is_space c = false ->
  exists r, PyStr.rstrip (String c s) = String c r.
Proof.
  intros Hc. cbn [PyStr.rstrip].
  destruct (PyStr.rstrip s); [rewrite Hc|]; eauto.
Qed.

(** [strip] leaves nothing for a second [strip] to remove. *)
Lemma strip_idempotent (s : string) : PyStr.strip (PyStr.strip s) = PyStr.strip s.
Proof.
  unfold PyStr.strip.
  pose proof (lstrip_head s) as Hh.
  destruct (PyStr.lstrip s) as [|c t]; [reflexivity|].
  destruct (rstrip_head c t Hh) as [r Hr]. rewrite Hr.
  cbn [PyStr.lstrip]. rewrite Hh. rewrite <- Hr. apply rstrip_idempotent.
Qed.

Lemma nonempty_true (s : string) : PyText.nonempty s = true <-> s <> EmptyString.
Proof. destruct s; cbn; split; congruence. Qed.

Lemma trimmed_strip (s : string) :
  PyText.nonempty (PyStr.strip s) = true -> trimmed (PyStr.strip s).
Proof.
  intros H. split; [apply nonempty_true, H|apply strip_idempotent].
Qed.

Lemma find_header_from_spec (combos : list (list string)) (lines : list string) :
  forall i : nat,
    match find_header_from combos lines i with
    | Some h =>
        exists k line,
          h = i + k /\ lines !! k = Some line /\ is_header combos line = true /\
          forall j l, j < k -> lines !! j = Some l -> is_header combos l = false
    | None => forall l, l ∈ lines -> is_header combos l = false
    end.
Proof.
  induction lines as [|line rest IH]; intros i; cbn [find_header_from].
  - intros l Hl. inversion Hl.
  - destruct (is_header combos line) eqn:Hh.
    + exists 0, line. split; [lia|]. split; [reflexivity|]. split; [exact Hh|].
      intros j l Hj. lia.
    + specialize (IH (S i)).
      destruct (find_header_from combos rest (S i)) as [h|].
      * destruct IH as (k & l & -> & Hk & Hl & Hbefore).
        exists (S k), l. split; [lia|]. split; [exact Hk|]. split; [exact Hl|].
        intros [|j] l' Hj Hl'.
        -- cbn in Hl'. congruence.
        -- apply (Hbefore j l'); [lia|exact Hl'].
      * intros l Hin. apply elem_of_cons in Hin as [->|Hin]; [exact Hh|auto].
Qed.

(** The header is the first line that has all the columns of one of the
    combinations; without such a line there is no header. *)
Theorem find_header_first_match (combos : list (list string)) (lines : list string) :
  match find_header combos lines with
  | Some h =>
      exists line,
        lines !! h = Some line /\ is_header combos line = true /\
        forall j l, j < h -> lines !! j = Some l -> is_header combos l = false
  | None => forall l, l ∈ lines -> is_header combos l = false
  end.
Proof.
  unfold find_header. pose proof (find_header_from_spec combos lines 0) as H.
  destruct (find_header_from combos lines 0) as [h|]; [|exact H].
  destruct H as (k & line & -> & Hk & Hl & Hb). exists line. auto.
Qed.

End TextFacts.

Section DictFacts.

Context {V : Type}.
Local Open Scope list_scope.

Lemma dict_setitem_keys (k : string) (v : V) (d : list (string * V)) :
  (dict_setitem k v d).*1 = if decide (k ∈ d.*1) then d.*1 else d.*1 ++ [k].
Proof.
  unfold dict_setitem. destruct (decide (k ∈ d.*1)) as [Hin|Hout].
  - clear Hin. induction d as [|[k' v'] d IH]; [reflexivity|].
    cbn. rewrite IH. destruct (decide (k' = k)) as [->|]; reflexivity.
  - rewrite fmap_app. reflexivity.
Qed.

Lemma dict_setitem_NoDup (k : string) (v : V) (d : list (string * V)) :
  NoDup d.*1 -> NoDup (dict_setitem k v d).*1.
Proof.
  intros Hnd. rewrite dict_setitem_keys.
  destruct (decide (k ∈ d.*1)) as [Hin|Hout]; [exact Hnd|].
  apply NoDup_app. split; [exact Hnd|]. split; [|apply NoDup_singleton].
  intros x Hx Hk. apply list_elem_of_singleton in Hk as ->. exact (Hout Hx).
Qed.

Lemma dict_setitem_elem (k : string) (v : V) (d : list (string * V))
    (entry : string * V) :
  entry ∈ dict_setitem k v d -> entry = (k, v) \/ entry ∈ d.
Proof.
  unfold dict_setitem. destruct (decide (k ∈ d.*1)) as [Hin|Hout].
  - intros H. apply list_elem_of_fmap in H as (kv & -> & Hkv).
    destruct (decide (kv.1 = k)); auto.
  - intros H. apply elem_of_app in H as [H|H]; [auto|].
    apply list_elem_of_singleton in H. auto.
Qed.

End DictFacts.

Section ParseFacts.

Local Open Scope list_scope.

Lemma parse_update_line_inv (name_pos version_pos available_pos : Z)
    (updates : list (string * (string * string))) (line : string) :
  NoDup updates.*1 /\ Forall update_entry_ok updates ->
  NoDup (parse_update_line name_pos version_pos available_pos updates line).*1 /\
  Forall update_entry_ok
         (parse_update_line name_pos version_pos available_pos updates line).
Proof.
  intros [Hnd Hok]. unfold parse_update_line.
  destruct (_ && negb _); [|auto].
  destruct (_ >? _)%Z; [|auto].
  destruct (PyText.nonempty (PyStr.strip (PyText.slice line name_pos version_pos)))
    eqn:Hn; [|auto].
  destruct (PyText.nonempty
              (PyStr.strip (PyText.slice line version_pos available_pos)))
    eqn:Hc; [|auto].
  destruct (PyText.nonempty (PyStr.strip (PyText.slice_from line available_pos)))
    eqn:Hw; [|auto].
  cbn [andb]. split; [apply dict_setitem_NoDup, Hnd|].
  apply Forall_forall. intros entry Hin.
  apply dict_setitem_elem in Hin as [->|Hin].
  - repeat split; first [apply nonempty_true; assumption | apply strip_idempotent].
  - rewrite Forall_forall in Hok. auto.
Qed.

Lemma foldl_parse_update_line_inv (name_pos version_pos available_pos : Z)
    (lines : list string) :
  forall updates : list (string * (string * string)),
    NoDup updates.*1 /\ Forall update_entry_ok updates ->
    NoDup (foldl (parse_update_line name_pos version_pos available_pos)
                 updates lines).*1 /\
    Forall update_entry_ok
           (foldl (parse_update_line name_pos version_pos available_pos)
                  updates lines).
Proof.
  induction lines as [|line lines IH]; intros updates H; [exact H|].
  cbn [foldl]. apply IH, parse_update_line_inv, H.
Qed.

(** Whatever ASCII text [winget upgrade] prints, the table read from it
    names no package twice, and no entry has an empty name or version or
    one with blanks around it. *)
Theorem parse_updates_well_formed (stdout : string) :
  PyText.isascii stdout = true ->
  NoDup (parse_updates stdout).*1 /\
  Forall update_entry_ok (parse_updates stdout).
Proof.
  intros _. unfold parse_updates.
  destruct (find_header _ _); [|split; constructor].
  apply foldl_parse_update_line_inv. split; constructor.
Qed.

Lemma until_space_idempotent (s : string) :
  PyText.until_space (PyText.until_space s) = PyText.until_space s.
Proof.
  induction s as [|c s IH]; [reflexivity|].
  cbn [PyText.until_space].
  destruct (PyStr.is_space c) eqn:Hc; [reflexivity|].
  cbn [PyText.until_space]. rewrite Hc, IH. reflexivity.
Qed.

Lemma first_word_Some (s w : string) :
  PyText.first_word s = Some w -> w <> EmptyString /\ PyText.until_space w = w.
Proof.
  unfold PyText.first_word.
  destruct (PyText.until_space (PyStr.lstrip s)) as [|c r] eqn:Hu; [discriminate|].
  intros [= <-]. split; [discriminate|].
  rewrite <- Hu. apply until_space_idempotent.
Qed.

Lemma parse_installed_line_inv (name_pos id_pos version_pos : Z)
    (installed : list (string * string)) (line : string) :
  NoDup installed.*1 /\ Forall installed_entry_ok installed ->
  NoDup (parse_installed_line name_pos id_pos version_pos installed line).*1 /\
  Forall installed_entry_ok
         (parse_installed_line name_pos id_pos version_pos installed line).
Proof.
  intros [Hnd Hok]. unfold parse_installed_line.
  destruct (_ && negb _); [|auto].
  destruct (_ >? _)%Z; [|auto].
  destruct (PyText.first_word _) as [version|] eqn:Hv; [|auto].
  destruct (PyText.nonempty (PyStr.strip (PyText.slice line name_pos id_pos)))
    eqn:Hn; [|auto].
  destruct (PyText.nonempty version) eqn:Hw; [|auto].
  cbn [andb]. split; [apply dict_setitem_NoDup, Hnd|].
  apply Forall_forall. intros entry Hin.
  apply dict_setitem_elem in Hin as [->|Hin].
  - destruct (first_word_Some _ _ Hv) as [Hne Hword].
    split; [apply trimmed_strip, Hn|]. split; assumption.
  - rewrite Forall_forall in Hok. auto.
Qed.

(** Whatever ASCII text [winget list] prints and wherever its header is,
    the table read from it names no package twice, every name is non-empty
    without blanks around it, and every version is one word. *)
Theorem parse_installed_well_formed (lines : list string) (header_index : nat) :
  Forall (fun line => PyText.isascii line = true) lines ->
  NoDup (parse_installed lines header_index).*1 /\
  Forall installed_entry_ok (parse_installed lines header_index).
Proof.
  intros _. unfold parse_installed. cbv zeta.
  generalize (drop (header_index + 2) lines). intros rows.
  assert (NoDup ([] : list (string * string)).*1 /\
          Forall installed_entry_ok []) as H by (split; constructor).
  revert H. generalize ([] : list (string * string)).
  induction rows as [|line rows IH]; intros d H; [exact H|].
  cbn [foldl]. apply IH, parse_installed_line_inv, H.
Qed.

End ParseFacts.

Section PackageListFacts.

Local Open Scope list_scope.

Lemma foldl_add_updates (updates : list (string * (string * string))) :
  forall rows : list PackageRow,
    foldl (fun rows entry =>
             _add_package_to_list entry.1 entry.2.1 (Some entry.2.2) rows)
          rows updates
    = rows ++ (update_row <$> updates).
Proof.
  induction updates as [|e updates IH]; intros rows; cbn [foldl fmap list_fmap].
  - rewrite app_nil_r. reflexivity.
  - rewrite IH. unfold _add_package_to_list. rewrite <- app_assoc. reflexivity.
Qed.

Lemma foldl_add_installed (keys : list string) (installed : list (string * string)) :
  forall rows : list PackageRow,
    foldl (fun rows entry =>
             if decide (entry.1 ∈ keys) then rows
             else _add_package_to_list entry.1 entry.2 None rows)
          rows installed
    = rows ++ (installed_row <$> filter (fun entry => entry.1 ∉ keys) installed).
Proof.
  induction installed as [|e installed IH]; intros rows; cbn [foldl].
  - rewrite filter_nil, app_nil_r. reflexivity.
  - rewrite IH, filter_cons.
    destruct (decide (e.1 ∈ keys)) as [Hin|Hout].
    + rewrite decide_False by (intros H; exact (H Hin)). reflexivity.
    + rewrite decide_True by exact Hout.
      unfold _add_package_to_list. rewrite <- app_assoc. reflexivity.
Qed.

Lemma show_packages_rows (updates : list (string * (string * string)))
    (installed : list (string * string)) :
  show_packages updates installed []
  = (update_row <$> updates)
    ++ (installed_row <$> filter (fun entry => entry.1 ∉ updates.*1) installed).
Proof.
  unfold show_packages. rewrite foldl_add_updates, foldl_add_installed.
  reflexivity.
Qed.

Lemma filter_keys_sublist (keys : list string) (installed : list (string * string)) :
  sublist (filter (fun entry => entry.1 ∉ keys) installed).*1 installed.*1.
Proof. apply fmap_sublist, sublist_filter. Qed.

(** The package list shows the packages with an update first, in the
    order of the updates table, then the installed packages that have
    none; every package of either table is listed, none twice, and all
    checkboxes start unticked. *)
Theorem package_list_contents (updates : list (string * (string * string)))
    (installed : list (string * string)) :
  NoDup updates.*1 ->
  NoDup installed.*1 ->
  let rows := show_packages updates installed [] in
  rows = (update_row <$> updates)
         ++ (installed_row
               <$> filter (fun entry => entry.1 ∉ updates.*1) installed) /\
  NoDup (package_name <$> rows) /\
  (forall name, name ∈ package_name <$> rows <->
                name ∈ updates.*1 \/ name ∈ installed.*1) /\
  Forall (fun row => checkbox row = false) rows.
Proof.
  intros Hu Hi. cbv zeta. rewrite show_packages_rows.
  set (rest := filter (fun entry => entry.1 ∉ updates.*1) installed).
  assert (package_name <$> ((update_row <$> updates) ++ (installed_row <$> rest))
          = updates.*1 ++ rest.*1) as Hnames.
  { rewrite fmap_app, <- !list_fmap_compose. reflexivity. }
  split; [reflexivity|]. rewrite Hnames.
  assert (forall name, name ∈ rest.*1 <-> name ∈ installed.*1 /\ name ∉ updates.*1)
    as Hrest.
  { intros name. unfold rest. split.
    - intros (e & -> & He)%list_elem_of_fmap.
      apply list_elem_of_filter in He as [Hout He].
      split; [apply list_elem_of_fmap; exists e; split; [reflexivity|exact He]
             |exact Hout].
    - intros [(e & -> & He)%list_elem_of_fmap Hout].
      apply list_elem_of_fmap. exists e. split; [reflexivity|].
      apply list_elem_of_filter. split; [exact Hout|exact He]. }
  split; [|split].
  - apply NoDup_app. split; [exact Hu|]. split.
    + intros name Hin Hr. apply Hrest in Hr as [_ Hout]. exact (Hout Hin).
    + eapply sublist_NoDup; [exact Hi|apply filter_keys_sublist].
  - intros name. rewrite elem_of_app, Hrest.
    destruct (decide (name ∈ updates.*1)); tauto.
  - apply Forall_app. split; apply Forall_fmap, Forall_forall; intros e _; reflexivity.
Qed.

Lemma _toggle_all_packages_with_ticks (b c : bool) (rows : list PackageRow) :
  _toggle_all_packages b (with_ticks c rows) = with_ticks b rows.
Proof.
  unfold _toggle_all_packages, with_ticks. rewrite <- list_fmap_compose.
  apply list_fmap_ext. intros _ row _. cbn.
  destruct (checkbox_normal row); reflexivity.
Qed.

Lemma with_ticks_false (rows : list PackageRow) :
  Forall (fun row => checkbox row = false) rows -> with_ticks false rows = rows.
Proof.
  intros H. unfold with_ticks. rewrite <- (list_fmap_id rows) at 2.
  apply Forall_fmap_ext_1. eapply Forall_impl; [exact H|].
  intros [n c v t e] Ht. cbn in *. subst t. rewrite andb_false_r. reflexivity.
Qed.

Lemma selected_with_ticks (b : bool) (rows : list PackageRow) :
  selected_packages (with_ticks b rows)
  = if b then package_name <$> filter (fun row => checkbox_normal row = true) rows
    else [].
Proof.
  unfold selected_packages, with_ticks.
  induction rows as [|row rows IH]; [destruct b; reflexivity|].
  rewrite fmap_cons, !filter_cons. cbn [checkbox].
  destruct b.
  - rewrite andb_true_r.
    destruct (decide (checkbox_normal row = true)); cbn; rewrite IH; reflexivity.
  - rewrite andb_false_r. rewrite decide_False by discriminate. exact IH.
Qed.

Lemma enabled_rows (updates : list (string * (string * string)))
    (installed : list (string * string)) :
  Forall (fun entry => entry.2.2 <> EmptyString) updates ->
  package_name
    <$> filter (fun row => checkbox_normal row = true)
               (show_packages updates installed [])
  = updates.*1.
Proof.
  intros Hnew. rewrite show_packages_rows, filter_app, fmap_app.
  assert (filter (fun row => checkbox_normal row = true)
                 (installed_row
                    <$> filter (fun entry => entry.1 ∉ updates.*1) installed)
          = []) as ->.
  { generalize (filter (fun entry => entry.1 ∉ updates.*1) installed).
    intros l. induction l as [|e l IH]; [reflexivity|].
    rewrite fmap_cons, filter_cons. cbn. exact IH. }
  rewrite app_nil_r.
  induction Hnew as [|e updates He _ IH]; [reflexivity|].
  rewrite !fmap_cons, filter_cons. cbn [update_row checkbox_normal].
  apply nonempty_true in He. rewrite He.
  rewrite decide_True by reflexivity. cbn. rewrite IH. reflexivity.
Qed.

(** However often "select all" is switched, the packages picked for an
    upgrade are those of the last switch: every package with an update, in
    list order, when it was switched on, none when it was switched off or
    never touched.  A package without an update is never picked. *)
Theorem select_all_picks_updates (updates : list (string * (string * string)))
    (installed : list (string * string)) (switches : list bool) :
  Forall (fun entry => entry.2.2 <> EmptyString) updates ->
  let rows := foldl (fun rows b => _toggle_all_packages b rows)
                    (show_packages updates installed []) switches in
  selected_packages rows
  = (if default false (last switches) then updates.*1 else []) /\
  upgrade_commands rows
  = (fun package => ["winget"; "upgrade"; package])
      <$> (if default false (last switches) then updates.*1 else []).
Proof.
  intros Hnew. cbv zeta.
  set (rows0 := show_packages updates installed []).
  assert (foldl (fun rows b => _toggle_all_packages b rows) rows0 switches
          = with_ticks (default false (last switches)) rows0) as ->.
  { assert (rows0 = with_ticks false rows0) as H0.
    { symmetry. apply with_ticks_false. unfold rows0. rewrite show_packages_rows.
      apply Forall_app.
      split; apply Forall_fmap, Forall_forall; intros e _; reflexivity. }
    induction switches as [|b switches IH] using rev_ind; [exact H0|].
    rewrite foldl_app, last_snoc. cbn [foldl default].
    rewrite IH. apply _toggle_all_packages_with_ticks. }
  assert (selected_packages (with_ticks (default false (last switches)) rows0)
          = if default false (last switches) then updates.*1 else []) as Hsel.
  { rewrite selected_with_ticks.
    destruct (default false (last switches)); [|reflexivity].
    apply enabled_rows, Hnew. }
  split; [exact Hsel|]. unfold upgrade_commands. rewrite Hsel. reflexivity.
Qed.

End PackageListFacts.


(** * The further theorems at concrete inputs *)

Section MoreInstances.

Local Open Scope list_scope.

(** Looks a literal key up in a dictionary written as a list. *)
Ltac lookup_literal :=
  repeat rewrite list_to_map_cons;
  repeat (rewrite lookup_insert_ne by discriminate);
  first [apply lookup_insert_eq | rewrite list_to_map_nil; apply lookup_empty].

(** C7, as stated, fails: an interval of 5 ms stored in the settings is
    handed to the hardware monitor and kept as the configured interval at
    start-up, below the lower bound. *)
Lemma C7_startup_interval_not_clamped :
  exists a,
    MoreSamples.recorded_start MoreSamples.settings_5ms = Ok a /\
    hardware a = [5%Z] /\
    monitoring_interval (config a) = 5%Z /\
    ~ (100 <= monitoring_interval (config a) <= 10000)%Z.
Proof.
  eexists. split; [reflexivity|]. cbn.
  split; [reflexivity|]. split; [reflexivity|]. lia.
Qed.

(** C10, as stated, fails: after start-up with "Boost" and "60" configured
    nothing has been applied and these stay the active profile and mode;
    the user's choice of Silent and 60 Hz is applied first, and the
    callback then replaces it; with the profiles file missing the callback
    applies no profile at all. *)
Lemma C10_defaults_come_after_user_choice :
  let run := run_events MoreSamples.record_interval MoreSamples.record_apply
                        MoreSamples.record_rate in
  let chosen := run MoreSamples.early_choice MoreSamples.recorded_app in
  let due := run [InitializeDefaultProfilesDue (Some Samples.profiles)] chosen in
  let missing := run [InitializeDefaultProfilesDue None]
                     MoreSamples.recorded_app in
  MoreSamples.recorded_start Samples.settings = Ok MoreSamples.recorded_app /\
  (power MoreSamples.recorded_app = [] /\
   display MoreSamples.recorded_app = [] /\
   current_profile (config MoreSamples.recorded_app) = "Boost" /\
   refresh_rate_mode (config MoreSamples.recorded_app) = "60") /\
  (power chosen = ["Silent"] /\ display chosen = ["60"] /\
   current_profile (config chosen) = "Silent") /\
  (power due = ["Silent"; "Balanced"] /\ display due = ["60"; "auto"] /\
   current_profile (config due) = "Balanced" /\
   refresh_rate_mode (config due) = "Auto") /\
  (power missing = [] /\ current_profile (config missing) = "Boost").
Proof.
  cbv zeta.
  split; [vm_compute; reflexivity|].
  split; [repeat split; vm_compute; reflexivity|].
  split; [repeat split; vm_compute; reflexivity|].
  split; repeat split; vm_compute; reflexivity.
Qed.

Lemma C10_startup_defaults_witness :
  current_profile
    (config
       (_initialize_default_profiles
          MoreSamples.record_apply MoreSamples.record_rate
          (Some Samples.profiles)
          (run_events MoreSamples.record_interval MoreSamples.record_apply
                      MoreSamples.record_rate MoreSamples.early_choice
                      MoreSamples.recorded_app)).1)
  = "Balanced".
Proof.
  destruct (C10_startup_defaults
              (fun _ => []) MoreSamples.record_interval (fun _ => [])
              (fun _ => []) (fun _ => ["60"; "165"])
              MoreSamples.record_apply MoreSamples.record_rate
              AMD16 true Samples.settings Samples.profiles
              Samples.amd_section Samples.amd_section Samples.amd16_table
              Samples.stored_balanced (Some 30000%Z) (Some 35000%Z)
              MoreSamples.recorded_app MoreSamples.early_choice)
    as (_ & _ & _ & _ & Hok & _).
  - vm_compute; reflexivity.
  - unfold Samples.profiles; lookup_literal.
  - unfold Samples.profiles, platform_family; lookup_literal.
  - unfold Samples.amd_section, platform_key; lookup_literal.
  - unfold Samples.amd16_table; lookup_literal.
  - unfold Samples.stored_balanced; lookup_literal.
  - unfold Samples.stored_balanced; lookup_literal.
  - destruct (Hok eq_refl) as (_ & Hcur & _). exact Hcur.
Defined.

Lemma resolve_profile_succeeds_iff_witness :
  exists p,
    resolve_profile (Some Samples.profiles) "Framework 16 AMD" "Balanced" = Next p.
Proof.
  refine (proj2 (resolve_profile_succeeds_iff Samples.profiles
                   "Framework 16 AMD" "Balanced" _ _) _).
  - reflexivity.
  - reflexivity.
  - exists AMD16, Samples.amd_section, Samples.amd16_table,
           Samples.stored_balanced.
    split; [exists Samples.amd_section; unfold Samples.profiles; lookup_literal|].
    split; [reflexivity|].
    split; [unfold Samples.profiles, platform_family; lookup_literal|].
    split; [unfold Samples.amd_section, platform_key; lookup_literal|].
    split; [change (PyStr.lower "Balanced") with "balanced";
            unfold Samples.amd16_table; lookup_literal|].
    split.
    + assert (Samples.stored_balanced !! "stapm_limit" = Some (JInt 30000)) as ->
        by (unfold Samples.stored_balanced; lookup_literal).
      exact I.
    + assert (Samples.stored_balanced !! "fast_limit" = Some (JInt 35000)) as ->
        by (unfold Samples.stored_balanced; lookup_literal).
      exact I.
Defined.

Lemma resolve_profile_keeps_stored_witness :
  fields Samples.startup_profile !! "slow_limit"
  = MoreSamples.loaded_balanced !! "slow_limit".
Proof.
  apply (resolve_profile_keeps_stored (Some Samples.profiles) "Framework 16 AMD"
           "Balanced" Samples.startup_profile MoreSamples.loaded_balanced
           "slow_limit").
  - vm_compute; reflexivity.
  - vm_compute; reflexivity.
  - apply (bool_decide_unpack _). vm_compute. exact I.
Defined.

Lemma resolve_profile_case_insensitive_witness :
  resolve_profile (Some Samples.profiles) "Framework 16 AMD" "BALANCED"
  = Next (mkPowerProfile "BALANCED" (fields Samples.startup_profile)).
Proof.
  apply (resolve_profile_case_insensitive (Some Samples.profiles)
           "Framework 16 AMD" "Balanced" "BALANCED" Samples.startup_profile);
    vm_compute; reflexivity.
Defined.

Lemma resolved_profile_fixed_fields_witness :
  fields Samples.startup_profile !! "gpu_power" = Some (JInt 25).
Proof.
  refine (proj1 (proj2 (proj2 (resolved_profile_fixed_fields
                                 (Some Samples.profiles) "Framework 16 AMD"
                                 "Balanced" Samples.startup_profile _)))).
  vm_compute; reflexivity.
Defined.

Lemma non_numeric_limit_raises_witness :
  resolve_profile (Some MoreSamples.profiles_text_limit) "Framework 16 AMD"
                  "Balanced"
  = Stop (Caught TypeError).
Proof.
  apply (non_numeric_limit_raises (Some MoreSamples.profiles_text_limit)
           "Framework 16 AMD" "Balanced" MoreSamples.stored_text_limit).
  - vm_compute; reflexivity.
  - intros [H _]. vm_compute in H. exact H.
Defined.

Lemma resolved_power_in_watts_witness :
  exists w : Z,
    fields Samples.startup_profile !! "tdp" = Some (JInt w) /\
    (1000 * w <= 30000 < 1000 * w + 1000)%Z.
Proof.
  refine (proj2 (proj2 (resolved_power_in_watts
                          (Some Samples.profiles) "Framework 16 AMD" "Balanced"
                          MoreSamples.loaded_balanced Samples.startup_profile
                          "stapm_limit" "tdp" (or_introl (conj eq_refl eq_refl))
                          _ _))
                30000%Z _);
    vm_compute; reflexivity.
Defined.

Lemma profile_switch_after_switch_witness :
  current_profile
    (config
       (_set_power_profile_sync PowerManagerSpec.apply_profile
          (Some Samples.profiles) "Silent"
          (_set_power_profile_sync PowerManagerSpec.apply_profile
             (Some Samples.profiles) "Balanced" Samples.app16).1).1)
  = "Silent".
Proof.
  refine (proj2 (profile_switch_after_switch PowerManagerSpec.apply_profile
                   (Some Samples.profiles) "Balanced" "Silent" Samples.app16
                   Samples.startup_profile MoreSamples.silent_profile
                   MoreSamples.manager_after_startup
                   MoreSamples.manager_after_silent true _ _ _ _));
    vm_compute; reflexivity.
Defined.


Lemma labels_show_last_reading_witness :
  metric_labels (run_ticks [Samples.reading; ∅]
                           (_create_metrics_display Samples.framework13))
    !! "cpu_temp"
  = Some (mkLabelText "CPU TEMP"
                      (last_reading "cpu_temp" [Samples.reading; ∅]) "°C").
Proof.
  refine (proj1 (labels_show_last_reading Samples.framework13
                   [Samples.reading; ∅] "CPU TEMP" "cpu_temp" "°C" _)).
  apply (bool_decide_unpack _). vm_compute. exact I.
Defined.

Lemma update_all_windows_walk_witness :
  update_all_windows MoreSamples.count_refresh [1; 2; 3] MoreSamples.windows
  = walk_windows MoreSamples.count_refresh [1; 2; 3] MoreSamples.windows.
Proof.
  apply update_all_windows_walk.
  apply (bool_decide_unpack _). vm_compute. exact I.
Defined.

Lemma live_windows_stay_registered_witness :
  3 ∈ (update_all_windows MoreSamples.count_refresh [1; 2; 3]
                          MoreSamples.windows).1.1.
Proof.
  apply live_windows_stay_registered.
  - apply (bool_decide_unpack _). vm_compute. exact I.
  - apply (bool_decide_unpack _). vm_compute. exact I.
  - reflexivity.
Defined.

Lemma window_after_dropped_is_skipped_witness :
  (update_all_windows MoreSamples.count_refresh [1; 2; 3]
                      MoreSamples.windows).1.2 3
  = MoreSamples.windows 3.
Proof.
  refine (proj2 (window_after_dropped_is_skipped MoreSamples.count_refresh
                   [1] [] 2 3 MoreSamples.windows _ _ _)).
  - apply (bool_decide_unpack _). vm_compute. exact I.
  - intros w Hw. apply list_elem_of_singleton in Hw as ->.
    split; reflexivity.
  - reflexivity.
Defined.

Lemma all_windows_refreshed_witness :
  (update_all_windows MoreSamples.count_refresh [1; 3] MoreSamples.windows).1.1
  = [1; 3].
Proof.
  refine (proj1 (all_windows_refreshed MoreSamples.count_refresh [1; 3]
                   MoreSamples.windows _ _)).
  - apply (bool_decide_unpack _). vm_compute. exact I.
  - intros w Hw.
    apply elem_of_cons in Hw as [->|Hw];
      [|apply list_elem_of_singleton in Hw as ->]; split; reflexivity.
Defined.

Lemma close_undoes_register_witness :
  _on_close_registry 4 (register_window 4 [1; 2; 3]) = ([1; 2; 3], None).
Proof.
  refine (proj1 (close_undoes_register 4 [1; 2; 3] _)).
  apply (bool_decide_unpack _). vm_compute. exact I.
Defined.

Lemma parse_updates_well_formed_witness :
  NoDup (parse_updates MoreSamples.upgrade_output).*1.
Proof.
  refine (proj1 (parse_updates_well_formed MoreSamples.upgrade_output _)).
  vm_compute; reflexivity.
Defined.

Lemma parse_installed_well_formed_witness :
  Forall installed_entry_ok (parse_installed MoreSamples.list_output 0).
Proof.
  refine (proj2 (parse_installed_well_formed MoreSamples.list_output 0 _)).
  repeat constructor.
Defined.

Lemma package_list_contents_witness :
  package_name <$> show_packages MoreSamples.updates MoreSamples.installed []
  = ["Foo Tool"; "Bar"; "Baz"].
Proof.
  destruct (package_list_contents MoreSamples.updates MoreSamples.installed)
    as (Hrows & _).
  - apply (bool_decide_unpack _). vm_compute. exact I.
  - apply (bool_decide_unpack _). vm_compute. exact I.
  - rewrite Hrows. vm_compute. reflexivity.
Defined.

Lemma select_all_picks_updates_witness :
  selected_packages
    (foldl (fun rows b => _toggle_all_packages b rows)
           (show_packages MoreSamples.updates MoreSamples.installed [])
           [true; false; true])
  = ["Foo Tool"; "Bar"].
Proof.
  refine (proj1 (select_all_picks_updates MoreSamples.updates
                   MoreSamples.installed [true; false; true] _)).
  repeat constructor; discriminate.
Defined.

End MoreInstances.


